(** * StudyBuddy: the quiz bookkeeping of [QuizOverlay] and [QuizHistoryModal]

    A shallow embedding of the spaced-repetition bookkeeping done by
    [handleSubmit] (components/QuizOverlay.tsx) and of [clearHistory]
    (components/QuizHistoryModal.tsx), with the properties the design
    document states about them.

    Modelling conventions.
    - Ids, indices, scores and timestamps are integers far below [2^53];
      they are modelled as [Z].
    - The mastery object (the result of [JSON.parse] on an object literal)
      is embedded twice.  [QuizOverlay] takes it as the design document
      does, as a finite map from topic names to integer counters
      ([gmap string Z]); this is the embedding of [handleSubmit] as a
      whole, with its three keys.  [QuizOverlayHost] embeds the [forEach]
      loop and the two writes that follow it over the object as the host
      has it ([Js]): a property read goes through [Object.prototype],
      [|| 0], [+ 1], [- 1] and [Math.max] take whatever was read, a
      number is a double, and [JSON.stringify] writes [NaN] as [null].
      The two embeddings agree on topics that no plain object inherits
      and on counters that stay within [2^53], topic by topic
      ([host_counter_follows]) and as a whole
      ([forEach_questions_of_locals], [handleSubmit_agrees_with_host]);
      the weak-topic set and the score are the same in both, whatever
      the topics and the counters ([forEach_questions_weak_count]).
    - A stored mastery document holds, for each of its topics, an integer
      literal, [null], or one of the texts that the loop itself can come
      to write ([Js.json]).
    - A JavaScript [Set<string>] iterates in insertion order and
      [Array.from] exposes that order to the persisted array; it is
      modelled as a duplicate-free list in insertion order ([JsSet]).
    - [localStorage] holds text.  What [handleSubmit] can observe of one
      key is whether it is missing, empty, text that [JSON.parse] rejects,
      or a JSON document of the shape the application writes ([slot]).
    - The browser's state is threaded explicitly: a computation maps a
      [Storage] to the [Storage] it leaves behind and either a value or a
      thrown exception ([js]).  [setItem] and [removeItem] always succeed
      (no storage quota).

    The second half of the file embeds the other handlers of the quiz
    overlay and of the history modal, [generateQuizFromMaterials], and the
    list handlers of [StudyMaterials] and [ChatInterface], with further
    conventions.
    - A call to the model is asynchronous and its reply is not the
      application's: the reply (or the failure of the call) is an input of
      the embedding, and a handler that awaits one is given by the state it
      leaves once the promise is settled, or by its steps before and after
      the [await] when other handlers may run in between.
    - [Array.prototype.sort] is the stable sort ([Array.sort]).
    - [String.prototype.trim] is a parameter of the handlers that call it;
      what is proved of them holds for whatever it returns.
    - [Date.now()], [generateId()], [confirm(...)] and [prompt(...)] are
      inputs of the handler that calls them. *)

From stdpp Require Import gmap strings list fin_maps pretty sorting.
From Stdlib Require Import ZArith Lia.

Local Open Scope Z_scope.

(* ===================================================================== *)
(** ** types.ts *)
(* ===================================================================== *)

Module QuizQuestion.
Record t : Type := mk {
  id : Z;
  question : string;
  options : list string;
  correctAnswerIndex : Z;
  explanation : string;
  topic : string
}.
End QuizQuestion.

Module QuizData.
Record t : Type := mk {
  title : string;
  questions : list QuizQuestion.t
}.
End QuizData.

Module QuizResult.
Record t : Type := mk {
  id : string;
  title : string;
  score : Z;
  totalQuestions : Z;
  date : Z;
  topic : option string
}.
End QuizResult.

(* ===================================================================== *)
(** ** The host: [Set<string>], [localStorage], exceptions *)
(* ===================================================================== *)

(** [Set<string>]: the elements in insertion order. *)
Module JsSet.
Definition has (s : list string) (x : string) : bool :=
  bool_decide (x ∈ s).

(** [s.add(x)]: a new element goes last, a present one keeps its place. *)
Definition add (s : list string) (x : string) : list string :=
  if has s x then s else s ++ [x].

(** [s.delete(x)]. *)
Definition delete (s : list string) (x : string) : list string :=
  filter (λ y, y ≠ x) s.

(** [new Set(array)]: the elements are added one after the other. *)
Definition from_array (l : list string) : list string :=
  foldl add [] l.

(** [Array.from(s)]. *)
Definition to_array (s : list string) : list string := s.
End JsSet.

(** What one [localStorage] key holds, as far as
    [JSON.parse(localStorage.getItem(key) || dflt)] can tell. *)
Inductive slot (A : Type) : Type :=
  | Absent              (* [getItem] returns [null] *)
  | Blank               (* the empty string, falsy like [null] *)
  | Malformed           (* text on which [JSON.parse] throws *)
  | Holds (a : A).      (* the JSON text of [a] *)
Arguments Absent {A}.
Arguments Blank {A}.
Arguments Malformed {A}.
Arguments Holds {A} a.

(** The three keys of the quiz bookkeeping. *)
Record Storage : Type := mkStorage {
  studyBuddy_topic_mastery : slot (gmap string Z);
  studyBuddy_weakTopics : slot (list string);
  studyBuddy_quizHistory : slot (list QuizResult.t)
}.

Inductive js_error : Type :=
  | SyntaxError.

Inductive completion (A : Type) : Type :=
  | Normal (a : A)
  | Throw (e : js_error).
Arguments Normal {A} a.
Arguments Throw {A} e.

(** Computations over the browser's storage that may throw. *)
Definition js (A : Type) : Type := Storage → Storage * completion A.

Global Instance js_ret : MRet js := λ A a st, (st, Normal a).

Global Instance js_bind : MBind js := λ A B k c st,
  match c st with
  | (st', Normal a) => k a st'
  | (st', Throw e) => (st', Throw e)
  end.

(** [JSON.parse(text || dflt)] where [dflt] is the JSON text of [d]. *)
Definition parse_or {A} (d : A) (s : slot A) : completion A :=
  match s with
  | Absent | Blank => Normal d
  | Malformed => Throw SyntaxError
  | Holds a => Normal a
  end.

Module localStorage.
Definition get_topic_mastery : js (slot (gmap string Z)) :=
  λ st, (st, Normal (studyBuddy_topic_mastery st)).
Definition get_weakTopics : js (slot (list string)) :=
  λ st, (st, Normal (studyBuddy_weakTopics st)).
Definition get_quizHistory : js (slot (list QuizResult.t)) :=
  λ st, (st, Normal (studyBuddy_quizHistory st)).

Definition set_topic_mastery (m : gmap string Z) : js unit :=
  λ st, (mkStorage (Holds m) (studyBuddy_weakTopics st)
           (studyBuddy_quizHistory st), Normal tt).
Definition set_weakTopics (l : list string) : js unit :=
  λ st, (mkStorage (studyBuddy_topic_mastery st) (Holds l)
           (studyBuddy_quizHistory st), Normal tt).
Definition set_quizHistory (h : list QuizResult.t) : js unit :=
  λ st, (mkStorage (studyBuddy_topic_mastery st)
           (studyBuddy_weakTopics st) (Holds h), Normal tt).

Definition remove_quizHistory : js unit :=
  λ st, (mkStorage (studyBuddy_topic_mastery st)
           (studyBuddy_weakTopics st) Absent, Normal tt).
End localStorage.

(** [JSON.parse] as a computation: its exception aborts the caller. *)
Definition JSON_parse_or {A} (d : A) (s : slot A) : js A :=
  λ st, (st, parse_or d s).

(* ===================================================================== *)
(** ** The host: numbers and plain objects *)
(* ===================================================================== *)

Module Js.

(** The values met as properties of the mastery object: what [JSON.parse]
    gives for a document of integer counters, and what the two assignments
    of the [forEach] callback compute from them. *)
Inductive value : Type :=
  | Num (z : Z)            (* a finite number, of integer value [z] *)
  | Inf (negative : bool)  (* [Infinity], [-Infinity] *)
  | NaN
  | Null
  | FunText (member : string) (ones : nat)
      (* the source text of the native function that plain objects
         inherit under the name [member], followed by [ones] digits 1 *)
  | ObjText (ones : nat).
      (* the text of [String({})], followed by [ones] digits 1 *)

(** The number nearest to the integer [z]: a 53-bit significand, ties to
    the even significand, [Infinity] from [2^1024 - 2^970] on.  This is
    what a numeric literal denotes and what [+] and [-] return for the
    exact sum or difference [z]. *)
Definition round_double (z : Z) : value :=
  let a := Z.abs z in
  if bool_decide (a < 2 ^ 53) then Num z
  else
    let e := Z.log2 a - 52 in
    let q := a / 2 ^ e in
    let r := a mod 2 ^ e in
    let half := 2 ^ (e - 1) in
    let q' := if bool_decide (r < half) then q
              else if bool_decide (half < r) then q + 1
              else if Z.even q then q else q + 1 in
    if bool_decide (2 ^ 1024 ≤ q' * 2 ^ e) then Inf (bool_decide (z < 0))
    else Num (Z.sgn z * (q' * 2 ^ e)).

(** A plain object: its own properties, and whether its prototype is
    still [Object.prototype] (it is after [JSON.parse]). *)
Record object : Type := mkObject {
  own : gmap string value;
  has_prototype : bool
}.

(** The function-valued properties of [Object.prototype]. *)
Definition methods : list string :=
  ["constructor"; "hasOwnProperty"; "isPrototypeOf";
   "propertyIsEnumerable"; "toLocaleString"; "toString"; "valueOf";
   "__defineGetter__"; "__defineSetter__";
   "__lookupGetter__"; "__lookupSetter__"].

(** The names under which a plain object finds an inherited property. *)
Definition inherited_names : list string := "__proto__" :: methods.

(** What [o[k]] evaluates to. *)
Inductive looked_up : Type :=
  | Found (v : value)        (* an own property *)
  | Method (member : string) (* a function of [Object.prototype] *)
  | Prototype                (* the getter of [__proto__]: the prototype *)
  | Missing.                 (* [undefined] *)

(** [o[k]]: own properties first, then the prototype. *)
Definition get (o : object) (k : string) : looked_up :=
  match own o !! k with
  | Some v => Found v
  | None =>
    if has_prototype o then
      if bool_decide (k = "__proto__") then Prototype
      else if bool_decide (k ∈ methods) then Method k
      else Missing
    else Missing
  end.

(** [o[k] = v].  An own property is overwritten and a new name becomes an
    own property, except for [__proto__] on an object that has none of
    its own: the inherited setter runs instead, which sets the prototype
    when [v] is [null] and ignores every other primitive. *)
Definition set (o : object) (k : string) (v : value) : object :=
  match own o !! k with
  | None =>
    if has_prototype o && bool_decide (k = "__proto__") then
      match v with
      | Null => mkObject (own o) false
      | _ => o
      end
    else mkObject (<[k := v]> (own o)) (has_prototype o)
  | Some _ => mkObject (<[k := v]> (own o)) (has_prototype o)
  end.

(** [x || 0]: [undefined], [null], [NaN] and [0] are falsy; functions,
    objects, non-empty strings and the other numbers are truthy. *)
Definition or_zero (x : looked_up) : looked_up :=
  match x with
  | Missing | Found Null | Found NaN => Found (Num 0)
  | Found (Num z) => if bool_decide (z = 0) then Found (Num 0) else x
  | _ => x
  end.

(** [x + 1]: addition on numbers; when [x] is a string, a function or an
    object, the concatenation of its text with the digit 1. *)
Definition plus_one (x : looked_up) : value :=
  match x with
  | Found (Num z) => round_double (z + 1)
  | Found (Inf negative) => Inf negative
  | Found NaN => NaN
  | Found Null => Num 1
  | Found (FunText member ones) => FunText member (S ones)
  | Found (ObjText ones) => ObjText (S ones)
  | Method member => FunText member 1
  | Prototype => ObjText 1
  | Missing => NaN
  end.

(** [x - 1]: subtraction on numbers; the texts above are not numerals and
    functions and objects convert through their text, so they give
    [NaN]. *)
Definition minus_one (x : looked_up) : value :=
  match x with
  | Found (Num z) => round_double (z - 1)
  | Found (Inf negative) => Inf negative
  | Found Null => Num (-1)
  | _ => NaN
  end.

(** [Math.max(0, v)] *)
Definition max0 (v : value) : value :=
  match v with
  | Num z => Num (Z.max 0 z)
  | Inf negative => if negative then Num 0 else Inf false
  | Null => Num 0
  | _ => NaN
  end.

(** A JSON value in a stored mastery document. *)
Inductive json : Type :=
  | JNumber (z : Z)       (* an integer literal *)
  | JNull
  | JFunText (member : string) (ones : nat)
  | JObjText (ones : nat).

Definition JSON_parse_value (j : json) : value :=
  match j with
  | JNumber z => round_double z
  | JNull => Null
  | JFunText member ones => FunText member ones
  | JObjText ones => ObjText ones
  end.

(** [JSON.parse] of an object literal: every member becomes an own
    property, [__proto__] included. *)
Definition JSON_parse (doc : gmap string json) : object :=
  mkObject (JSON_parse_value <$> doc) true.

(** [JSON.stringify] writes [NaN] and the infinities as [null]. *)
Definition JSON_stringify_value (v : value) : json :=
  match v with
  | Num z => JNumber z
  | Inf _ | NaN | Null => JNull
  | FunText member ones => JFunText member ones
  | ObjText ones => JObjText ones
  end.

Definition JSON_stringify (o : object) : gmap string json :=
  JSON_stringify_value <$> own o.

End Js.

(* ===================================================================== *)
(** ** components/QuizOverlay.tsx *)
(* ===================================================================== *)

Module QuizOverlay.

(** The component state [handleSubmit] reads and writes. *)
Record State : Type := mkState {
  quizData : option QuizData.t;
  answers : gmap Z Z;
  focusTopic : string;
  selectedSubject : string;
  submitted : bool;
  score : Z
}.

(** The locals of [handleSubmit] that the [forEach] callback updates.
    The mastery object is here the finite map of its integer counters;
    [QuizOverlayHost] has it as the host does. *)
Record Locals : Type := mkLocals {
  correctCount : Z;
  currentMastery : gmap string Z;
  weakTopicsSet : list string
}.

(** [v || 0] on an integer counter read from the mastery object:
    [undefined] and [0] are falsy.  ([Js.or_zero] has the other
    operands.) *)
Definition or_zero (v : option Z) : Z :=
  match v with
  | Some n => if bool_decide (n = 0) then 0 else n
  | None => 0
  end.

(** [answers[q.id] === q.correctAnswerIndex] *)
Definition isCorrect (answers : gmap Z Z) (q : QuizQuestion.t) : bool :=
  bool_decide (answers !! QuizQuestion.id q
               = Some (QuizQuestion.correctAnswerIndex q)).

(** The two branches of the callback, on integer counters; they use
    the question only through [q.topic]. *)
Definition record_outcome (l : Locals) (o : string * bool) : Locals :=
  let topic := o.1 in
  if o.2 then
    {| correctCount := correctCount l + 1;
       weakTopicsSet :=
         if JsSet.has (weakTopicsSet l) topic
         then JsSet.delete (weakTopicsSet l) topic
         else weakTopicsSet l;
       currentMastery :=
         <[topic := or_zero (currentMastery l !! topic) + 1]>
           (currentMastery l) |}
  else
    {| correctCount := correctCount l;
       weakTopicsSet := JsSet.add (weakTopicsSet l) topic;
       currentMastery :=
         <[topic := Z.max 0 (or_zero (currentMastery l !! topic) - 1)]>
           (currentMastery l) |}.

(** The callback of [quizData.questions.forEach]. *)
Definition forEach_body (answers : gmap Z Z) (l : Locals)
    (q : QuizQuestion.t) : Locals :=
  record_outcome l (QuizQuestion.topic q, isCorrect answers q).

Definition forEach_questions (answers : gmap Z Z)
    (qs : list QuizQuestion.t) (l : Locals) : Locals :=
  foldl (forEach_body answers) l qs.

(** The (topic, isCorrect) outcomes of a quiz, in question order. *)
Definition outcomes (answers : gmap Z Z) (qs : list QuizQuestion.t)
    : list (string * bool) :=
  (λ q, (QuizQuestion.topic q, isCorrect answers q)) <$> qs.

(** The loop seen on outcomes. *)
Definition process (os : list (string * bool)) (l : Locals) : Locals :=
  foldl record_outcome l os.

(** A non-empty string is truthy. *)
Definition truthy (s : string) : bool := negb (bool_decide (s = "")).

Definition topicDisplay (focusTopic selectedSubject : string) : string :=
  let t := focusTopic in
  let t := if negb (truthy t)
              && negb (bool_decide (selectedSubject = "General / Any"))
           then selectedSubject else t in
  if negb (truthy t) then "General" else t.

(** The record [handleSubmit] builds; [now_id] and [now_date] are the
    values of its two [Date.now()] calls. *)
Definition make_result (quiz : QuizData.t) (correctCount : Z)
    (focusTopic selectedSubject : string) (now_id now_date : Z)
    : QuizResult.t :=
  {| QuizResult.id := pretty now_id;
     QuizResult.title := QuizData.title quiz;
     QuizResult.score := correctCount;
     QuizResult.totalQuestions :=
       Z.of_nat (length (QuizData.questions quiz));
     QuizResult.date := now_date;
     QuizResult.topic :=
       Some (topicDisplay focusTopic selectedSubject) |}.

Definition handleSubmit (c : State) (now_id now_date : Z) : js State :=
  match quizData c with
  | None => mret c
  | Some quiz =>
    raw_mastery ← localStorage.get_topic_mastery;
    mastery0 ← JSON_parse_or ∅ raw_mastery;
    raw_weak ← localStorage.get_weakTopics;
    weak0 ← JSON_parse_or [] raw_weak;
    let l := forEach_questions (answers c) (QuizData.questions quiz)
               {| correctCount := 0;
                  currentMastery := mastery0;
                  weakTopicsSet := JsSet.from_array weak0 |} in
    localStorage.set_topic_mastery (currentMastery l);;
    localStorage.set_weakTopics (JsSet.to_array (weakTopicsSet l));;
    let result := make_result quiz (correctCount l) (focusTopic c)
                    (selectedSubject c) now_id now_date in
    raw_history ← localStorage.get_quizHistory;
    existingHistory ← JSON_parse_or [] raw_history;
    localStorage.set_quizHistory (existingHistory ++ [result]);;
    mret {| quizData := quizData c;
            answers := answers c;
            focusTopic := focusTopic c;
            selectedSubject := selectedSubject c;
            submitted := true;
            score := correctCount l |}
  end.

End QuizOverlay.

(* ===================================================================== *)
(** ** components/QuizHistoryModal.tsx *)
(* ===================================================================== *)

Module QuizHistoryModal.

(** [confirmed] is the answer of the [confirm(...)] dialog; the state is
    the [history] the modal displays. *)
Definition clearHistory (confirmed : bool) (history : list QuizResult.t)
    : js (list QuizResult.t) :=
  if confirmed then
    localStorage.remove_quizHistory;;
    mret []
  else mret history.

End QuizHistoryModal.

(* ===================================================================== *)
(** ** The Topic Mastery Updater as the design document words it *)
(* ===================================================================== *)

Module Updater.

(** The updater's abstract state: the mastery mapping and the set of
    weak topics (membership only). *)
Definition state : Type := gmap string Z * gset string.

(** One outcome:
    - correct: [mastery[topic] = mastery[topic] + 1] (0 if absent), the
      topic leaves the weak-topic set;
    - incorrect: [mastery[topic] = max(0, mastery[topic] - 1)], the
      topic joins the weak-topic set. *)
Definition apply_outcome (s : state) (o : string * bool) : state :=
  let m := s.1 in
  let w := s.2 in
  let topic := o.1 in
  if o.2
  then (<[topic := default 0 (m !! topic) + 1]> m, w ∖ {[topic]})
  else (<[topic := Z.max 0 (default 0 (m !! topic) - 1)]> m,
        w ∪ {[topic]}).

(** The outcomes of a batch, in sequence order. *)
Definition update (s : state) (os : list (string * bool)) : state :=
  foldl apply_outcome s os.

(** The last outcome of [topic] in a batch, if it has one. *)
Definition last_outcome (topic : string) (os : list (string * bool))
    : option bool :=
  last (filter (λ o, o.1 = topic) os).*2.

(** Every counter of a mastery mapping is at least 0. *)
Definition nonneg (m : gmap string Z) : Prop :=
  map_Forall (λ _ n, 0 ≤ n) m.

End Updater.

(** What the loop's locals stand for in the updater's terms. *)
Definition abstraction (l : QuizOverlay.Locals) : Updater.state :=
  (QuizOverlay.currentMastery l,
   list_to_set (QuizOverlay.weakTopicsSet l)).

(** A key that [handleSubmit] can load. *)
Definition readable {A} (s : slot A) : bool :=
  match s with
  | Malformed => false
  | _ => true
  end.

(** The locals after the loop of a submission that could load [mastery0]
    and [weak0]. *)
Definition loop_result (c : QuizOverlay.State) (quiz : QuizData.t)
    (mastery0 : gmap string Z) (weak0 : list string) : QuizOverlay.Locals :=
  QuizOverlay.forEach_questions (QuizOverlay.answers c)
    (QuizData.questions quiz)
    {| QuizOverlay.correctCount := 0;
       QuizOverlay.currentMastery := mastery0;
       QuizOverlay.weakTopicsSet := JsSet.from_array weak0 |}.

(** The number of questions of the quiz whose selected answer is the
    correct one. *)
Definition score_of (c : QuizOverlay.State) (quiz : QuizData.t) : Z :=
  Z.of_nat (length (filter (λ q, QuizOverlay.isCorrect (QuizOverlay.answers c) q = true)
                      (QuizData.questions quiz))).

(* ===================================================================== *)
(** ** components/QuizOverlay.tsx: the loop on the host's objects *)
(* ===================================================================== *)

(** The [forEach] loop of [handleSubmit] once more, with the mastery
    object as the host has it: [currentMastery[q.topic]] reads through
    the prototype, [|| 0], [+ 1], [- 1] and [Math.max] take whatever was
    read, and numbers are doubles. *)
Module QuizOverlayHost.

Record Locals : Type := mkLocals {
  correctCount : Z;
  currentMastery : Js.object;
  weakTopicsSet : list string
}.

(** The callback of [quizData.questions.forEach]. *)
Definition forEach_callback (answers : gmap Z Z) (l : Locals)
    (q : QuizQuestion.t) : Locals :=
  let topic := QuizQuestion.topic q in
  if QuizOverlay.isCorrect answers q then
    {| correctCount := correctCount l + 1;
       weakTopicsSet :=
         if JsSet.has (weakTopicsSet l) topic
         then JsSet.delete (weakTopicsSet l) topic
         else weakTopicsSet l;
       currentMastery :=
         Js.set (currentMastery l) topic
           (Js.plus_one (Js.or_zero (Js.get (currentMastery l) topic))) |}
  else
    {| correctCount := correctCount l;
       weakTopicsSet := JsSet.add (weakTopicsSet l) topic;
       currentMastery :=
         Js.set (currentMastery l) topic
           (Js.max0
              (Js.minus_one
                 (Js.or_zero (Js.get (currentMastery l) topic)))) |}.

Definition forEach_questions (answers : gmap Z Z)
    (qs : list QuizQuestion.t) (l : Locals) : Locals :=
  foldl (forEach_callback answers) l qs.

(** Lines 98 to 120 of [handleSubmit]: the two loads, the loop, and what
    the two [setItem] calls are given for the mastery and the weak-topic
    key. *)
Definition handleSubmit_update (answers : gmap Z Z)
    (qs : list QuizQuestion.t)
    (raw_mastery : slot (gmap string Js.json))
    (raw_weak : slot (list string))
    : completion (gmap string Js.json * list string) :=
  match parse_or ∅ raw_mastery with
  | Throw e => Throw e
  | Normal mastery0 =>
    match parse_or [] raw_weak with
    | Throw e => Throw e
    | Normal weak0 =>
      let l := forEach_questions answers qs
                 {| correctCount := 0;
                    currentMastery := Js.JSON_parse mastery0;
                    weakTopicsSet := JsSet.from_array weak0 |} in
      Normal (Js.JSON_stringify (currentMastery l),
              JsSet.to_array (weakTopicsSet l))
    end
  end.

(** The object whose own properties are the integer counters of [m]. *)
Definition of_counters (m : gmap string Z) : Js.object :=
  Js.mkObject (Js.Num <$> m) true.

Definition of_locals (l : QuizOverlay.Locals) : Locals :=
  {| correctCount := QuizOverlay.correctCount l;
     currentMastery := of_counters (QuizOverlay.currentMastery l);
     weakTopicsSet := QuizOverlay.weakTopicsSet l |}.

(** The counter of [t] in [m] (0 when it has none) has room for the
    questions of [qs] on [t]: whatever the answers, it stays among the
    integers up to [2^53] in magnitude. *)
Definition has_room (t : string) (qs : list QuizQuestion.t)
    (m : gmap string Z) : Prop :=
  Z.abs (default 0 (m !! t))
  + Z.of_nat (length (filter (λ q, QuizQuestion.topic q = t) qs)) ≤ 2 ^ 53.

End QuizOverlayHost.

(* ===================================================================== *)
(** ** Sample data *)
(* ===================================================================== *)

Module Sample.

Definition question (id : Z) (topic : string) (correct : Z)
    : QuizQuestion.t :=
  {| QuizQuestion.id := id;
     QuizQuestion.question := "?";
     QuizQuestion.options := ["a"; "b"; "c"; "d"];
     QuizQuestion.correctAnswerIndex := correct;
     QuizQuestion.explanation := "";
     QuizQuestion.topic := topic |}.

(** Two questions on Thermodynamics, one on Algebra. *)
Definition quiz : QuizData.t :=
  {| QuizData.title := "Physics review";
     QuizData.questions :=
       [question 1 "Thermodynamics" 0;
        question 2 "Thermodynamics" 1;
        question 3 "Algebra" 2] |}.

(** The first question answered right, the other two wrong. *)
Definition picked : gmap Z Z := {[ 1 := 0; 2 := 3; 3 := 1 ]}.

(** The same, the third question left unanswered. *)
Definition picked_two : gmap Z Z := {[ 1 := 0; 2 := 3 ]}.

Definition overlay (answers : gmap Z Z) : QuizOverlay.State :=
  {| QuizOverlay.quizData := Some quiz;
     QuizOverlay.answers := answers;
     QuizOverlay.focusTopic := "";
     QuizOverlay.selectedSubject := "Physics";
     QuizOverlay.submitted := false;
     QuizOverlay.score := 0 |}.

Definition batch : list (string * bool) :=
  [("Thermodynamics", true); ("Thermodynamics", false); ("Algebra", false)].

Definition fresh : QuizOverlay.Locals :=
  {| QuizOverlay.correctCount := 0;
     QuizOverlay.currentMastery := ∅;
     QuizOverlay.weakTopicsSet := [] |}.

Definition empty_storage : Storage := mkStorage Absent Absent Absent.

Definition earlier : QuizResult.t :=
  {| QuizResult.id := "1700000000000";
     QuizResult.title := "Algebra basics";
     QuizResult.score := 2;
     QuizResult.totalQuestions := 5;
     QuizResult.date := 1700000000000;
     QuizResult.topic := Some "Algebra" |}.

Definition used_storage : Storage :=
  mkStorage (Holds {[ "Algebra" := 2 ]}) (Holds ["Algebra"])
    (Holds [earlier]).

End Sample.

(* ===================================================================== *)
(** ** types.ts, continued *)
(* ===================================================================== *)

Module StudyMaterial.
Inductive kind : Type := text | pdf.

Global Instance kind_eq_dec : EqDecision kind.
Proof. solve_decision. Defined.

(** Optional fields are [None] when the property is missing. *)
Record t : Type := mk {
  id : string;
  type : kind;
  content : string;
  name : option string;
  mimeType : option string;
  summary : option string;
  isSummarizing : option bool
}.
End StudyMaterial.

(* ===================================================================== *)
(** ** services/geminiService.ts: [generateQuizFromMaterials] *)
(* ===================================================================== *)

Module geminiService.

(** What a [catch] is handed, as far as [err.message] can tell. *)
Inductive thrown : Type :=
  | Nullish                        (* [null] or [undefined] *)
  | WithMessage (message : string).
      (* any other value; [message] is its [.message], empty when it has
         none *)

(** What [JSON.parse] makes of the reply text; the result is returned
    unchecked, [as QuizData]. *)
Inductive parsed : Type :=
  | ParsedNull                     (* [null] *)
  | ParsedQuiz (quiz : QuizData.t)
  | ParsedOther.                   (* any other value *)

(** What the call to the model can come to.  The prompt and the parts
    built from the arguments only shape the request; the reply is an
    input of the embedding. *)
Inductive ai_reply : Type :=
  | CallFails (err : thrown)       (* [generateContent] rejects with [err] *)
  | NoText                         (* [response.text] is falsy *)
  | BadJson (message : string)     (* [JSON.parse(text)] throws *)
  | Json (data : parsed).          (* [JSON.parse(text)] returns [data] *)

(** [materials.length === 0 || materials.every(m => !m.content)] *)
Definition nothing_to_quiz (materials : list StudyMaterial.t) : bool :=
  bool_decide (length materials = 0%nat)
  || forallb (λ m, negb (QuizOverlay.truthy (StudyMaterial.content m)))
       materials.

(** The result is whether a request was sent, and either what the
    promise is rejected with (the [catch] logs and rethrows) or the value
    it is resolved with. *)
Definition generateQuizFromMaterials (materials : list StudyMaterial.t)
    (weakTopics : list string) (focusTopic subject : string)
    (reply : ai_reply) : bool * (thrown + parsed) :=
  if nothing_to_quiz materials
  then (false,
        inl (WithMessage
               "Please add some notes or upload a PDF to generate a quiz."))
  else (true,
        match reply with
        | CallFails err => inl err
        | NoText => inl (WithMessage "No data returned")
        | BadJson message => inl (WithMessage message)
        | Json data => inr data
        end).

End geminiService.

(* ===================================================================== *)
(** ** components/QuizOverlay.tsx, the other handlers *)
(* ===================================================================== *)

Module QuizOverlayControls.

Inductive Step : Type := setup | loading | quiz.

(** The component state of the setup screen. *)
Record Setup : Type := mkSetup {
  step : Step;
  selectedMaterialIds : list string;
  selectedSubject : string;
  focusTopic : string;
  includeWeakTopics : bool;
  availableWeakTopics : list string;
  quizData : geminiService.parsed;   (* initially [null] *)
  error : option string
}.

(** The mount effect: the stored weak topics, or the initial [[]] when
    the key is missing, empty, or its text does not parse (the [catch]
    only logs). *)
Definition mount_availableWeakTopics : js (list string) :=
  weakTopicsJson ← localStorage.get_weakTopics;
  mret (match weakTopicsJson with
        | Holds topics => topics
        | _ => []
        end).

Definition toggleMaterial (selectedMaterialIds : list string) (id : string)
    : list string :=
  if JsSet.has selectedMaterialIds id
  then JsSet.delete selectedMaterialIds id
  else JsSet.add selectedMaterialIds id.

(** [err.message || "Failed to generate quiz"] *)
Definition message_or_default (message : string) : string :=
  if QuizOverlay.truthy message then message else "Failed to generate quiz".

(** The state once the promise of [generateQuizFromMaterials] is settled
    and the handler has run as far as it gets, and whether a request was
    sent.  When the promise is rejected with [null] or [undefined],
    [err.message] throws a [TypeError] inside the [catch]: neither
    [setError] nor [setStep('setup')] runs. *)
Definition handleStartQuiz (materials : list StudyMaterial.t) (s : Setup)
    (reply : geminiService.ai_reply) : Setup * bool :=
  if bool_decide (length (selectedMaterialIds s) = 0%nat) then
    ({| step := step s;
        selectedMaterialIds := selectedMaterialIds s;
        selectedSubject := selectedSubject s;
        focusTopic := focusTopic s;
        includeWeakTopics := includeWeakTopics s;
        availableWeakTopics := availableWeakTopics s;
        quizData := quizData s;
        error := Some "Please select at least one study material." |},
     false)
  else
    let filteredMaterials :=
      filter (λ m, JsSet.has (selectedMaterialIds s) (StudyMaterial.id m)
                   = true) materials in
    match geminiService.generateQuizFromMaterials filteredMaterials
            (if includeWeakTopics s then availableWeakTopics s else [])
            (focusTopic s) (selectedSubject s) reply with
    | (sent, inr data) =>
      ({| step := quiz;
          selectedMaterialIds := selectedMaterialIds s;
          selectedSubject := selectedSubject s;
          focusTopic := focusTopic s;
          includeWeakTopics := includeWeakTopics s;
          availableWeakTopics := availableWeakTopics s;
          quizData := data;
          error := None |},
       sent)
    | (sent, inl geminiService.Nullish) =>
      ({| step := loading;
          selectedMaterialIds := selectedMaterialIds s;
          selectedSubject := selectedSubject s;
          focusTopic := focusTopic s;
          includeWeakTopics := includeWeakTopics s;
          availableWeakTopics := availableWeakTopics s;
          quizData := quizData s;
          error := None |},
       sent)
    | (sent, inl (geminiService.WithMessage message)) =>
      ({| step := setup;
          selectedMaterialIds := selectedMaterialIds s;
          selectedSubject := selectedSubject s;
          focusTopic := focusTopic s;
          includeWeakTopics := includeWeakTopics s;
          availableWeakTopics := availableWeakTopics s;
          quizData := quizData s;
          error := Some (message_or_default message) |},
       sent)
    end.

(** [handleOptionSelect]: ignored once the quiz is submitted. *)
Definition handleOptionSelect (c : QuizOverlay.State) (qId optionIdx : Z)
    : QuizOverlay.State :=
  if QuizOverlay.submitted c then c
  else {| QuizOverlay.quizData := QuizOverlay.quizData c;
          QuizOverlay.answers := <[qId := optionIdx]> (QuizOverlay.answers c);
          QuizOverlay.focusTopic := QuizOverlay.focusTopic c;
          QuizOverlay.selectedSubject := QuizOverlay.selectedSubject c;
          QuizOverlay.submitted := QuizOverlay.submitted c;
          QuizOverlay.score := QuizOverlay.score c |}.

(** A click on option [p.2] of the rendered question [p.1]. *)
Definition click (c : QuizOverlay.State) (p : QuizQuestion.t * Z)
    : QuizOverlay.State :=
  handleOptionSelect c (QuizQuestion.id p.1) p.2.

(** A run of clicks, in order. *)
Definition clicks (c : QuizOverlay.State) (ps : list (QuizQuestion.t * Z))
    : QuizOverlay.State :=
  foldl click c ps.

(** The [disabled] attribute of the Submit button:
    [Object.keys(answers).length !== quizData?.questions.length]. *)
Definition submit_disabled (c : QuizOverlay.State) : bool :=
  match QuizOverlay.quizData c with
  | None => true
  | Some data =>
    negb (bool_decide (size (QuizOverlay.answers c)
                       = length (QuizData.questions data)))
  end.

(** The condition under which [handleSubmit] fires the confetti:
    [correctCount === quizData.questions.length]. *)
Definition confetti_fires (l : QuizOverlay.Locals) (data : QuizData.t)
    : bool :=
  bool_decide (QuizOverlay.correctCount l
               = Z.of_nat (length (QuizData.questions data))).

End QuizOverlayControls.

(* ===================================================================== *)
(** ** components/QuizHistoryModal.tsx, the view *)
(* ===================================================================== *)

(** [Array.prototype.sort(cmp)] for a consistent comparator: the stable
    sort, here by insertion from the right.  [a] goes before [b] when
    [cmp a b <= 0]. *)
Module Array.
Fixpoint sort_insert {A} (cmp : A → A → Z) (a : A) (l : list A) : list A :=
  match l with
  | [] => [a]
  | b :: l' =>
    if bool_decide (cmp a b ≤ 0) then a :: b :: l'
    else b :: sort_insert cmp a l'
  end.

Definition sort {A} (cmp : A → A → Z) (l : list A) : list A :=
  foldr (sort_insert cmp) [] l.
End Array.

Module QuizHistoryView.

(** [(a, b) => b.date - a.date] *)
Definition by_date_desc (a b : QuizResult.t) : Z :=
  QuizResult.date b - QuizResult.date a.

(** The mount effect: the stored history, newest first; the initial [[]]
    when the key is missing, empty, or does not parse. *)
Definition mount_history : js (list QuizResult.t) :=
  savedHistory ← localStorage.get_quizHistory;
  mret (match savedHistory with
        | Holds parsed => Array.sort by_date_desc parsed
        | _ => []
        end).

(** [newest_first r x]: [r] may stand before [x] in a list that shows
    the newest record first. *)
Definition newest_first (r x : QuizResult.t) : Prop :=
  QuizResult.date x ≤ QuizResult.date r.

(** The Clear button is rendered when [history.length > 0]. *)
Definition clear_offered (history : list QuizResult.t) : bool :=
  bool_decide (0 < length history)%nat.

End QuizHistoryView.

(* ===================================================================== *)
(** ** components/StudyMaterials.tsx *)
(* ===================================================================== *)

Module StudyMaterials.

(** The updater of [handleNotesChange]; [generated] is what
    [generateId()] returns when it is called. *)
Definition handleNotesChange (newText generated : string)
    (prev : list StudyMaterial.t) : list StudyMaterial.t :=
  let others :=
    filter (λ m, StudyMaterial.type m ≠ StudyMaterial.text) prev in
  let existing :=
    snd <$> list_find (λ m, StudyMaterial.type m = StudyMaterial.text) prev in
  others ++
  [{| StudyMaterial.type := StudyMaterial.text;
      StudyMaterial.content := newText;
      StudyMaterial.id :=
        match existing with
        | Some e =>
          if QuizOverlay.truthy (StudyMaterial.id e)
          then StudyMaterial.id e else generated
        | None => generated
        end;
      StudyMaterial.summary := existing ≫= StudyMaterial.summary;
      StudyMaterial.name := None;
      StudyMaterial.mimeType := None;
      StudyMaterial.isSummarizing := None |}].

Definition removePdf (id : string) (prev : list StudyMaterial.t)
    : list StudyMaterial.t :=
  filter (λ m, StudyMaterial.id m ≠ id) prev.

(** [{ ...m, isSummarizing: flag }] *)
Definition with_isSummarizing (flag : bool) (m : StudyMaterial.t)
    : StudyMaterial.t :=
  {| StudyMaterial.id := StudyMaterial.id m;
     StudyMaterial.type := StudyMaterial.type m;
     StudyMaterial.content := StudyMaterial.content m;
     StudyMaterial.name := StudyMaterial.name m;
     StudyMaterial.mimeType := StudyMaterial.mimeType m;
     StudyMaterial.summary := StudyMaterial.summary m;
     StudyMaterial.isSummarizing := Some flag |}.

(** [{ ...m, summary, isSummarizing: false }] *)
Definition with_summary (summary : string) (m : StudyMaterial.t)
    : StudyMaterial.t :=
  {| StudyMaterial.id := StudyMaterial.id m;
     StudyMaterial.type := StudyMaterial.type m;
     StudyMaterial.content := StudyMaterial.content m;
     StudyMaterial.name := StudyMaterial.name m;
     StudyMaterial.mimeType := StudyMaterial.mimeType m;
     StudyMaterial.summary := Some summary;
     StudyMaterial.isSummarizing := Some false |}.

(** The three updaters of [handleSummarize]: before the call, after a
    summary came back, after the call failed. *)
Definition summarize_start (id : string) (prev : list StudyMaterial.t)
    : list StudyMaterial.t :=
  (λ m, if bool_decide (StudyMaterial.id m = id)
        then with_isSummarizing true m else m) <$> prev.

Definition summarize_done (id summary : string)
    (prev : list StudyMaterial.t) : list StudyMaterial.t :=
  (λ m, if bool_decide (StudyMaterial.id m = id)
        then with_summary summary m else m) <$> prev.

Definition summarize_failed (id : string) (prev : list StudyMaterial.t)
    : list StudyMaterial.t :=
  (λ m, if bool_decide (StudyMaterial.id m = id)
        then with_isSummarizing false m else m) <$> prev.

(** [handleSummarize] as a whole, when no other update comes between its
    steps; [reply] is the summary, or [None] when [summarizeMaterial]
    throws. *)
Definition handleSummarize (material : StudyMaterial.t)
    (reply : option string) (prev : list StudyMaterial.t)
    : list StudyMaterial.t :=
  let started := summarize_start (StudyMaterial.id material) prev in
  match reply with
  | Some summary =>
    summarize_done (StudyMaterial.id material) summary started
  | None => summarize_failed (StudyMaterial.id material) started
  end.

End StudyMaterials.

(* ===================================================================== *)
(** ** components/ChatInterface.tsx *)
(* ===================================================================== *)

Module ChatInterface.

Inductive session_type : Type := personal | group.
Inductive role : Type := user | model.

Record ChatSession : Type := mkSession {
  id : string;
  name : string;
  type : session_type;
  members : option Z
}.

Record Message : Type := mkMessage {
  msg_role : role;
  text : string;
  timestamp : Z
}.

(** The component state the session and message handlers use. *)
Record State : Type := mkState {
  sessions : list ChatSession;
  messagesMap : gmap string (list Message);
  activeSessionId : string;
  inputText : string;
  isLoading : bool;
  isCreating : bool;
  createType : session_type;
  newItemName : string
}.

Definition DEFAULT_SESSIONS : list ChatSession :=
  [ mkSession "general" "General" personal None;
    mkSession "g1" "Physics 101 Study Group" group (Some 4);
    mkSession "g2" "Calculus Finals Prep" group (Some 8) ].

(** [sessions.find(s => s.id === activeSessionId) || sessions[0]];
    [None] is [undefined]. *)
Definition activeSession (s : State) : option ChatSession :=
  match list_find (λ x, id x = activeSessionId s) (sessions s) with
  | Some (_, x) => Some x
  | None => head (sessions s)
  end.

(** [messagesMap[activeSessionId] || []] *)
Definition currentMessages (s : State) : list Message :=
  default [] (messagesMap s !! activeSessionId s).

(** The updater [prev => ({...prev, [sid]: [...(prev[sid] || []), msg]})]. *)
Definition append_message (sid : string) (msg : Message)
    (prev : gmap string (list Message)) : gmap string (list Message) :=
  <[sid := default [] (prev !! sid) ++ [msg]]> prev.

(** What [sendMessageToTutor] comes to: [None] when the call throws. *)
Definition sendMessageToTutor (reply : option string) : string + string :=
  match reply with
  | Some response_text =>
    inr (if QuizOverlay.truthy response_text then response_text
         else "I'm sorry, I couldn't generate a response.")
  | None => inl "Failed to get response from Tutor."
  end.

Definition with_sessions (l : list ChatSession) (s : State) : State :=
  {| sessions := l;
     messagesMap := messagesMap s;
     activeSessionId := activeSessionId s;
     inputText := inputText s;
     isLoading := isLoading s;
     isCreating := isCreating s;
     createType := createType s;
     newItemName := newItemName s |}.

Definition with_messagesMap (m : gmap string (list Message)) (s : State)
    : State :=
  {| sessions := sessions s;
     messagesMap := m;
     activeSessionId := activeSessionId s;
     inputText := inputText s;
     isLoading := isLoading s;
     isCreating := isCreating s;
     createType := createType s;
     newItemName := newItemName s |}.

Definition with_activeSessionId (sid : string) (s : State) : State :=
  {| sessions := sessions s;
     messagesMap := messagesMap s;
     activeSessionId := sid;
     inputText := inputText s;
     isLoading := isLoading s;
     isCreating := isCreating s;
     createType := createType s;
     newItemName := newItemName s |}.

(** [handleDeleteSession]; [confirmed] is the answer of [confirm(...)],
    asked only for a session other than General. *)
Definition handleDeleteSession (confirmed : bool) (sessionId : string)
    (s : State) : State :=
  if bool_decide (sessionId = "general") then s
  else if confirmed then
    {| sessions := filter (λ x, id x ≠ sessionId) (sessions s);
       messagesMap := delete sessionId (messagesMap s);
       activeSessionId :=
         if bool_decide (activeSessionId s = sessionId)
         then "general" else activeSessionId s;
       inputText := inputText s;
       isLoading := isLoading s;
       isCreating := isCreating s;
       createType := createType s;
       newItemName := newItemName s |}
  else s.

Section with_trim.
(** [String.prototype.trim] of the host. *)
Variable trim : string → string.

(** [handleRenameSession]; [answer] is what [prompt(...)] returns, [None]
    when it is cancelled. *)
Definition handleRenameSession (answer : option string)
    (session : ChatSession) (s : State) : State :=
  match answer with
  | Some newName =>
    if QuizOverlay.truthy newName && QuizOverlay.truthy (trim newName) then
      with_sessions
        ((λ x, if bool_decide (id x = id session)
               then mkSession (id x) (trim newName) (type x) (members x)
               else x) <$> sessions s) s
    else s
  | None => s
  end.

(** [submitCreate]; [now_id] and [now_timestamp] are the values of its
    two [Date.now()] calls. *)
Definition submitCreate (now_id now_timestamp : Z) (s : State) : State :=
  if negb (QuizOverlay.truthy (trim (newItemName s))) then s
  else
    let name := trim (newItemName s) in
    match createType s with
    | personal =>
      let newId := "s-" +:+ pretty now_id in
      {| sessions := sessions s ++ [mkSession newId name personal None];
         messagesMap :=
           <[newId :=
               [mkMessage model
                  ("I am your " +:+ name
                   +:+ " tutor. What specifically in " +:+ name
                   +:+ " are we studying today?")
                  now_timestamp]]> (messagesMap s);
         activeSessionId := newId;
         inputText := inputText s;
         isLoading := isLoading s;
         isCreating := false;
         createType := createType s;
         newItemName := "" |}
    | group =>
      let newId := "g-" +:+ pretty now_id in
      {| sessions := sessions s ++ [mkSession newId name group (Some 1)];
         messagesMap :=
           <[newId :=
               [mkMessage model
                  ("Welcome to the " +:+ name +:+ " group chat!")
                  now_timestamp]]> (messagesMap s);
         activeSessionId := newId;
         inputText := inputText s;
         isLoading := isLoading s;
         isCreating := false;
         createType := createType s;
         newItemName := "" |}
    end.

(** [handleSendMessage] up to its [await]: [None] when it returns at
    once; otherwise the state it leaves and the session id its closure
    holds for the rest of the call. *)
Definition handleSendMessage_start (textOverride : option string)
    (now : Z) (s : State) : option (State * string) :=
  let textToSend :=
    match textOverride with
    | Some t => if QuizOverlay.truthy t then t else inputText s
    | None => inputText s
    end in
  if negb (QuizOverlay.truthy (trim textToSend)) || isLoading s then None
  else
    Some ({| sessions := sessions s;
             messagesMap :=
               append_message (activeSessionId s)
                 (mkMessage user textToSend now) (messagesMap s);
             activeSessionId := activeSessionId s;
             inputText := "";
             isLoading := true;
             isCreating := isCreating s;
             createType := createType s;
             newItemName := newItemName s |},
          activeSessionId s).

(** The actions one can take on the rendered session list and the
    creation dialog: rows are addressed by their position. *)
Inductive action : Type :=
  | Select (row : nat)
  | Delete (row : nat) (confirmed : bool)
  | Rename (row : nat) (answer : option string)
  | OpenCreate (ty : session_type)
  | TypeName (newName : string)
  | Create (now_id now_timestamp : Z).

Definition act (s : State) (a : action) : State :=
  match a with
  | Select row =>
    match sessions s !! row with
    | Some x => with_activeSessionId (id x) s
    | None => s
    end
  | Delete row confirmed =>
    match sessions s !! row with
    | Some x => handleDeleteSession confirmed (id x) s
    | None => s
    end
  | Rename row answer =>
    match sessions s !! row with
    | Some x => handleRenameSession answer x s
    | None => s
    end
  | OpenCreate ty =>
    {| sessions := sessions s;
       messagesMap := messagesMap s;
       activeSessionId := activeSessionId s;
       inputText := inputText s;
       isLoading := isLoading s;
       isCreating := true;
       createType := ty;
       newItemName := "" |}
  | TypeName newName =>
    {| sessions := sessions s;
       messagesMap := messagesMap s;
       activeSessionId := activeSessionId s;
       inputText := inputText s;
       isLoading := isLoading s;
       isCreating := isCreating s;
       createType := createType s;
       newItemName := newName |}
  | Create now_id now_timestamp => submitCreate now_id now_timestamp s
  end.

Definition run (s : State) (actions : list action) : State :=
  foldl act s actions.

End with_trim.

(** [handleSendMessage] after its [await]: the reply, or the apology when
    [sendMessageToTutor] threw, is appended for the session id [sid] held
    by the closure, and loading ends. *)
Definition handleSendMessage_settle (sid : string) (reply : option string)
    (now : Z) (s : State) : State :=
  {| sessions := sessions s;
     messagesMap :=
       append_message sid
         (mkMessage model
            match sendMessageToTutor reply with
            | inr responseText => responseText
            | inl _ => "Sorry, I encountered an error. Please try again."
            end
            now)
         (messagesMap s);
     activeSessionId := activeSessionId s;
     inputText := inputText s;
     isLoading := false;
     isCreating := isCreating s;
     createType := createType s;
     newItemName := newItemName s |}.

(** A session with id [general] is listed, and the active id is the id
    of a listed session. *)
Definition well_formed (s : State) : Prop :=
  "general" ∈ id <$> sessions s ∧ activeSessionId s ∈ id <$> sessions s.

End ChatInterface.

(* ===================================================================== *)
(** ** More sample data *)
(* ===================================================================== *)

Module Fixtures.

(** A quiz whose two questions carry the same id. *)
Definition twins : QuizData.t :=
  {| QuizData.title := "Twins";
     QuizData.questions :=
       [Sample.question 1 "Algebra" 0; Sample.question 1 "Optics" 2] |}.

Definition twins_overlay : QuizOverlay.State :=
  {| QuizOverlay.quizData := Some twins;
     QuizOverlay.answers := ∅;
     QuizOverlay.focusTopic := "";
     QuizOverlay.selectedSubject := "Physics";
     QuizOverlay.submitted := false;
     QuizOverlay.score := 0 |}.

Definition twins_clicks : list (QuizQuestion.t * Z) :=
  [(Sample.question 1 "Algebra" 0, 0); (Sample.question 1 "Optics" 2, 2)].

(** Clicks on the first two questions of [Sample.quiz]. *)
Definition two_clicks : list (QuizQuestion.t * Z) :=
  [(Sample.question 2 "Thermodynamics" 1, 3);
   (Sample.question 1 "Thermodynamics" 0, 0)].

(** Typed notes and a setup screen on which they are selected. *)
Definition notes : StudyMaterial.t :=
  {| StudyMaterial.id := "n1";
     StudyMaterial.type := StudyMaterial.text;
     StudyMaterial.content := "Entropy never decreases.";
     StudyMaterial.name := None;
     StudyMaterial.mimeType := None;
     StudyMaterial.summary := None;
     StudyMaterial.isSummarizing := None |}.

Definition setup_screen : QuizOverlayControls.Setup :=
  {| QuizOverlayControls.step := QuizOverlayControls.setup;
     QuizOverlayControls.selectedMaterialIds := ["n1"];
     QuizOverlayControls.selectedSubject := "Physics";
     QuizOverlayControls.focusTopic := "";
     QuizOverlayControls.includeWeakTopics := false;
     QuizOverlayControls.availableWeakTopics := [];
     QuizOverlayControls.quizData := geminiService.ParsedNull;
     QuizOverlayControls.error := None |}.

(** The chat as it starts, with a question typed in. *)
Definition chat : ChatInterface.State :=
  {| ChatInterface.sessions := ChatInterface.DEFAULT_SESSIONS;
     ChatInterface.messagesMap :=
       {[ "general" :=
            [ChatInterface.mkMessage ChatInterface.model
               "Hello Student! I am your General StudyBuddy."
               1700000000000];
          "g1" :=
            [ChatInterface.mkMessage ChatInterface.model
               "Welcome to Physics 101!" 1700000000000] ]};
     ChatInterface.activeSessionId := "g1";
     ChatInterface.inputText := "What is entropy?";
     ChatInterface.isLoading := false;
     ChatInterface.isCreating := false;
     ChatInterface.createType := ChatInterface.personal;
     ChatInterface.newItemName := "" |}.

(** Questions whose topic is the name of a member that plain objects
    inherit, as a quiz on a programming language may have them. *)
Definition on_toString : QuizQuestion.t := Sample.question 1 "toString" 0.

Definition on_proto : QuizQuestion.t := Sample.question 1 "__proto__" 0.

(** A stored counter at the last integer before the gaps between
    doubles, and one two further. *)
Definition at_limit : gmap string Js.json :=
  {[ "Algebra" := Js.JNumber (2 ^ 53) ]}.

Definition past_limit : gmap string Js.json :=
  {[ "Algebra" := Js.JNumber (2 ^ 53 + 2) ]}.

(** A store whose mastery key holds text that is not JSON, with one
    record in the history. *)
Definition unreadable_mastery : Storage :=
  mkStorage Malformed (Holds ["Algebra"]) (Holds [Sample.earlier]).

Definition record (id : string) (date : Z) : QuizResult.t :=
  {| QuizResult.id := id;
     QuizResult.title := "Quiz " +:+ id;
     QuizResult.score := 3;
     QuizResult.totalQuestions := 5;
     QuizResult.date := date;
     QuizResult.topic := Some "General" |}.

(** A history that is not in date order and has two records of the same
    date. *)
Definition shuffled_history : list QuizResult.t :=
  [record "b" 20; record "d" 40; record "a" 20; record "c" 30].

Definition shuffled_storage : Storage :=
  mkStorage Absent Absent (Holds shuffled_history).

(** A history in strictly increasing date order. *)
Definition chronological_history : list QuizResult.t :=
  [record "a" 10; record "b" 20; record "c" 30].

Definition chronological_storage : Storage :=
  mkStorage Absent Absent (Holds chronological_history).

(** Two questions on Algebra with one on the topic [toString] between
    them. *)
Definition mixed_quiz : list QuizQuestion.t :=
  [Sample.question 1 "Algebra" 0; Sample.question 2 "toString" 1;
   Sample.question 3 "Algebra" 2].

(** A stand-in for the host's [trim]: it drops leading blanks. *)
Fixpoint drop_blanks (s : string) : string :=
  match s with
  | String (Ascii.Ascii false false false false false true false false) s' =>
    drop_blanks s'
  | _ => s
  end.

End Fixtures.

(* ===================================================================== *)
(** ** [Set<string>] as a list *)
(* ===================================================================== *)

Section JsSet_facts.
Implicit Types (s l : list string) (x y : string).

Lemma JsSet_has_true s x : JsSet.has s x = true ↔ x ∈ s.
Proof. unfold JsSet.has. by rewrite bool_decide_eq_true. Qed.

Lemma JsSet_has_false s x : JsSet.has s x = false ↔ x ∉ s.
Proof. unfold JsSet.has. by rewrite bool_decide_eq_false. Qed.

Lemma elem_of_JsSet_add s x y : y ∈ JsSet.add s x ↔ y = x ∨ y ∈ s.
Proof.
  unfold JsSet.add. destruct (JsSet.has s x) eqn:Hx.
  - apply JsSet_has_true in Hx. split; [by right|].
    intros [->|?]; done.
  - rewrite elem_of_app, list_elem_of_singleton. tauto.
Qed.

Lemma elem_of_JsSet_delete s x y : y ∈ JsSet.delete s x ↔ y ≠ x ∧ y ∈ s.
Proof. unfold JsSet.delete. by rewrite list_elem_of_filter. Qed.

Lemma elem_of_JsSet_from_array_gen l s y :
  y ∈ foldl JsSet.add s l ↔ y ∈ s ∨ y ∈ l.
Proof.
  revert s. induction l as [|x l IH]; intros s; simpl.
  - rewrite elem_of_nil. tauto.
  - rewrite IH, elem_of_JsSet_add, elem_of_cons. tauto.
Qed.

Lemma elem_of_JsSet_from_array l y : y ∈ JsSet.from_array l ↔ y ∈ l.
Proof.
  unfold JsSet.from_array. rewrite elem_of_JsSet_from_array_gen.
  rewrite elem_of_nil. tauto.
Qed.

(** The list never holds an element twice. *)
Lemma NoDup_JsSet_add s x : NoDup s → NoDup (JsSet.add s x).
Proof.
  intros Hs. unfold JsSet.add. destruct (JsSet.has s x) eqn:Hx; [done|].
  apply JsSet_has_false in Hx. apply NoDup_app. split_and!; [done| |].
  - intros y Hy ->%list_elem_of_singleton. done.
  - apply NoDup_singleton.
Qed.

Lemma NoDup_JsSet_delete s x : NoDup s → NoDup (JsSet.delete s x).
Proof. apply NoDup_filter; apply _. Qed.

Lemma NoDup_JsSet_from_array l : NoDup (JsSet.from_array l).
Proof.
  unfold JsSet.from_array.
  assert (∀ s, NoDup s → NoDup (foldl JsSet.add s l)) as H.
  { induction l as [|x l IH]; intros s Hs; simpl; [done|].
    by apply IH, NoDup_JsSet_add. }
  apply H, NoDup_nil_2.
Qed.
End JsSet_facts.

(* ===================================================================== *)
(** ** The loop of [handleSubmit] *)
(* ===================================================================== *)

Section loop_facts.
Import QuizOverlay.
Implicit Types (l : Locals) (o : string * bool) (os : list (string * bool)).
Implicit Types (t : string) (m : gmap string Z).

(** On counters, [v || 0] is the default-to-zero read. *)
Lemma or_zero_default (v : option Z) : or_zero v = default 0 v.
Proof.
  destruct v as [n|]; simpl; [|done].
  case_bool_decide; by subst.
Qed.

Lemma forEach_questions_process (ans : gmap Z Z) (qs : list QuizQuestion.t) l :
  forEach_questions ans qs l = process (outcomes ans qs) l.
Proof.
  unfold forEach_questions, process, outcomes.
  by rewrite foldl_fmap.
Qed.

(** Every batch of outcomes is that of a quiz: the questions share the
    id 0, for which option 1 is selected, and a question has 1 as its
    correct option exactly when its outcome is to be correct. *)
Lemma every_batch_is_a_quiz os :
  ∃ (ans : gmap Z Z) (qs : list QuizQuestion.t), outcomes ans qs = os.
Proof.
  exists {[ 0 := 1 ]},
    ((λ o, QuizQuestion.mk 0 "" [] (if o.2 then 1 else 0) "" o.1) <$> os).
  unfold outcomes. rewrite <-list_fmap_compose.
  rewrite <-(list_fmap_id os) at 2. apply list_fmap_ext.
  intros _ [t [|]] _; by vm_compute.
Qed.

Lemma process_nil l : process [] l = l.
Proof. done. Qed.

Lemma process_cons o os l :
  process (o :: os) l = process os (record_outcome l o).
Proof. done. Qed.

Lemma process_snoc os o l :
  process (os ++ [o]) l = record_outcome (process os l) o.
Proof. unfold process. by rewrite foldl_snoc. Qed.

Lemma abstraction_record_outcome l o :
  abstraction (record_outcome l o) = Updater.apply_outcome (abstraction l) o.
Proof.
  destruct o as [t [|]];
    unfold abstraction, record_outcome, Updater.apply_outcome; simpl.
  - f_equal; [by rewrite or_zero_default|].
    apply set_eq; intros x.
    rewrite elem_of_difference, elem_of_singleton.
    destruct (JsSet.has (weakTopicsSet l) t) eqn:Ht.
    + rewrite !elem_of_list_to_set, elem_of_JsSet_delete. tauto.
    + apply JsSet_has_false in Ht. rewrite !elem_of_list_to_set.
      split; [|tauto]. intros Hx; split; [done|]. by intros ->.
  - f_equal; [by rewrite or_zero_default|].
    apply set_eq; intros x.
    rewrite elem_of_union, elem_of_singleton, !elem_of_list_to_set.
    rewrite elem_of_JsSet_add. tauto.
Qed.

Lemma abstraction_process os l :
  abstraction (process os l) = Updater.update (abstraction l) os.
Proof.
  revert l. induction os as [|o os IH]; intros l; [done|].
  rewrite process_cons, IH, abstraction_record_outcome. done.
Qed.

(** Membership in the weak-topic set after one outcome. *)
Lemma elem_of_weak_record_outcome l o t :
  t ∈ weakTopicsSet (record_outcome l o)
  ↔ if decide (o.1 = t) then o.2 = false else t ∈ weakTopicsSet l.
Proof.
  destruct o as [t' [|]]; unfold record_outcome; simpl.
  - destruct (JsSet.has (weakTopicsSet l) t') eqn:Ht.
    + rewrite elem_of_JsSet_delete.
      destruct (decide (t' = t)) as [Heq|Hne]; [subst t'|].
      * split; [tauto|done].
      * intuition congruence.
    + apply JsSet_has_false in Ht.
      destruct (decide (t' = t)) as [Heq|Hne]; [subst t'|done].
      split; [done|discriminate].
  - rewrite elem_of_JsSet_add.
    destruct (decide (t' = t)) as [Heq|Hne]; [subst t'|];
      intuition congruence.
Qed.

(** Membership after a batch is decided by the topic's last outcome, and
    by the set before the batch when the topic has none. *)
Lemma elem_of_weak_process os l t :
  t ∈ weakTopicsSet (process os l)
  ↔ match Updater.last_outcome t os with
    | Some b => b = false
    | None => t ∈ weakTopicsSet l
    end.
Proof.
  induction os as [|o os IH] using rev_ind; [done|].
  rewrite process_snoc, elem_of_weak_record_outcome.
  unfold Updater.last_outcome in *.
  rewrite filter_app, fmap_app, last_app. simpl.
  destruct o as [t' b]. rewrite filter_cons, filter_nil. simpl.
  case_decide; simpl; [done|]. exact IH.
Qed.

Lemma last_outcome_None t os :
  Updater.last_outcome t os = None ↔ t ∉ os.*1.
Proof.
  unfold Updater.last_outcome.
  rewrite last_None, list_elem_of_fmap. split.
  - intros Hf%fmap_nil_inv [[t' b] [Heq Ho]]. simpl in Heq.
    by apply (filter_nil_not_elem_of _ _ (t', b)) in Hf.
  - intros Hno. destruct (filter _ os) as [|[t' b] k] eqn:Hk; [done|].
    assert ((t', b) ∈ filter (λ o : string * bool, o.1 = t) os) as Hin
      by (rewrite Hk; left).
    apply list_elem_of_filter in Hin as [Heq Hin]. simpl in Heq. subst t'.
    destruct Hno. by exists (t, b).
Qed.

(** A topic outside the batch keeps its counter. *)
Lemma lookup_mastery_process os l t :
  t ∉ os.*1 →
  currentMastery (process os l) !! t = currentMastery l !! t.
Proof.
  revert l. induction os as [|[t' b] os IH]; intros l Hno; [done|].
  rewrite fmap_cons, not_elem_of_cons in Hno. destruct Hno as [Hne Hno].
  rewrite process_cons, IH by done.
  simpl in Hne. destruct b; unfold record_outcome; simpl;
    by rewrite lookup_insert_ne.
Qed.

(** The loop counts the questions answered correctly. *)
Lemma correctCount_forEach_questions (ans : gmap Z Z)
    (qs : list QuizQuestion.t) l :
  correctCount (forEach_questions ans qs l)
  = correctCount l
    + Z.of_nat (length (filter (λ q, isCorrect ans q = true) qs)).
Proof.
  unfold forEach_questions. revert l.
  induction qs as [|q qs IH]; intros l; simpl; [lia|].
  rewrite IH, filter_cons. unfold forEach_body, record_outcome. simpl.
  destruct (isCorrect ans q); simpl; lia.
Qed.

Lemma or_zero_nonneg m t : Updater.nonneg m → 0 ≤ or_zero (m !! t).
Proof.
  intros Hm. rewrite or_zero_default.
  destruct (m !! t) as [n|] eqn:Hn; simpl; [|done].
  exact (Hm t n Hn).
Qed.

Lemma nonneg_record_outcome l o :
  Updater.nonneg (currentMastery l) →
  Updater.nonneg (currentMastery (record_outcome l o)).
Proof.
  intros Hm. destruct o as [t [|]]; unfold record_outcome; simpl;
    apply map_Forall_insert_2; try done.
  - pose proof (or_zero_nonneg _ t Hm). lia.
  - lia.
Qed.
End loop_facts.

(* ===================================================================== *)
(** ** [handleSubmit] as a whole *)
(* ===================================================================== *)

Section handleSubmit_facts.
Import QuizOverlay.
Implicit Types (c : State) (quiz : QuizData.t) (st : Storage).

(** Without a quiz, [handleSubmit] returns at once. *)
Lemma handleSubmit_no_quiz c now_id now_date st :
  quizData c = None →
  handleSubmit c now_id now_date st = (st, Normal c).
Proof. intros H. unfold handleSubmit. by rewrite H. Qed.

(** When the three keys load, the submission runs to its end: the three
    keys are overwritten and the overlay shows the score. *)
Lemma handleSubmit_loaded c quiz now_id now_date st m0 w0 h0 :
  quizData c = Some quiz →
  parse_or ∅ (studyBuddy_topic_mastery st) = Normal m0 →
  parse_or [] (studyBuddy_weakTopics st) = Normal w0 →
  parse_or [] (studyBuddy_quizHistory st) = Normal h0 →
  handleSubmit c now_id now_date st
  = (mkStorage
       (Holds (currentMastery (loop_result c quiz m0 w0)))
       (Holds (weakTopicsSet (loop_result c quiz m0 w0)))
       (Holds (h0 ++ [make_result quiz
                        (correctCount (loop_result c quiz m0 w0))
                        (focusTopic c) (selectedSubject c)
                        now_id now_date])),
     Normal {| quizData := quizData c;
               answers := answers c;
               focusTopic := focusTopic c;
               selectedSubject := selectedSubject c;
               submitted := true;
               score := correctCount (loop_result c quiz m0 w0) |}).
Proof.
  intros Hq Hm Hw Hh. unfold handleSubmit. rewrite Hq.
  unfold mbind, js_bind, mret, js_ret, JSON_parse_or,
    localStorage.get_topic_mastery, localStorage.get_weakTopics,
    localStorage.get_quizHistory, localStorage.set_topic_mastery,
    localStorage.set_weakTopics, localStorage.set_quizHistory.
  simpl. rewrite Hm, Hw. simpl. rewrite Hh. done.
Qed.

(** A key that is not malformed loads. *)
Lemma readable_parse_or {A} (d : A) (s : slot A) :
  readable s = true → ∃ a, parse_or d s = Normal a.
Proof. destruct s; simpl; intros; try done; eauto. Qed.

(** A missing or empty key loads as the given default. *)
Lemma parse_or_missing {A} (d : A) (s : slot A) :
  s = Absent ∨ s = Blank → parse_or d s = Normal d.
Proof. by intros [-> | ->]. Qed.

(** Malformed mastery text: [JSON.parse] throws on the first load and
    nothing is written. *)
Lemma handleSubmit_malformed_mastery c quiz now_id now_date st :
  quizData c = Some quiz →
  studyBuddy_topic_mastery st = Malformed →
  handleSubmit c now_id now_date st = (st, Throw SyntaxError).
Proof.
  intros Hq Hm. unfold handleSubmit. rewrite Hq.
  unfold mbind, js_bind, JSON_parse_or, localStorage.get_topic_mastery.
  simpl. by rewrite Hm.
Qed.

(** Malformed weak-topic text: the same, on the second load. *)
Lemma handleSubmit_malformed_weakTopics c quiz now_id now_date st :
  quizData c = Some quiz →
  readable (studyBuddy_topic_mastery st) = true →
  studyBuddy_weakTopics st = Malformed →
  handleSubmit c now_id now_date st = (st, Throw SyntaxError).
Proof.
  intros Hq [m0 Hm]%(readable_parse_or ∅) Hw.
  unfold handleSubmit. rewrite Hq.
  unfold mbind, js_bind, JSON_parse_or, localStorage.get_topic_mastery,
    localStorage.get_weakTopics.
  simpl. rewrite Hm. simpl. by rewrite Hw.
Qed.

(** Malformed history text: mastery and weak topics are already written
    when [JSON.parse] throws; the history is left as it was. *)
Lemma handleSubmit_malformed_quizHistory c quiz now_id now_date st m0 w0 :
  quizData c = Some quiz →
  parse_or ∅ (studyBuddy_topic_mastery st) = Normal m0 →
  parse_or [] (studyBuddy_weakTopics st) = Normal w0 →
  studyBuddy_quizHistory st = Malformed →
  handleSubmit c now_id now_date st
  = (mkStorage
       (Holds (currentMastery (loop_result c quiz m0 w0)))
       (Holds (weakTopicsSet (loop_result c quiz m0 w0)))
       Malformed,
     Throw SyntaxError).
Proof.
  intros Hq Hm Hw Hh. unfold handleSubmit. rewrite Hq.
  unfold mbind, js_bind, mret, js_ret, JSON_parse_or,
    localStorage.get_topic_mastery, localStorage.get_weakTopics,
    localStorage.get_quizHistory, localStorage.set_topic_mastery,
    localStorage.set_weakTopics, localStorage.set_quizHistory.
  simpl. rewrite Hm, Hw. simpl. by rewrite Hh.
Qed.

(** What a completed submission persists is the updater's result on
    what it loaded; the persisted weak-topic array has no duplicates. *)
Lemma handleSubmit_stores_update c quiz now_id now_date st m0 w0 h0 :
  quizData c = Some quiz →
  parse_or ∅ (studyBuddy_topic_mastery st) = Normal m0 →
  parse_or [] (studyBuddy_weakTopics st) = Normal w0 →
  parse_or [] (studyBuddy_quizHistory st) = Normal h0 →
  ∃ (m1 : gmap string Z) (w1 : list string),
    studyBuddy_topic_mastery (handleSubmit c now_id now_date st).1
      = Holds m1 ∧
    studyBuddy_weakTopics (handleSubmit c now_id now_date st).1
      = Holds w1 ∧
    NoDup w1 ∧
    (m1, list_to_set w1)
    = Updater.update (m0, list_to_set w0)
        (outcomes (answers c) (QuizData.questions quiz)).
Proof.
  intros Hq Hm Hw Hh.
  rewrite (handleSubmit_loaded c quiz now_id now_date st m0 w0 h0)
    by done.
  eexists _, _. simpl. split_and!; [done|done| |].
  - unfold loop_result. rewrite forEach_questions_process.
    generalize (outcomes (answers c) (QuizData.questions quiz)).
    intros os.
    assert (∀ l, NoDup (weakTopicsSet l) →
                 NoDup (weakTopicsSet (process os l))) as Hnd.
    { induction os as [|[t b] os IH]; intros l Hl; [done|].
      rewrite process_cons. apply IH.
      destruct b; unfold record_outcome; simpl.
      - destruct (JsSet.has (weakTopicsSet l) t);
          [by apply NoDup_JsSet_delete|done].
      - by apply NoDup_JsSet_add. }
    apply Hnd. simpl. apply NoDup_JsSet_from_array.
  - unfold loop_result. rewrite forEach_questions_process.
    pose proof (abstraction_process
                  (outcomes (answers c) (QuizData.questions quiz))
                  {| correctCount := 0;
                     currentMastery := m0;
                     weakTopicsSet := JsSet.from_array w0 |}) as Ha.
    unfold abstraction in Ha at 1. rewrite Ha.
    unfold abstraction. simpl. do 2 f_equal.
    apply set_eq; intros x.
    by rewrite !elem_of_list_to_set, elem_of_JsSet_from_array.
Qed.

(** The outcome of a submission depends on the store only through what
    the three keys load as: a missing or empty key is as good as one
    that holds the empty structure. *)
Lemma handleSubmit_missing_as_empty c quiz now_id now_date st m0 w0 h0 :
  quizData c = Some quiz →
  parse_or ∅ (studyBuddy_topic_mastery st) = Normal m0 →
  parse_or [] (studyBuddy_weakTopics st) = Normal w0 →
  parse_or [] (studyBuddy_quizHistory st) = Normal h0 →
  handleSubmit c now_id now_date st
  = handleSubmit c now_id now_date
      (mkStorage (Holds m0) (Holds w0) (Holds h0)).
Proof.
  intros Hq Hm Hw Hh.
  rewrite (handleSubmit_loaded c quiz now_id now_date st m0 w0 h0)
    by done.
  by rewrite (handleSubmit_loaded c quiz now_id now_date _ m0 w0 h0).
Qed.
End handleSubmit_facts.

(* ===================================================================== *)
(** ** The loop on the host's objects *)
(* ===================================================================== *)

Section host_loop_facts.
Import QuizOverlayHost.
Implicit Types (l : Locals) (q : QuizQuestion.t) (qs : list QuizQuestion.t).
Implicit Types (t : string) (m : gmap string Z) (ans : gmap Z Z).

(** Up to [2^53] in magnitude every integer is a number. *)
Lemma round_double_exact (z : Z) :
  Z.abs z ≤ 2 ^ 53 → Js.round_double z = Js.Num z.
Proof.
  intros Hz. destruct (decide (Z.abs z < 2 ^ 53)) as [Hlt|Hge].
  - unfold Js.round_double. simpl. by rewrite bool_decide_eq_true_2.
  - assert (z = 2 ^ 53 ∨ z = - 2 ^ 53) as [-> | ->] by lia; by vm_compute.
Qed.

(** The number nearest to an integer that is not positive is not
    positive. *)
Lemma max0_round_double_nonpos (z : Z) :
  z ≤ 0 → Js.max0 (Js.round_double z) = Js.Num 0.
Proof.
  intros Hz. unfold Js.round_double. cbv zeta.
  case_bool_decide as Hsmall; simpl; [by rewrite Z.max_l|].
  assert (z < 0) as Hneg by lia.
  set (e := Z.log2 (Z.abs z) - 52).
  set (q := Z.abs z / 2 ^ e).
  assert (0 ≤ 2 ^ e) as He by (apply Z.pow_nonneg; lia).
  assert (0 ≤ q) as Hq by (apply Z_div_nonneg_nonneg; lia).
  set (q' := if bool_decide (Z.abs z `mod` 2 ^ e < 2 ^ (e - 1)) then q
             else if bool_decide (2 ^ (e - 1) < Z.abs z `mod` 2 ^ e)
                  then q + 1
                  else if Z.even q then q else q + 1).
  assert (0 ≤ q') as Hq'.
  { unfold q'. repeat case_bool_decide; try lia. destruct (Z.even q); lia. }
  case_bool_decide as Hover; simpl.
  - by rewrite bool_decide_eq_true_2.
  - f_equal. apply Z.max_l.
    rewrite (Z.sgn_neg z) by done. nia.
Qed.

Lemma forEach_questions_snoc ans qs q l :
  forEach_questions ans (qs ++ [q]) l
  = forEach_callback ans (forEach_questions ans qs l) q.
Proof. unfold forEach_questions. by rewrite foldl_snoc. Qed.

(** A name that no plain object inherits is looked up among the own
    properties only. *)
Lemma get_not_inherited (o : Js.object) t :
  t ∉ Js.inherited_names →
  Js.get o t = from_option Js.Found Js.Missing (Js.own o !! t).
Proof.
  intros Hno. unfold Js.get.
  destruct (Js.own o !! t) as [v|]; [done|]. simpl.
  destruct (Js.has_prototype o); [|done].
  unfold Js.inherited_names in Hno. apply not_elem_of_cons in Hno as [Hp Hm].
  rewrite bool_decide_eq_false_2 by done.
  by rewrite bool_decide_eq_false_2.
Qed.

(** An assignment under such a name makes or overwrites an own
    property. *)
Lemma set_not_proto (o : Js.object) t (v : Js.value) :
  t ≠ "__proto__" →
  Js.set o t v = Js.mkObject (<[t := v]> (Js.own o)) (Js.has_prototype o).
Proof.
  intros Hne. unfold Js.set.
  destruct (Js.own o !! t); [done|].
  rewrite bool_decide_eq_false_2 by done.
  by rewrite andb_false_r.
Qed.

(** What the callback assigns is a number, [NaN] or a text, never
    [null]: the prototype of the mastery object stays what it is. *)
Lemma round_double_not_Null (z : Z) : Js.round_double z ≠ Js.Null.
Proof.
  unfold Js.round_double. repeat case_bool_decide; try done.
  all: destruct (Z.even _); repeat case_bool_decide; done.
Qed.

Lemma plus_one_not_Null (x : Js.looked_up) : Js.plus_one x ≠ Js.Null.
Proof.
  destruct x as [[]| | |]; simpl; try done. apply round_double_not_Null.
Qed.

Lemma max0_not_Null (v : Js.value) : Js.max0 v ≠ Js.Null.
Proof. destruct v as [| [] | | | |]; done. Qed.

Lemma own_set (o : Js.object) t (v : Js.value) :
  v ≠ Js.Null →
  Js.has_prototype (Js.set o t v) = Js.has_prototype o ∧
  (Js.own (Js.set o t v) = <[t := v]> (Js.own o) ∨
   Js.own (Js.set o t v) = Js.own o ∧ t = "__proto__"
   ∧ Js.own o !! t = None ∧ Js.has_prototype o = true).
Proof.
  intros Hv. unfold Js.set.
  destruct (Js.own o !! t) eqn:Ht; simpl; [by auto|].
  destruct (Js.has_prototype o) eqn:Hp; simpl; [|by auto].
  case_bool_decide as Hk; simpl; [|by auto].
  destruct v; try done; rewrite ?Hp; simpl; (split; [done|right; done]).
Qed.

(** The callback writes the mastery object under [q.topic] only. *)
Lemma forEach_callback_frame ans l q t :
  QuizQuestion.topic q ≠ t →
  Js.own (currentMastery (forEach_callback ans l q)) !! t
  = Js.own (currentMastery l) !! t.
Proof.
  intros Hne. unfold forEach_callback.
  destruct (QuizOverlay.isCorrect ans q); simpl.
  - destruct (own_set (currentMastery l) (QuizQuestion.topic q) _
                (plus_one_not_Null
                   (Js.or_zero (Js.get (currentMastery l)
                                  (QuizQuestion.topic q)))))
      as [_ [-> | [-> _]]]; [by rewrite lookup_insert_ne|done].
  - destruct (own_set (currentMastery l) (QuizQuestion.topic q) _
                (max0_not_Null
                   (Js.minus_one
                      (Js.or_zero (Js.get (currentMastery l)
                                     (QuizQuestion.topic q))))))
      as [_ [-> | [-> _]]]; [by rewrite lookup_insert_ne|done].
Qed.

Lemma forEach_callback_has_prototype ans l q :
  Js.has_prototype (currentMastery (forEach_callback ans l q))
  = Js.has_prototype (currentMastery l).
Proof.
  unfold forEach_callback.
  destruct (QuizOverlay.isCorrect ans q); simpl.
  - apply own_set, plus_one_not_Null.
  - apply own_set, max0_not_Null.
Qed.

Lemma forEach_questions_has_prototype ans qs l :
  Js.has_prototype (currentMastery (forEach_questions ans qs l))
  = Js.has_prototype (currentMastery l).
Proof.
  induction qs as [|q qs IH] using rev_ind; [done|].
  by rewrite forEach_questions_snoc, forEach_callback_has_prototype.
Qed.

(** The weak-topic set and the count of correct answers do not depend on
    the mastery object: they are those of the loop on integer counters. *)
Lemma forEach_callback_weak_count ans l (l0 : QuizOverlay.Locals) q :
  weakTopicsSet l = QuizOverlay.weakTopicsSet l0 →
  correctCount l = QuizOverlay.correctCount l0 →
  weakTopicsSet (forEach_callback ans l q)
  = QuizOverlay.weakTopicsSet (QuizOverlay.forEach_body ans l0 q) ∧
  correctCount (forEach_callback ans l q)
  = QuizOverlay.correctCount (QuizOverlay.forEach_body ans l0 q).
Proof.
  intros Hw Hc.
  unfold forEach_callback, QuizOverlay.forEach_body,
    QuizOverlay.record_outcome. simpl.
  destruct (QuizOverlay.isCorrect ans q); simpl; by rewrite Hw, Hc.
Qed.

Lemma forEach_questions_weak_count ans qs l (l0 : QuizOverlay.Locals) :
  weakTopicsSet l = QuizOverlay.weakTopicsSet l0 →
  correctCount l = QuizOverlay.correctCount l0 →
  weakTopicsSet (forEach_questions ans qs l)
  = QuizOverlay.weakTopicsSet (QuizOverlay.forEach_questions ans qs l0) ∧
  correctCount (forEach_questions ans qs l)
  = QuizOverlay.correctCount (QuizOverlay.forEach_questions ans qs l0).
Proof.
  revert l l0. induction qs as [|q qs IH]; intros l l0 Hw Hc; [done|].
  simpl. apply IH; by apply forEach_callback_weak_count.
Qed.

(** One step on a topic that no plain object inherits: the counter read
    is [default 0 v]; an increment is exact when its result is at most
    [2^53] in magnitude, a decrement floored at 0 whenever the counter is
    at most [2^53]. *)
Lemma forEach_callback_own_counter ans l q (v : option Z) :
  QuizQuestion.topic q ∉ Js.inherited_names →
  Js.own (currentMastery l) !! QuizQuestion.topic q = Js.Num <$> v →
  (if QuizOverlay.isCorrect ans q
   then Z.abs (default 0 v + 1) ≤ 2 ^ 53
   else default 0 v ≤ 2 ^ 53) →
  Js.own (currentMastery (forEach_callback ans l q)) !! QuizQuestion.topic q
  = Some (Js.Num (if QuizOverlay.isCorrect ans q then default 0 v + 1
                  else Z.max 0 (default 0 v - 1))).
Proof.
  intros Hno Hown Hroom.
  assert (QuizQuestion.topic q ≠ "__proto__") as Hp.
  { intros Heq. apply Hno. rewrite Heq. left. }
  assert (Js.or_zero (Js.get (currentMastery l) (QuizQuestion.topic q))
          = Js.Found (Js.Num (default 0 v))) as Hread.
  { rewrite get_not_inherited, Hown by done.
    destruct v as [n|]; simpl; [|done]. case_bool_decide; by subst. }
  unfold forEach_callback.
  destruct (QuizOverlay.isCorrect ans q); simpl; rewrite Hread; simpl;
    rewrite set_not_proto by done; simpl; rewrite lookup_insert_eq; f_equal.
  - by apply round_double_exact.
  - destruct (decide (Z.abs (default 0 v - 1) ≤ 2 ^ 53)) as [Hin|Hout].
    + by rewrite round_double_exact.
    + rewrite max0_round_double_nonpos by lia. f_equal. lia.
Qed.

(** The same, from a counter with room for one step either way. *)
Lemma forEach_callback_own_counter_room ans l q (v : option Z) :
  QuizQuestion.topic q ∉ Js.inherited_names →
  Js.own (currentMastery l) !! QuizQuestion.topic q = Js.Num <$> v →
  Z.abs (default 0 v) + 1 ≤ 2 ^ 53 →
  Js.own (currentMastery (forEach_callback ans l q)) !! QuizQuestion.topic q
  = Some (Js.Num (if QuizOverlay.isCorrect ans q then default 0 v + 1
                  else Z.max 0 (default 0 v - 1))).
Proof.
  intros Hno Hown Hroom. apply forEach_callback_own_counter; [done..|].
  destruct (QuizOverlay.isCorrect ans q); lia.
Qed.

(** Topic by topic: on a topic that no plain object inherits and whose
    counter has room for its questions, the loop on the host's object
    computes the counter that the loop on integer counters computes,
    whatever the other topics of the quiz and the other properties of the
    object are. *)
Lemma host_counter_follows ans qs l (l0 : QuizOverlay.Locals) t :
  t ∉ Js.inherited_names →
  Js.own (currentMastery l) !! t
  = Js.Num <$> (QuizOverlay.currentMastery l0 !! t) →
  has_room t qs (QuizOverlay.currentMastery l0) →
  Js.own (currentMastery (forEach_questions ans qs l)) !! t
  = Js.Num
    <$> (QuizOverlay.currentMastery
           (QuizOverlay.forEach_questions ans qs l0) !! t).
Proof.
  intros Hno. unfold has_room.
  revert l l0. induction qs as [|q qs IH]; intros l l0 Hown Hroom; [done|].
  simpl. rewrite filter_cons in Hroom.
  destruct (decide (QuizQuestion.topic q = t)) as [Hq|Hq].
  - subst t. cbn [length] in Hroom.
    set (d := default 0 (QuizOverlay.currentMastery l0
                         !! QuizQuestion.topic q)) in *.
    assert (QuizOverlay.currentMastery (QuizOverlay.forEach_body ans l0 q)
            !! QuizQuestion.topic q
            = Some (if QuizOverlay.isCorrect ans q then d + 1
                    else Z.max 0 (d - 1))) as Hint.
    { unfold QuizOverlay.forEach_body, QuizOverlay.record_outcome. simpl.
      destruct (QuizOverlay.isCorrect ans q); simpl;
        by rewrite lookup_insert_eq, or_zero_default. }
    apply IH.
    + rewrite Hint. simpl.
      apply forEach_callback_own_counter_room; [done..|]. fold d. lia.
    + rewrite Hint. simpl.
      destruct (QuizOverlay.isCorrect ans q); lia.
  - apply IH.
    + rewrite forEach_callback_frame by done. rewrite Hown. f_equal.
      unfold QuizOverlay.forEach_body, QuizOverlay.record_outcome. simpl.
      destruct (QuizOverlay.isCorrect ans q); simpl;
        by rewrite lookup_insert_ne.
    + assert (QuizOverlay.currentMastery (QuizOverlay.forEach_body ans l0 q)
              !! t = QuizOverlay.currentMastery l0 !! t) as ->; [|done].
      unfold QuizOverlay.forEach_body, QuizOverlay.record_outcome. simpl.
      destruct (QuizOverlay.isCorrect ans q); simpl;
        by rewrite lookup_insert_ne.
Qed.

(** As a whole: for a quiz none of whose topics is a name that plain
    objects inherit, from integer counters that have room for the quiz,
    the loop on the host's object is the loop on integer counters. *)
Lemma forEach_questions_of_locals ans qs (l : QuizOverlay.Locals) :
  Forall (λ q, QuizQuestion.topic q ∉ Js.inherited_names) qs →
  Forall (λ q, has_room (QuizQuestion.topic q) qs
                 (QuizOverlay.currentMastery l)) qs →
  forEach_questions ans qs (of_locals l)
  = of_locals (QuizOverlay.forEach_questions ans qs l).
Proof.
  intros Hqs Hroom.
  destruct (forEach_questions_weak_count ans qs (of_locals l) l
              eq_refl eq_refl) as [Hweak Hcount].
  pose proof (forEach_questions_has_prototype ans qs (of_locals l)) as Hp.
  assert (Js.own (currentMastery (forEach_questions ans qs (of_locals l)))
          = Js.Num
            <$> QuizOverlay.currentMastery
                  (QuizOverlay.forEach_questions ans qs l)) as Hown.
  { apply map_eq. intros t. rewrite lookup_fmap.
    destruct (decide (t ∈ QuizQuestion.topic <$> qs)) as [Hin|Hout].
    - apply list_elem_of_fmap in Hin as (q & -> & Hq).
      rewrite Forall_forall in Hqs, Hroom.
      apply host_counter_follows; [by apply Hqs| |by apply Hroom].
      simpl. by rewrite lookup_fmap.
    - assert (Js.own (currentMastery
                        (forEach_questions ans qs (of_locals l))) !! t
              = Js.own (currentMastery (of_locals l)) !! t) as ->.
      { clear Hqs Hroom Hweak Hcount Hp.
        induction qs as [|q qs IH] using rev_ind; [done|].
        rewrite fmap_app, not_elem_of_app in Hout.
        destruct Hout as [Hqs Hq].
        rewrite forEach_questions_snoc, forEach_callback_frame;
          [by apply IH|].
        intros Heq. apply Hq. rewrite <-Heq. simpl. left. }
      rewrite forEach_questions_process, lookup_mastery_process.
      + simpl. by rewrite lookup_fmap.
      + unfold QuizOverlay.outcomes. by rewrite <-list_fmap_compose. }
  destruct (forEach_questions ans qs (of_locals l)) as [c [o p] wk].
  simpl in *. unfold of_locals, of_counters. by subst.
Qed.

(** A document of counters up to [2^53] in magnitude loads as these
    counters, and counters are written as they are. *)
Lemma JSON_parse_counters m :
  map_Forall (λ _ n, Z.abs n ≤ 2 ^ 53) m →
  Js.JSON_parse (Js.JNumber <$> m) = of_counters m.
Proof.
  intros Hex. unfold Js.JSON_parse, of_counters. f_equal.
  rewrite <-map_fmap_compose. apply map_eq. intros t.
  rewrite !lookup_fmap.
  destruct (m !! t) as [n|] eqn:Hn; simpl; [|done].
  f_equal. apply round_double_exact. exact (Hex t n Hn).
Qed.

Lemma JSON_stringify_counters m :
  Js.JSON_stringify (of_counters m) = Js.JNumber <$> m.
Proof.
  unfold Js.JSON_stringify, of_counters. simpl.
  by rewrite <-map_fmap_compose.
Qed.
End host_loop_facts.

(* ===================================================================== *)
(** ** The properties of the design document *)
(* ===================================================================== *)

Section design_properties.
Import QuizOverlay.

(** The loop on integer counters keeps counters that are at least 0 at
    least 0. *)
Lemma nonneg_process (os : list (string * bool)) (l : Locals) :
  Updater.nonneg (currentMastery l) →
  Updater.nonneg (currentMastery (process os l)).
Proof.
  revert l. induction os as [|o os IH]; intros l Hl; [done|].
  rewrite process_cons. by apply IH, nonneg_record_outcome.
Qed.

(** The loop of [handleSubmit] on the host's object, for topics that no
    plain object inherits and counters with room for the batch, is the
    updater of the design document. *)
Lemma host_loop_is_update (ans : gmap Z Z) (qs : list QuizQuestion.t)
    (m : gmap string Z) (w : list string) (count : Z) :
  Forall (λ q, QuizQuestion.topic q ∉ Js.inherited_names) qs →
  Forall (λ q, QuizOverlayHost.has_room (QuizQuestion.topic q) qs m) qs →
  QuizOverlayHost.forEach_questions ans qs
    (QuizOverlayHost.mkLocals count (QuizOverlayHost.of_counters m) w)
  = QuizOverlayHost.of_locals
      (forEach_questions ans qs (mkLocals count m w)) ∧
  abstraction (forEach_questions ans qs (mkLocals count m w))
  = Updater.update (m, list_to_set w) (outcomes ans qs).
Proof.
  intros Hqs Hex. split.
  - by rewrite <-forEach_questions_of_locals.
  - by rewrite forEach_questions_process, abstraction_process.
Qed.

(** C1, within the numbers that count exactly and off the names that
    plain objects inherit.  From an object whose own properties are the
    integer counters [m], the [forEach] loop of [handleSubmit] ends with
    the weak topics that the updater of the design document prescribes
    for the outcomes in question order (a correct outcome takes the topic
    out of the weak-topic set, an incorrect one puts it in), and, for
    every topic that is no name in [Js.inherited_names] and whose counter
    has room for its questions up to [2^53], with the counter that the
    updater prescribes: a correct outcome adds 1 to the topic's counter
    (0 when absent), an incorrect one replaces it by
    [max(0, counter - 1)]. *)
Theorem mastery_update_follows_outcomes
    (ans : gmap Z Z) (qs : list QuizQuestion.t) (m : gmap string Z)
    (w : list string) (count : Z) :
  list_to_set
    (QuizOverlayHost.weakTopicsSet
       (QuizOverlayHost.forEach_questions ans qs
          (QuizOverlayHost.mkLocals count (QuizOverlayHost.of_counters m) w)))
  = (Updater.update (m, list_to_set w) (outcomes ans qs)).2 ∧
  ∀ t : string,
    t ∉ Js.inherited_names →
    QuizOverlayHost.has_room t qs m →
    Js.own
      (QuizOverlayHost.currentMastery
         (QuizOverlayHost.forEach_questions ans qs
            (QuizOverlayHost.mkLocals count
               (QuizOverlayHost.of_counters m) w)))
      !! t
    = Js.Num <$> (Updater.update (m, list_to_set w) (outcomes ans qs)).1 !! t.
Proof.
  pose proof (abstraction_process (outcomes ans qs) (mkLocals count m w))
    as Hup.
  rewrite <-forEach_questions_process in Hup.
  unfold abstraction in Hup. simpl in Hup. rewrite <-Hup. simpl.
  split.
  - by destruct (forEach_questions_weak_count ans qs
                   (QuizOverlayHost.mkLocals count
                      (QuizOverlayHost.of_counters m) w)
                   (mkLocals count m w) eq_refl eq_refl) as [-> _].
  - intros t Hno Hroom.
    apply (host_counter_follows ans qs _ (mkLocals count m w) t);
      [done| |done].
    simpl. by rewrite lookup_fmap.
Qed.

(** The quiz has a right and then a wrong answer on Algebra, stored at 5
    and as weak, and between them a right answer on the topic
    [toString]. *)
Lemma mastery_update_follows_outcomes_witness :
  ("Algebra" ∉ Js.inherited_names) ∧
  QuizOverlayHost.has_room "Algebra" Fixtures.mixed_quiz {[ "Algebra" := 5 ]} ∧
  list_to_set
    (QuizOverlayHost.weakTopicsSet
       (QuizOverlayHost.forEach_questions {[ 1 := 0; 2 := 1; 3 := 0 ]}
          Fixtures.mixed_quiz
          (QuizOverlayHost.mkLocals 0
             (QuizOverlayHost.of_counters {[ "Algebra" := 5 ]}) ["Algebra"])))
  = (Updater.update ({[ "Algebra" := 5 ]}, list_to_set ["Algebra"])
       (outcomes {[ 1 := 0; 2 := 1; 3 := 0 ]} Fixtures.mixed_quiz)).2 ∧
  Js.own
    (QuizOverlayHost.currentMastery
       (QuizOverlayHost.forEach_questions {[ 1 := 0; 2 := 1; 3 := 0 ]}
          Fixtures.mixed_quiz
          (QuizOverlayHost.mkLocals 0
             (QuizOverlayHost.of_counters {[ "Algebra" := 5 ]}) ["Algebra"])))
    !! "Algebra"
  = Js.Num
    <$> (Updater.update ({[ "Algebra" := 5 ]}, list_to_set ["Algebra"])
           (outcomes {[ 1 := 0; 2 := 1; 3 := 0 ]} Fixtures.mixed_quiz)).1
        !! "Algebra".
Proof.
  assert ("Algebra" ∉ Js.inherited_names) as Hno.
  { apply (bool_decide_unpack _). by vm_compute. }
  assert (QuizOverlayHost.has_room "Algebra" Fixtures.mixed_quiz
            {[ "Algebra" := 5 ]}) as Hroom by (by vm_compute).
  split; [exact Hno|]. split; [exact Hroom|].
  destruct (mastery_update_follows_outcomes {[ 1 := 0; 2 := 1; 3 := 0 ]}
              Fixtures.mixed_quiz {[ "Algebra" := 5 ]} ["Algebra"] 0)
    as [Hweak Hcounter].
  split; [exact Hweak|]. exact (Hcounter "Algebra" Hno Hroom).
Defined.

(** C1 as stated fails: a counter stored as [2^53] is loaded as it is,
    and a correct answer on its topic leaves it at [2^53], since
    [2^53 + 1] is no double, where the rule of the design document gives
    [2^53 + 1].  And it fails on an empty mastery object for a correct
    answer on the topic [toString]: what is read is the inherited
    function, and the loop stores its text followed by the digit 1, where
    the rule gives the counter 1. *)
Lemma mastery_update_rule_fails :
  (Js.own
     (QuizOverlayHost.currentMastery
        (QuizOverlayHost.forEach_questions {[ 3 := 2 ]}
           [Sample.question 3 "Algebra" 2]
           (QuizOverlayHost.mkLocals 0 (Js.JSON_parse Fixtures.at_limit) [])))
     !! "Algebra"
   = Some (Js.Num (2 ^ 53)) ∧
   (Updater.update ({[ "Algebra" := 2 ^ 53 ]}, ∅)
      (outcomes {[ 3 := 2 ]} [Sample.question 3 "Algebra" 2])).1 !! "Algebra"
   = Some (2 ^ 53 + 1) ∧
   Js.Num (2 ^ 53) ≠ Js.Num (2 ^ 53 + 1)) ∧
  (Js.own
     (QuizOverlayHost.currentMastery
        (QuizOverlayHost.forEach_questions {[ 1 := 0 ]}
           [Fixtures.on_toString]
           (QuizOverlayHost.mkLocals 0 (Js.JSON_parse ∅) [])))
     !! "toString"
   = Some (Js.FunText "toString" 1) ∧
   (Updater.update (∅, ∅)
      (outcomes {[ 1 := 0 ]} [Fixtures.on_toString])).1 !! "toString"
   = Some 1 ∧
   Js.FunText "toString" 1 ≠ Js.Num 1).
Proof. split; split_and!; by vm_compute. Qed.

(** Off the names that plain objects inherit and within the numbers that
    count exactly, counters that are at least 0 stay so. *)
Lemma counters_stay_nonneg_off_inherited_names
    (ans : gmap Z Z) (qs : list QuizQuestion.t) (m : gmap string Z)
    (w : list string) (count : Z) :
  Forall (λ q, QuizQuestion.topic q ∉ Js.inherited_names) qs →
  Forall (λ q, QuizOverlayHost.has_room (QuizQuestion.topic q) qs m) qs →
  Updater.nonneg m →
  ∃ m' : gmap string Z,
    QuizOverlayHost.currentMastery
      (QuizOverlayHost.forEach_questions ans qs
         (QuizOverlayHost.mkLocals count (QuizOverlayHost.of_counters m) w))
    = QuizOverlayHost.of_counters m' ∧
    Updater.nonneg m'.
Proof.
  intros Hqs Hex Hm.
  destruct (host_loop_is_update ans qs m w count Hqs Hex) as [-> _].
  exists (currentMastery (forEach_questions ans qs (mkLocals count m w))).
  split; [done|]. rewrite forEach_questions_process.
  by apply nonneg_process.
Qed.

(** C2, the code at a topic named like a member that plain objects
    inherit.  With nothing stored and one question on the topic
    [toString], [currentMastery[q.topic]] reads the inherited function,
    which [|| 0] lets through: after a wrong answer the loop leaves [NaN]
    under [toString], stored as [null], and after a right answer the text
    of the function followed by the digit 1.  In both cases what is
    stored under the topic is no number at least 0, where the updater of
    the design document gives the counters 0 and 1. *)
Theorem inherited_topic_gets_no_counter :
  Js.own
    (QuizOverlayHost.currentMastery
       (QuizOverlayHost.forEach_questions {[ 1 := 1 ]} [Fixtures.on_toString]
          (QuizOverlayHost.mkLocals 0 (Js.JSON_parse ∅) [])))
  = {[ "toString" := Js.NaN ]} ∧
  QuizOverlayHost.handleSubmit_update {[ 1 := 1 ]} [Fixtures.on_toString]
    Absent Absent
  = Normal ({[ "toString" := Js.JNull ]}, ["toString"]) ∧
  QuizOverlayHost.handleSubmit_update {[ 1 := 0 ]} [Fixtures.on_toString]
    Absent Absent
  = Normal ({[ "toString" := Js.JFunText "toString" 1 ]}, []) ∧
  (Updater.update (∅, ∅) (outcomes {[ 1 := 1 ]} [Fixtures.on_toString])).1
  = {[ "toString" := 0 ]} ∧
  (Updater.update (∅, ∅) (outcomes {[ 1 := 0 ]} [Fixtures.on_toString])).1
  = {[ "toString" := 1 ]}.
Proof. split_and!; by vm_compute. Qed.

(** C3. A topic of the quiz is in the weak-topic set after the loop of
    [handleSubmit] exactly when the last of its questions, in question
    order, is answered incorrectly, whatever the set was before. *)
Theorem weak_membership_is_last_outcome
    (ans : gmap Z Z) (qs : list QuizQuestion.t) (l : Locals) (t : string) :
  t ∈ QuizQuestion.topic <$> qs →
  (t ∈ weakTopicsSet (forEach_questions ans qs l)
   ↔ Updater.last_outcome t (outcomes ans qs) = Some false).
Proof.
  intros Hin. rewrite forEach_questions_process, elem_of_weak_process.
  destruct (Updater.last_outcome t (outcomes ans qs)) as [b|] eqn:Hlast.
  - split; [by intros ->|by intros [= ->]].
  - apply last_outcome_None in Hlast. destruct Hlast.
    unfold outcomes. by rewrite <-list_fmap_compose.
Qed.

Lemma weak_membership_is_last_outcome_witness :
  "Thermodynamics" ∈ QuizQuestion.topic <$> QuizData.questions Sample.quiz ∧
  ("Thermodynamics"
     ∈ weakTopicsSet
         (forEach_questions Sample.picked (QuizData.questions Sample.quiz)
            (mkLocals 0 {[ "Algebra" := 2 ]} ["Algebra"]))
   ↔ Updater.last_outcome "Thermodynamics"
       (outcomes Sample.picked (QuizData.questions Sample.quiz))
     = Some false).
Proof.
  assert ("Thermodynamics"
          ∈ QuizQuestion.topic <$> QuizData.questions Sample.quiz) as H.
  { simpl. left. }
  split; [exact H|].
  exact (weak_membership_is_last_outcome Sample.picked
           (QuizData.questions Sample.quiz)
           (mkLocals 0 {[ "Algebra" := 2 ]} ["Algebra"])
           "Thermodynamics" H).
Defined.

(** C4. On an empty mastery map and an empty weak-topic set the outcomes
    (Thermodynamics, correct), (Thermodynamics, incorrect),
    (Algebra, incorrect) give the mastery map
    {Thermodynamics: 0, Algebra: 0} and the weak-topic set
    {Thermodynamics, Algebra}; a submission of such a quiz on an empty
    store persists exactly these. *)
Theorem thermodynamics_example :
  currentMastery (process Sample.batch Sample.fresh)
    = {[ "Thermodynamics" := 0; "Algebra" := 0 ]} ∧
  weakTopicsSet (process Sample.batch Sample.fresh)
    = ["Thermodynamics"; "Algebra"] ∧
  outcomes Sample.picked (QuizData.questions Sample.quiz) = Sample.batch ∧
  ∀ now_id now_date : Z,
    let st' := (handleSubmit (Sample.overlay Sample.picked)
                  now_id now_date Sample.empty_storage).1 in
    studyBuddy_topic_mastery st'
      = Holds {[ "Thermodynamics" := 0; "Algebra" := 0 ]} ∧
    studyBuddy_weakTopics st' = Holds ["Thermodynamics"; "Algebra"].
Proof.
  split_and!.
  - by vm_compute.
  - by vm_compute.
  - by vm_compute.
  - intros now_id now_date.
    erewrite handleSubmit_loaded by reflexivity.
    split; by vm_compute.
Qed.

(** A submission on a store whose keys load leaves a history that is the
    history before followed by one new record: one longer, the new
    record last, and every record stored before still there at its
    index. *)
Lemma history_grows_when_keys_load
    (c : State) (quiz : QuizData.t) (now_id now_date : Z) (st : Storage)
    (h0 : list QuizResult.t) :
  quizData c = Some quiz →
  readable (studyBuddy_topic_mastery st) = true →
  readable (studyBuddy_weakTopics st) = true →
  parse_or [] (studyBuddy_quizHistory st) = Normal h0 →
  ∃ (h1 : list QuizResult.t) (r : QuizResult.t),
    studyBuddy_quizHistory (handleSubmit c now_id now_date st).1
      = Holds h1 ∧
    h1 = h0 ++ [r] ∧
    length h1 = (length h0 + 1)%nat ∧
    last h1 = Some r ∧
    (∀ (i : nat) (x : QuizResult.t), h0 !! i = Some x → h1 !! i = Some x) ∧
    QuizResult.totalQuestions r
      = Z.of_nat (length (QuizData.questions quiz)) ∧
    QuizResult.score r = score_of c quiz.
Proof.
  intros Hq [m0 Hm]%(readable_parse_or ∅) [w0 Hw]%(readable_parse_or [])
    Hh.
  rewrite (handleSubmit_loaded c quiz now_id now_date st m0 w0 h0)
    by done.
  eexists _, _. simpl. split_and!; try done.
  - rewrite length_app. simpl. done.
  - apply last_snoc.
  - intros i x Hi. by apply lookup_app_l_Some.
  - unfold score_of, loop_result.
    by rewrite correctCount_forEach_questions.
Qed.

(** C5, the code at a store it cannot load: with text that is not JSON
    under the mastery key and one record in the history, the submission
    of a completed quiz (every question has an answer) throws out of the
    first [JSON.parse] and the store is left as it was: the history still
    has its one record, none is appended. *)
Theorem unreadable_mastery_appends_no_record (now_id now_date : Z) :
  handleSubmit (Sample.overlay Sample.picked) now_id now_date
    Fixtures.unreadable_mastery
  = (Fixtures.unreadable_mastery, Throw SyntaxError) ∧
  parse_or []
    (studyBuddy_quizHistory
       (handleSubmit (Sample.overlay Sample.picked) now_id now_date
          Fixtures.unreadable_mastery).1)
  = Normal [Sample.earlier] ∧
  size (answers (Sample.overlay Sample.picked))
  = length (QuizData.questions Sample.quiz).
Proof.
  assert (handleSubmit (Sample.overlay Sample.picked) now_id now_date
            Fixtures.unreadable_mastery
          = (Fixtures.unreadable_mastery, Throw SyntaxError)) as H.
  { by apply (handleSubmit_malformed_mastery _ Sample.quiz). }
  rewrite H. split_and!; [done|done|by vm_compute].
Qed.

(** C6. The mastery update is not idempotent.  There are answers, a
    non-empty quiz and a state of the loop for which running the loop of
    [handleSubmit] a second time changes the mastery counters again; and
    there are a store and a quiz for which submitting the quiz a second
    time changes the stored mastery map again. *)
Theorem mastery_update_not_idempotent :
  (∃ (ans : gmap Z Z) (qs : list QuizQuestion.t) (l : Locals),
     outcomes ans qs ≠ [] ∧
     currentMastery (forEach_questions ans qs (forEach_questions ans qs l))
     ≠ currentMastery (forEach_questions ans qs l)) ∧
  (∃ (c : State) (st : Storage) (now1 now2 : Z),
     studyBuddy_topic_mastery (handleSubmit c now1 now1 st).1
     = Holds {[ "Thermodynamics" := 2; "Algebra" := 1 ]} ∧
     studyBuddy_topic_mastery
       (handleSubmit c now2 now2 (handleSubmit c now1 now1 st).1).1
     = Holds {[ "Thermodynamics" := 4; "Algebra" := 2 ]} ∧
     studyBuddy_topic_mastery
       (handleSubmit c now2 now2 (handleSubmit c now1 now1 st).1).1
     ≠ studyBuddy_topic_mastery (handleSubmit c now1 now1 st).1).
Proof.
  split.
  - exists {[ 3 := 2 ]}, [Sample.question 3 "Algebra" 2], Sample.fresh.
    split; [done|]. intros Heq.
    assert (currentMastery
              (forEach_questions {[ 3 := 2 ]} [Sample.question 3 "Algebra" 2]
                 (forEach_questions {[ 3 := 2 ]}
                    [Sample.question 3 "Algebra" 2] Sample.fresh))
            !! "Algebra" = Some 2) as H2 by (by vm_compute).
    rewrite Heq in H2. vm_compute in H2. discriminate H2.
  - exists (Sample.overlay {[ 1 := 0; 2 := 1; 3 := 2 ]}),
      Sample.empty_storage, 1700000360000, 1700000420000.
    assert (studyBuddy_topic_mastery
              (handleSubmit (Sample.overlay {[ 1 := 0; 2 := 1; 3 := 2 ]})
                 1700000360000 1700000360000 Sample.empty_storage).1
            = Holds {[ "Thermodynamics" := 2; "Algebra" := 1 ]}) as H1
      by (by vm_compute).
    assert (studyBuddy_topic_mastery
              (handleSubmit (Sample.overlay {[ 1 := 0; 2 := 1; 3 := 2 ]})
                 1700000420000 1700000420000
                 (handleSubmit (Sample.overlay {[ 1 := 0; 2 := 1; 3 := 2 ]})
                    1700000360000 1700000360000 Sample.empty_storage).1).1
            = Holds {[ "Thermodynamics" := 4; "Algebra" := 2 ]}) as H2
      by (by vm_compute).
    split; [exact H1|]. split; [exact H2|].
    rewrite H1, H2. intros Heq.
    assert (∀ a b : gmap string Z,
              Holds a = Holds b → a !! "Algebra" = b !! "Algebra") as Hinj
      by (by intros a b [= ->]).
    apply Hinj in Heq. vm_compute in Heq. discriminate Heq.
Qed.

(** C7. For every store, [clearHistory] with its prompt confirmed sets
    the persisted history to empty (the key is removed, so that the
    history loads as the empty list, and the modal shows none) and leaves
    the persisted mastery map and weak-topic list exactly as they are.
    With the prompt declined nothing is cleared and nothing changes. *)
Theorem clearHistory_confirmed_clears_history_only
    (history : list QuizResult.t) (st : Storage) :
  (let st' := (QuizHistoryModal.clearHistory true history st).1 in
   studyBuddy_quizHistory st' = Absent ∧
   parse_or [] (studyBuddy_quizHistory st') = Normal [] ∧
   studyBuddy_topic_mastery st' = studyBuddy_topic_mastery st ∧
   studyBuddy_weakTopics st' = studyBuddy_weakTopics st ∧
   (QuizHistoryModal.clearHistory true history st).2 = Normal []) ∧
  QuizHistoryModal.clearHistory false history st = (st, Normal history).
Proof. done. Qed.

(** C8, the code at a store it cannot load: with malformed text under
    the mastery key [handleSubmit] throws out of [JSON.parse] and writes
    nothing, where an empty mastery map would have given the update of
    [thermodynamics_example]; with malformed text under the history key
    it throws after mastery and weak topics are written. *)
Theorem handleSubmit_malformed_key_throws (now_id now_date : Z) :
  handleSubmit (Sample.overlay Sample.picked) now_id now_date
    (mkStorage Malformed Absent Absent)
  = (mkStorage Malformed Absent Absent, Throw SyntaxError) ∧
  handleSubmit (Sample.overlay Sample.picked) now_id now_date
    (mkStorage Absent Malformed Absent)
  = (mkStorage Absent Malformed Absent, Throw SyntaxError) ∧
  handleSubmit (Sample.overlay Sample.picked) now_id now_date
    (mkStorage Absent Absent Malformed)
  = (mkStorage (Holds {[ "Thermodynamics" := 0; "Algebra" := 0 ]})
       (Holds ["Thermodynamics"; "Algebra"]) Malformed,
     Throw SyntaxError).
Proof.
  split_and!.
  - by apply (handleSubmit_malformed_mastery _ Sample.quiz).
  - by apply (handleSubmit_malformed_weakTopics _ Sample.quiz).
  - rewrite (handleSubmit_malformed_quizHistory _ Sample.quiz _ _ _ ∅ [])
      by done.
    by vm_compute.
Qed.

(** C9, within the numbers that count exactly and off the names that
    plain objects inherit.  In the loop of [handleSubmit] a question
    without a selected answer is an incorrect one: it is not counted in
    the score and its topic is put into the weak-topic set; and when its
    topic is no name in [Js.inherited_names] and the topic's counter is
    an integer up to [2^53] (0 when the topic has none), the counter
    becomes [max(0, counter - 1)]. *)
Theorem unanswered_question_is_incorrect
    (ans : gmap Z Z) (q : QuizQuestion.t) (l : QuizOverlayHost.Locals) :
  ans !! QuizQuestion.id q = None →
  isCorrect ans q = false ∧
  QuizOverlayHost.correctCount (QuizOverlayHost.forEach_callback ans l q)
  = QuizOverlayHost.correctCount l ∧
  QuizQuestion.topic q
    ∈ QuizOverlayHost.weakTopicsSet
        (QuizOverlayHost.forEach_callback ans l q) ∧
  ∀ v : option Z,
    QuizQuestion.topic q ∉ Js.inherited_names →
    Js.own (QuizOverlayHost.currentMastery l) !! QuizQuestion.topic q
    = Js.Num <$> v →
    default 0 v ≤ 2 ^ 53 →
    Js.own
      (QuizOverlayHost.currentMastery
         (QuizOverlayHost.forEach_callback ans l q))
      !! QuizQuestion.topic q
    = Some (Js.Num (Z.max 0 (default 0 v - 1))).
Proof.
  intros Hnone.
  assert (isCorrect ans q = false) as Hq.
  { unfold isCorrect. rewrite Hnone. by apply bool_decide_eq_false. }
  split; [done|]. split_and!.
  - unfold QuizOverlayHost.forEach_callback. by rewrite Hq.
  - unfold QuizOverlayHost.forEach_callback. rewrite Hq. simpl.
    apply elem_of_JsSet_add. by left.
  - intros v Hno Hown Hv.
    rewrite (forEach_callback_own_counter ans l q v Hno Hown);
      rewrite Hq; done.
Qed.

Lemma unanswered_question_is_incorrect_witness :
  Sample.picked_two !! QuizQuestion.id (Sample.question 3 "Algebra" 2)
    = None ∧
  isCorrect Sample.picked_two (Sample.question 3 "Algebra" 2) = false ∧
  QuizOverlayHost.correctCount
    (QuizOverlayHost.forEach_callback Sample.picked_two
       (QuizOverlayHost.mkLocals 1
          (Js.JSON_parse {[ "Algebra" := Js.JNumber 2 ]}) [])
       (Sample.question 3 "Algebra" 2))
  = 1 ∧
  "Algebra"
    ∈ QuizOverlayHost.weakTopicsSet
        (QuizOverlayHost.forEach_callback Sample.picked_two
           (QuizOverlayHost.mkLocals 1
              (Js.JSON_parse {[ "Algebra" := Js.JNumber 2 ]}) [])
           (Sample.question 3 "Algebra" 2)) ∧
  ("Algebra" ∉ Js.inherited_names) ∧
  Js.own (Js.JSON_parse {[ "Algebra" := Js.JNumber 2 ]}) !! "Algebra"
  = Js.Num <$> Some 2 ∧
  default 0 (Some 2) ≤ 2 ^ 53 ∧
  Js.own
    (QuizOverlayHost.currentMastery
       (QuizOverlayHost.forEach_callback Sample.picked_two
          (QuizOverlayHost.mkLocals 1
             (Js.JSON_parse {[ "Algebra" := Js.JNumber 2 ]}) [])
          (Sample.question 3 "Algebra" 2)))
    !! "Algebra"
  = Some (Js.Num (Z.max 0 (default 0 (Some 2) - 1))).
Proof.
  assert (Sample.picked_two !! QuizQuestion.id (Sample.question 3 "Algebra" 2)
          = None) as H by (by vm_compute).
  assert ("Algebra" ∉ Js.inherited_names) as Hno.
  { apply (bool_decide_unpack _). by vm_compute. }
  assert (Js.own (Js.JSON_parse {[ "Algebra" := Js.JNumber 2 ]}) !! "Algebra"
          = Js.Num <$> Some 2) as Hown by (by vm_compute).
  assert (default 0 (Some 2) ≤ 2 ^ 53) as Hv by (by vm_compute).
  destruct (unanswered_question_is_incorrect Sample.picked_two
              (Sample.question 3 "Algebra" 2)
              (QuizOverlayHost.mkLocals 1
                 (Js.JSON_parse {[ "Algebra" := Js.JNumber 2 ]}) []) H)
    as (Hq & Hcount & Hweak & Hcounter).
  split_and!; [exact H|exact Hq|exact Hcount|exact Hweak|exact Hno|
               exact Hown|exact Hv|].
  exact (Hcounter (Some 2) Hno Hown Hv).
Defined.

(** C9 as stated fails: a counter stored as [2^53 + 2] is loaded as it
    is, and an unanswered question on its topic leaves it at [2^53],
    since [2^53 + 1] is no double and the tie goes to the even
    significand, where the decrement gives [2^53 + 1].  And it fails on
    an empty mastery object for an unanswered question on the topic
    [toString]: what is read is the inherited function, and the loop
    stores [NaN], where the decrement floored at 0 gives 0. *)
Lemma unanswered_decrement_fails :
  (Sample.picked_two !! QuizQuestion.id (Sample.question 3 "Algebra" 2)
     = None ∧
   Js.own (Js.JSON_parse Fixtures.past_limit) !! "Algebra"
   = Some (Js.Num (2 ^ 53 + 2)) ∧
   Js.own
     (QuizOverlayHost.currentMastery
        (QuizOverlayHost.forEach_callback Sample.picked_two
           (QuizOverlayHost.mkLocals 1 (Js.JSON_parse Fixtures.past_limit) [])
           (Sample.question 3 "Algebra" 2)))
     !! "Algebra"
   = Some (Js.Num (2 ^ 53)) ∧
   Js.Num (2 ^ 53) ≠ Js.Num (Z.max 0 (2 ^ 53 + 2 - 1))) ∧
  ((∅ : gmap Z Z) !! QuizQuestion.id Fixtures.on_toString = None ∧
   Js.own
     (QuizOverlayHost.currentMastery
        (QuizOverlayHost.forEach_callback ∅
           (QuizOverlayHost.mkLocals 0 (Js.JSON_parse ∅) [])
           Fixtures.on_toString))
     !! "toString"
   = Some Js.NaN ∧
   Js.NaN ≠ Js.Num (Z.max 0 (0 - 1))).
Proof. split; split_and!; by vm_compute. Qed.

(** C10. A topic that occurs in no outcome of the batch has after the
    update the counter it had before (none when it had none) and is in
    the weak-topic set exactly when it was before. *)
Theorem untouched_topic_is_unchanged
    (os : list (string * bool)) (l : Locals) (t : string) :
  t ∉ os.*1 →
  currentMastery (process os l) !! t = currentMastery l !! t ∧
  (t ∈ weakTopicsSet (process os l) ↔ t ∈ weakTopicsSet l).
Proof.
  intros Hno. split; [by apply lookup_mastery_process|].
  rewrite elem_of_weak_process.
  apply last_outcome_None in Hno. by rewrite Hno.
Qed.

Lemma untouched_topic_is_unchanged_witness :
  ("Optics" ∉ Sample.batch.*1) ∧
  currentMastery
    (process Sample.batch (mkLocals 0 {[ "Optics" := 3 ]} ["Optics"]))
    !! "Optics"
    = ({[ "Optics" := 3 ]} : gmap string Z) !! "Optics" ∧
  ("Optics"
     ∈ weakTopicsSet
         (process Sample.batch (mkLocals 0 {[ "Optics" := 3 ]} ["Optics"]))
   ↔ "Optics" ∈ ["Optics"]).
Proof.
  assert ("Optics" ∉ Sample.batch.*1) as H.
  { simpl. rewrite !not_elem_of_cons. split_and!; try done.
    apply not_elem_of_nil. }
  split; [exact H|].
  exact (untouched_topic_is_unchanged Sample.batch
           (mkLocals 0 {[ "Optics" := 3 ]} ["Optics"]) "Optics" H).
Defined.
End design_properties.

(* ===================================================================== *)
(** ** Integer counters and the host's object *)
(* ===================================================================== *)

Section counters_on_host.
Import QuizOverlay.

(** The example of the design document, computed on the host's object:
    what [handleSubmit] stores for the mastery and the weak-topic key on
    an empty store. *)
Lemma thermodynamics_example_on_host :
  QuizOverlayHost.handleSubmit_update Sample.picked
    (QuizData.questions Sample.quiz) Absent Absent
  = Normal ({[ "Thermodynamics" := Js.JNumber 0; "Algebra" := Js.JNumber 0 ]},
            ["Thermodynamics"; "Algebra"]).
Proof. by vm_compute. Qed.

(** A topic that is not among the topics of the quiz keeps its own
    property, or has none as before, and its place in or out of the
    weak-topic set: on the host's object too, whatever the topics are
    named and whatever the object holds. *)
Lemma untouched_topic_is_unchanged_on_host (ans : gmap Z Z)
    (qs : list QuizQuestion.t) (l : QuizOverlayHost.Locals) (t : string) :
  t ∉ QuizQuestion.topic <$> qs →
  Js.own (QuizOverlayHost.currentMastery
            (QuizOverlayHost.forEach_questions ans qs l)) !! t
  = Js.own (QuizOverlayHost.currentMastery l) !! t ∧
  (t ∈ QuizOverlayHost.weakTopicsSet
         (QuizOverlayHost.forEach_questions ans qs l)
   ↔ t ∈ QuizOverlayHost.weakTopicsSet l).
Proof.
  intros Hno. split.
  - induction qs as [|q qs IH] using rev_ind; [done|].
    rewrite fmap_app, not_elem_of_app in Hno. destruct Hno as [Hqs Hq].
    rewrite forEach_questions_snoc, forEach_callback_frame; [by apply IH|].
    intros Heq. apply Hq. rewrite <-Heq. simpl. left.
  - destruct (forEach_questions_weak_count ans qs l
                (mkLocals (QuizOverlayHost.correctCount l) ∅
                   (QuizOverlayHost.weakTopicsSet l)) eq_refl eq_refl)
      as [-> _].
    rewrite forEach_questions_process, elem_of_weak_process.
    assert (Updater.last_outcome t (outcomes ans qs) = None) as ->; [|done].
    apply last_outcome_None. unfold outcomes.
    by rewrite <-list_fmap_compose.
Qed.

(** Membership in the weak-topic set after the loop, on the host's
    object: decided by the last answer on the topic, whatever the topics
    are named. *)
Lemma weak_membership_is_last_outcome_on_host (ans : gmap Z Z)
    (qs : list QuizQuestion.t) (l : QuizOverlayHost.Locals) (t : string) :
  t ∈ QuizQuestion.topic <$> qs →
  (t ∈ QuizOverlayHost.weakTopicsSet
         (QuizOverlayHost.forEach_questions ans qs l)
   ↔ Updater.last_outcome t (outcomes ans qs) = Some false).
Proof.
  intros Hin.
  destruct (forEach_questions_weak_count ans qs l
              (mkLocals (QuizOverlayHost.correctCount l) ∅
                 (QuizOverlayHost.weakTopicsSet l)) eq_refl eq_refl)
    as [-> _].
  rewrite forEach_questions_process, elem_of_weak_process.
  destruct (Updater.last_outcome t (outcomes ans qs)) as [b|] eqn:Hlast.
  - split; [by intros ->|by intros [= ->]].
  - apply last_outcome_None in Hlast. destruct Hlast.
    unfold outcomes. by rewrite <-list_fmap_compose.
Qed.

(** For a quiz none of whose topics is a name that plain objects inherit
    and a stored document of integer counters up to [2^53] in magnitude,
    those of the quiz's topics with room for the quiz, what [handleSubmit] stores on integer counters is what it
    stores on the host's object. *)
Lemma handleSubmit_agrees_with_host
    (c : State) (quiz : QuizData.t) (now_id now_date : Z) (st : Storage)
    (m0 : gmap string Z) (w0 : list string) (h0 : list QuizResult.t) :
  quizData c = Some quiz →
  parse_or ∅ (studyBuddy_topic_mastery st) = Normal m0 →
  parse_or [] (studyBuddy_weakTopics st) = Normal w0 →
  parse_or [] (studyBuddy_quizHistory st) = Normal h0 →
  Forall (λ q, QuizQuestion.topic q ∉ Js.inherited_names)
    (QuizData.questions quiz) →
  Forall (λ q, QuizOverlayHost.has_room (QuizQuestion.topic q)
                 (QuizData.questions quiz) m0)
    (QuizData.questions quiz) →
  map_Forall (λ _ n, Z.abs n ≤ 2 ^ 53) m0 →
  ∃ (m1 : gmap string Z) (w1 : list string),
    studyBuddy_topic_mastery (handleSubmit c now_id now_date st).1
    = Holds m1 ∧
    studyBuddy_weakTopics (handleSubmit c now_id now_date st).1
    = Holds w1 ∧
    QuizOverlayHost.handleSubmit_update (answers c) (QuizData.questions quiz)
      (Holds (Js.JNumber <$> m0)) (Holds w0)
    = Normal (Js.JNumber <$> m1, w1).
Proof.
  intros Hq Hm Hw Hh Hqs Hex Hsmall.
  rewrite (handleSubmit_loaded c quiz now_id now_date st m0 w0 h0) by done.
  eexists _, _. split; [reflexivity|]. split; [reflexivity|].
  unfold QuizOverlayHost.handleSubmit_update. simpl.
  rewrite JSON_parse_counters by done.
  change (QuizOverlayHost.mkLocals 0 (QuizOverlayHost.of_counters m0)
            (JsSet.from_array w0))
    with (QuizOverlayHost.of_locals (mkLocals 0 m0 (JsSet.from_array w0))).
  rewrite forEach_questions_of_locals by done. simpl.
  by rewrite JSON_stringify_counters.
Qed.
End counters_on_host.

(* ===================================================================== *)
(** ** [Array.prototype.sort] *)
(* ===================================================================== *)

Section sort_facts.
Context {A : Type} (cmp : A → A → Z).
Implicit Types (a b : A) (l k : list A).

Lemma sort_insert_Permutation a l : Array.sort_insert cmp a l ≡ₚ a :: l.
Proof.
  induction l as [|b l IH]; simpl; [done|].
  case_bool_decide; [done|].
  rewrite IH. apply Permutation_swap.
Qed.

Lemma sort_Permutation l : Array.sort cmp l ≡ₚ l.
Proof.
  induction l as [|a l IH]; simpl; [done|].
  by rewrite sort_insert_Permutation, IH.
Qed.

(** An element the comparator puts after every element of [l] is
    inserted at the end. *)
Lemma sort_insert_last a l :
  Forall (λ b, 0 < cmp a b) l → Array.sort_insert cmp a l = l ++ [a].
Proof.
  induction 1 as [|b l Hb Hl IH]; simpl; [done|].
  rewrite bool_decide_eq_false_2 by lia. by rewrite IH.
Qed.

(** Insertion only passes elements that compare differently: elements
    picked by a property the comparator respects keep their order. *)
Lemma filter_sort_insert (P : A → Prop) `{!∀ x, Decision (P x)} a l :
  (∀ b, P a → P b → cmp a b ≤ 0) →
  filter P (Array.sort_insert cmp a l) = filter P (a :: l).
Proof.
  intros Hcmp. induction l as [|b l IH]; simpl; [done|].
  case_bool_decide as Hab; [done|].
  rewrite !filter_cons in *.
  destruct (decide (P b)) as [Hb|Hb], (decide (P a)) as [Ha|Ha];
    rewrite IH; try done.
  destruct Hab. by apply Hcmp.
Qed.

Lemma filter_sort (P : A → Prop) `{!∀ x, Decision (P x)} l :
  (∀ a b, P a → P b → cmp a b ≤ 0) →
  filter P (Array.sort cmp l) = filter P l.
Proof.
  intros Hcmp. induction l as [|a l IH]; simpl; [done|].
  rewrite filter_sort_insert by auto.
  by rewrite !filter_cons, IH.
Qed.
End sort_facts.

Section by_date_facts.
Import QuizHistoryView.
Implicit Types (r x : QuizResult.t) (h : list QuizResult.t).

Lemma sort_insert_by_date_sorted r h :
  StronglySorted newest_first h →
  StronglySorted newest_first (Array.sort_insert by_date_desc r h).
Proof.
  induction 1 as [|x h Hh IH Hx]; simpl.
  - repeat constructor.
  - unfold by_date_desc at 1. case_bool_decide as Hrx.
    + constructor; [by constructor|].
      constructor; [unfold newest_first; lia|].
      eapply Forall_impl; [exact Hx|].
      unfold newest_first. intros y Hy. lia.
    + constructor; [done|].
      rewrite sort_insert_Permutation. constructor; [|done].
      unfold newest_first. lia.
Qed.

Lemma sort_by_date_sorted h :
  StronglySorted newest_first (Array.sort by_date_desc h).
Proof.
  induction h as [|r h IH]; simpl; [constructor|].
  by apply sort_insert_by_date_sorted.
Qed.

(** A record newer than all of [h], appended to [h], is shown first. *)
Lemma sort_by_date_snoc_newest h r :
  Forall (λ x, QuizResult.date x < QuizResult.date r) h →
  Array.sort by_date_desc (h ++ [r]) = r :: Array.sort by_date_desc h.
Proof.
  induction 1 as [|x h Hx Hh IH]; simpl; [done|].
  rewrite IH. simpl. unfold by_date_desc at 1.
  by rewrite bool_decide_eq_false_2 by lia.
Qed.

(** A history stored in strictly increasing date order is shown in the
    reverse of its stored order. *)
Lemma sort_by_date_chronological h :
  StronglySorted (λ x y, QuizResult.date x < QuizResult.date y) h →
  Array.sort by_date_desc h = reverse h.
Proof.
  induction 1 as [|r h Hh IH Hr]; simpl; [done|].
  rewrite IH, reverse_cons. apply sort_insert_last.
  apply Forall_reverse. eapply Forall_impl; [exact Hr|].
  unfold by_date_desc. intros y Hy. simpl in Hy. lia.
Qed.
End by_date_facts.

(* ===================================================================== *)
(** ** The history modal *)
(* ===================================================================== *)

Section history_view.
Import QuizOverlay QuizHistoryView.

(** X1. When the history key holds a list, the modal shows a rearrangement
    of exactly the stored records, newest first, and records of the same
    date keep their stored order; the store is not touched. *)
Theorem history_shown_newest_first (st : Storage) (h : list QuizResult.t) :
  studyBuddy_quizHistory st = Holds h →
  ∃ shown : list QuizResult.t,
    mount_history st = (st, Normal shown) ∧
    shown ≡ₚ h ∧
    StronglySorted newest_first shown ∧
    ∀ d : Z, filter (λ r, QuizResult.date r = d) shown
             = filter (λ r, QuizResult.date r = d) h.
Proof.
  intros Hh. exists (Array.sort by_date_desc h). split_and!.
  - unfold mount_history, mbind, js_bind, mret, js_ret,
      localStorage.get_quizHistory. simpl. by rewrite Hh.
  - apply sort_Permutation.
  - apply sort_by_date_sorted.
  - intros d. apply filter_sort. intros a b Ha Hb.
    unfold by_date_desc. lia.
Qed.

Lemma history_shown_newest_first_witness :
  studyBuddy_quizHistory Fixtures.shuffled_storage
  = Holds Fixtures.shuffled_history ∧
  ∃ shown : list QuizResult.t,
    mount_history Fixtures.shuffled_storage
    = (Fixtures.shuffled_storage, Normal shown) ∧
    shown ≡ₚ Fixtures.shuffled_history ∧
    StronglySorted newest_first shown ∧
    ∀ d : Z, filter (λ r, QuizResult.date r = d) shown
             = filter (λ r, QuizResult.date r = d) Fixtures.shuffled_history.
Proof.
  split; [reflexivity|].
  exact (history_shown_newest_first Fixtures.shuffled_storage
           Fixtures.shuffled_history eq_refl).
Defined.

(** On the history of [Fixtures.shuffled_storage] the modal shows the
    record of date 40, then that of date 30, then the two of date 20 in
    their stored order. *)
Lemma shuffled_history_shown :
  mount_history Fixtures.shuffled_storage
  = (Fixtures.shuffled_storage,
     Normal [Fixtures.record "d" 40; Fixtures.record "c" 30;
             Fixtures.record "b" 20; Fixtures.record "a" 20]).
Proof. by vm_compute. Qed.

(** X2. A history whose records were stored in strictly increasing date
    order, as successive submissions under an advancing clock store them,
    is shown in exactly the reverse of the stored order. *)
Theorem chronological_history_shown_reversed
    (st : Storage) (h : list QuizResult.t) :
  studyBuddy_quizHistory st = Holds h →
  StronglySorted (λ x y, QuizResult.date x < QuizResult.date y) h →
  mount_history st = (st, Normal (reverse h)).
Proof.
  intros Hh Hsorted.
  unfold mount_history, mbind, js_bind, mret, js_ret,
    localStorage.get_quizHistory. simpl. rewrite Hh.
  by rewrite sort_by_date_chronological.
Qed.

Lemma chronological_history_shown_reversed_witness :
  studyBuddy_quizHistory Fixtures.chronological_storage
  = Holds Fixtures.chronological_history ∧
  StronglySorted (λ x y, QuizResult.date x < QuizResult.date y)
    Fixtures.chronological_history ∧
  mount_history Fixtures.chronological_storage
  = (Fixtures.chronological_storage,
     Normal (reverse Fixtures.chronological_history)).
Proof.
  assert (StronglySorted (λ x y, QuizResult.date x < QuizResult.date y)
            Fixtures.chronological_history) as H.
  { unfold Fixtures.chronological_history.
    repeat (apply SSorted_cons; [|repeat apply Forall_cons_2;
                                   try apply Forall_nil_2; simpl; lia]).
    apply SSorted_nil. }
  split; [reflexivity|]. split; [exact H|].
  exact (chronological_history_shown_reversed Fixtures.chronological_storage
           Fixtures.chronological_history eq_refl H).
Defined.

(** X3. After a submission that runs to its end, the modal shows the
    prior records and the new one, one more than before; when the clock
    reading stored as the new record's date is later than every stored
    date, the new record is shown first. *)
Theorem submitted_quiz_appears_in_history
    (c : State) (quiz : QuizData.t) (now_id now_date : Z) (st : Storage)
    (m0 : gmap string Z) (w0 : list string) (h0 : list QuizResult.t) :
  quizData c = Some quiz →
  parse_or ∅ (studyBuddy_topic_mastery st) = Normal m0 →
  parse_or [] (studyBuddy_weakTopics st) = Normal w0 →
  parse_or [] (studyBuddy_quizHistory st) = Normal h0 →
  ∃ (shown : list QuizResult.t) (r : QuizResult.t),
    (mount_history (handleSubmit c now_id now_date st).1).2 = Normal shown ∧
    QuizResult.date r = now_date ∧
    QuizResult.title r = QuizData.title quiz ∧
    shown ≡ₚ r :: h0 ∧
    length shown = S (length h0) ∧
    (Forall (λ x, QuizResult.date x < now_date) h0 →
     shown = r :: Array.sort by_date_desc h0).
Proof.
  intros Hq Hm Hw Hh.
  rewrite (handleSubmit_loaded c quiz now_id now_date st m0 w0 h0) by done.
  set (r := make_result quiz (correctCount (loop_result c quiz m0 w0))
              (focusTopic c) (selectedSubject c) now_id now_date).
  exists (Array.sort by_date_desc (h0 ++ [r])), r. split_and!.
  - reflexivity.
  - reflexivity.
  - reflexivity.
  - rewrite sort_Permutation. by rewrite Permutation_app_comm.
  - rewrite sort_Permutation, length_app. simpl. lia.
  - intros Hnew. by apply sort_by_date_snoc_newest.
Qed.

Lemma submitted_quiz_appears_in_history_witness :
  quizData (Sample.overlay Sample.picked) = Some Sample.quiz ∧
  parse_or ∅ (studyBuddy_topic_mastery Sample.used_storage)
    = Normal {[ "Algebra" := 2 ]} ∧
  parse_or [] (studyBuddy_weakTopics Sample.used_storage)
    = Normal ["Algebra"] ∧
  parse_or [] (studyBuddy_quizHistory Sample.used_storage)
    = Normal [Sample.earlier] ∧
  ∃ (shown : list QuizResult.t) (r : QuizResult.t),
    (mount_history
       (handleSubmit (Sample.overlay Sample.picked)
          1700000360000 1700000360001 Sample.used_storage).1).2
      = Normal shown ∧
    QuizResult.date r = 1700000360001 ∧
    QuizResult.title r = QuizData.title Sample.quiz ∧
    shown ≡ₚ r :: [Sample.earlier] ∧
    length shown = S (length [Sample.earlier]) ∧
    (Forall (λ x, QuizResult.date x < 1700000360001) [Sample.earlier] →
     shown = r :: Array.sort by_date_desc [Sample.earlier]).
Proof.
  split_and!; [reflexivity..|].
  exact (submitted_quiz_appears_in_history (Sample.overlay Sample.picked)
           Sample.quiz 1700000360000 1700000360001 Sample.used_storage
           {[ "Algebra" := 2 ]} ["Algebra"] [Sample.earlier]
           eq_refl eq_refl eq_refl eq_refl).
Defined.

(** X4. A history key with malformed text is never repaired from within
    the application: the modal shows an empty history and does not offer
    its Clear button, and every submission of a quiz throws and leaves
    the key as it is, without the submitted quiz's record. *)
Theorem malformed_history_is_not_repaired (st : Storage) :
  studyBuddy_quizHistory st = Malformed →
  mount_history st = (st, Normal []) ∧
  clear_offered [] = false ∧
  ∀ (c : State) (quiz : QuizData.t) (now_id now_date : Z),
    quizData c = Some quiz →
    (handleSubmit c now_id now_date st).2 = Throw SyntaxError ∧
    studyBuddy_quizHistory (handleSubmit c now_id now_date st).1
      = Malformed.
Proof.
  intros Hh. split_and!.
  - unfold mount_history, mbind, js_bind, mret, js_ret,
      localStorage.get_quizHistory. simpl. by rewrite Hh.
  - done.
  - intros c quiz now_id now_date Hq.
    destruct (studyBuddy_topic_mastery st) as [| | |m] eqn:Hm.
    all: destruct (studyBuddy_weakTopics st) as [| | |w] eqn:Hw.
    all: try (rewrite (handleSubmit_malformed_mastery c quiz) by done;
              by split).
    all: try (rewrite (handleSubmit_malformed_weakTopics c quiz)
                by (try done; by rewrite Hm);
              by split).
    all: erewrite (handleSubmit_malformed_quizHistory c quiz);
      [by split | done | by rewrite Hm | by rewrite Hw | done].
Qed.

Lemma malformed_history_is_not_repaired_witness :
  studyBuddy_quizHistory (mkStorage Absent Absent Malformed) = Malformed ∧
  mount_history (mkStorage Absent Absent Malformed)
  = (mkStorage Absent Absent Malformed, Normal []) ∧
  clear_offered [] = false ∧
  ∀ (c : State) (quiz : QuizData.t) (now_id now_date : Z),
    quizData c = Some quiz →
    (handleSubmit c now_id now_date (mkStorage Absent Absent Malformed)).2
      = Throw SyntaxError ∧
    studyBuddy_quizHistory
      (handleSubmit c now_id now_date (mkStorage Absent Absent Malformed)).1
      = Malformed.
Proof.
  split; [reflexivity|].
  exact (malformed_history_is_not_repaired
           (mkStorage Absent Absent Malformed) eq_refl).
Defined.
End history_view.

(* ===================================================================== *)
(** ** Selecting options and the Submit button *)
(* ===================================================================== *)

Section submit_gate.
Import QuizOverlay.
Implicit Types (c : State) (ps : list (QuizQuestion.t * Z)) (k : Z).

Lemma size_list_to_set_remove_dups (l : list Z) :
  size (list_to_set l : gset Z) = length (remove_dups l).
Proof.
  rewrite <-(size_list_to_set (C:=gset Z) (remove_dups l))
    by apply NoDup_remove_dups.
  f_equal. apply set_eq; intros x.
  by rewrite !elem_of_list_to_set, elem_of_remove_dups.
Qed.

Lemma length_remove_dups_le (l : list Z) :
  (length (remove_dups l) ≤ length l)%nat.
Proof.
  induction l as [|x l IH]; simpl; [done|].
  case_decide; simpl; lia.
Qed.

Lemma length_remove_dups_NoDup (l : list Z) :
  length (remove_dups l) = length l → NoDup l.
Proof.
  induction l as [|x l IH]; simpl; [constructor|].
  pose proof (length_remove_dups_le l).
  case_decide; simpl; intros Hlen; [lia|].
  constructor; [done|]. apply IH. lia.
Qed.

(** A list with a repeated element lists more than it has elements. *)
Lemma size_list_to_set_dup (l : list Z) :
  ¬ NoDup l → (size (list_to_set l : gset Z) < length l)%nat.
Proof.
  intros Hdup. rewrite size_list_to_set_remove_dups.
  pose proof (length_remove_dups_le l).
  destruct (decide (length (remove_dups l) = length l)) as [Heq|]; [|lia].
  by apply length_remove_dups_NoDup in Heq.
Qed.

Lemma click_fields c p :
  quizData (QuizOverlayControls.click c p) = quizData c ∧
  submitted (QuizOverlayControls.click c p) = submitted c.
Proof.
  unfold QuizOverlayControls.click, QuizOverlayControls.handleOptionSelect.
  by destruct (submitted c) eqn:Hs.
Qed.

Lemma clicks_fields c ps :
  quizData (foldl QuizOverlayControls.click c ps) = quizData c ∧
  submitted (foldl QuizOverlayControls.click c ps) = submitted c.
Proof.
  revert c. induction ps as [|p ps IH]; intros c; simpl; [done|].
  destruct (IH (QuizOverlayControls.click c p)) as [-> ->]. apply click_fields.
Qed.

(** The ids that have an answer after a run of clicks before submission:
    those that had one, and those clicked. *)
Lemma clicks_answered c ps k :
  submitted c = false →
  is_Some (answers (foldl QuizOverlayControls.click c ps) !! k)
  ↔ is_Some (answers c !! k) ∨ k ∈ (QuizQuestion.id ∘ fst) <$> ps.
Proof.
  revert c. induction ps as [|p ps IH]; intros c Hs; simpl.
  - rewrite elem_of_nil. tauto.
  - rewrite IH by (by rewrite (proj2 (click_fields c p))).
    unfold QuizOverlayControls.click at 1,
      QuizOverlayControls.handleOptionSelect. rewrite Hs. simpl.
    rewrite elem_of_cons, lookup_insert_is_Some.
    destruct (decide (QuizQuestion.id p.1 = k)) as [Heq|Hne].
    + intuition eauto.
    + split; [|intuition eauto].
      intros [[?|[_ ?]]|?]; [done|by left|by right; right].
Qed.

Lemma clicks_answer_keys c ps (qs : list QuizQuestion.t) :
  submitted c = false →
  answers c = ∅ →
  Forall (λ p, p.1 ∈ qs) ps →
  dom (answers (foldl QuizOverlayControls.click c ps))
  ⊆ (list_to_set (QuizQuestion.id <$> qs) : gset Z).
Proof.
  intros Hs Hempty Hps k Hk.
  apply elem_of_dom, clicks_answered in Hk; [|done].
  rewrite Hempty, lookup_empty in Hk.
  destruct Hk as [[? [=]]|Hk].
  apply list_elem_of_fmap in Hk as (p & -> & Hp).
  rewrite Forall_forall in Hps.
  apply elem_of_list_to_set, list_elem_of_fmap. eauto.
Qed.

(** X5. From a fresh quiz screen (no answers, not submitted) and a quiz
    whose question ids are pairwise different, after any run of clicks on
    options of the quiz's questions the Submit button is enabled exactly
    when every question has been clicked at least once. *)
Theorem submit_enabled_iff_all_clicked
    (c : State) (quiz : QuizData.t) (ps : list (QuizQuestion.t * Z)) :
  quizData c = Some quiz →
  submitted c = false →
  answers c = ∅ →
  NoDup (QuizQuestion.id <$> QuizData.questions quiz) →
  Forall (λ p, p.1 ∈ QuizData.questions quiz) ps →
  QuizOverlayControls.submit_disabled (QuizOverlayControls.clicks c ps)
  = false
  ↔ ∀ q, q ∈ QuizData.questions quiz →
         QuizQuestion.id q ∈ (QuizQuestion.id ∘ fst) <$> ps.
Proof.
  intros Hq Hs Hempty Hnd Hps. unfold QuizOverlayControls.clicks.
  pose proof (clicks_answer_keys c ps _ Hs Hempty Hps) as Hsub.
  unfold QuizOverlayControls.submit_disabled.
  rewrite (proj1 (clicks_fields c ps)), Hq.
  rewrite negb_false_iff, bool_decide_eq_true.
  rewrite <-size_dom, <-(length_fmap QuizQuestion.id).
  rewrite <-(size_list_to_set (C:=gset Z) _ Hnd).
  split.
  - intros Hsize q Hin.
    apply set_subseteq_size_eq in Hsub; [|lia].
    assert (QuizQuestion.id q
            ∈ dom (answers (foldl QuizOverlayControls.click c ps))) as Hk.
    { rewrite Hsub. apply elem_of_list_to_set, list_elem_of_fmap. eauto. }
    apply elem_of_dom, clicks_answered in Hk; [|done].
    rewrite Hempty, lookup_empty in Hk. by destruct Hk as [[? [=]]|Hk].
  - intros Hall. f_equal. apply (anti_symm (⊆)); [done|].
    intros k Hk.
    apply elem_of_list_to_set, list_elem_of_fmap in Hk as (q & -> & Hin).
    apply elem_of_dom, clicks_answered; [done|]. right. by apply Hall.
Qed.

Lemma submit_enabled_iff_all_clicked_witness :
  quizData (Sample.overlay ∅) = Some Sample.quiz ∧
  submitted (Sample.overlay ∅) = false ∧
  answers (Sample.overlay ∅) = ∅ ∧
  NoDup (QuizQuestion.id <$> QuizData.questions Sample.quiz) ∧
  Forall (λ p, p.1 ∈ QuizData.questions Sample.quiz) Fixtures.two_clicks ∧
  (QuizOverlayControls.submit_disabled
     (QuizOverlayControls.clicks (Sample.overlay ∅) Fixtures.two_clicks)
   = false
   ↔ ∀ q, q ∈ QuizData.questions Sample.quiz →
          QuizQuestion.id q
          ∈ (QuizQuestion.id ∘ fst) <$> Fixtures.two_clicks).
Proof.
  assert (NoDup (QuizQuestion.id <$> QuizData.questions Sample.quiz)) as Hnd.
  { simpl.
    repeat (apply NoDup_cons_2;
            [rewrite ?not_elem_of_cons; split_and?; try done;
             apply not_elem_of_nil|]).
    apply NoDup_nil_2. }
  assert (Forall (λ p : QuizQuestion.t * Z,
                    p.1 ∈ QuizData.questions Sample.quiz)
            Fixtures.two_clicks) as Hps.
  { repeat apply Forall_cons_2; [| |apply Forall_nil_2]; simpl.
    - right. left.
    - left. }
  split_and!; [reflexivity..|exact Hnd|exact Hps|].
  exact (submit_enabled_iff_all_clicked (Sample.overlay ∅) Sample.quiz
           Fixtures.two_clicks eq_refl eq_refl eq_refl Hnd Hps).
Defined.

(** X6. A quiz in which two questions carry the same id can never be
    submitted: whatever options are clicked on its questions, the Submit
    button stays disabled. *)
Theorem duplicate_ids_keep_submit_disabled
    (c : State) (quiz : QuizData.t) (ps : list (QuizQuestion.t * Z)) :
  quizData c = Some quiz →
  submitted c = false →
  answers c = ∅ →
  ¬ NoDup (QuizQuestion.id <$> QuizData.questions quiz) →
  Forall (λ p, p.1 ∈ QuizData.questions quiz) ps →
  QuizOverlayControls.submit_disabled (QuizOverlayControls.clicks c ps)
  = true.
Proof.
  intros Hq Hs Hempty Hdup Hps. unfold QuizOverlayControls.clicks.
  pose proof (clicks_answer_keys c ps _ Hs Hempty Hps) as Hsub.
  apply subseteq_size in Hsub. rewrite size_dom in Hsub.
  apply size_list_to_set_dup in Hdup. rewrite length_fmap in Hdup.
  unfold QuizOverlayControls.submit_disabled.
  rewrite (proj1 (clicks_fields c ps)), Hq.
  rewrite negb_true_iff, bool_decide_eq_false. lia.
Qed.

Lemma duplicate_ids_keep_submit_disabled_witness :
  quizData Fixtures.twins_overlay = Some Fixtures.twins ∧
  submitted Fixtures.twins_overlay = false ∧
  answers Fixtures.twins_overlay = ∅ ∧
  ¬ NoDup (QuizQuestion.id <$> QuizData.questions Fixtures.twins) ∧
  Forall (λ p, p.1 ∈ QuizData.questions Fixtures.twins)
    Fixtures.twins_clicks ∧
  QuizOverlayControls.submit_disabled
    (QuizOverlayControls.clicks Fixtures.twins_overlay Fixtures.twins_clicks)
  = true.
Proof.
  assert (¬ NoDup (QuizQuestion.id <$> QuizData.questions Fixtures.twins))
    as Hdup.
  { simpl. intros Hnd. apply NoDup_cons in Hnd as [Hnotin _].
    apply Hnotin. left. }
  assert (Forall (λ p : QuizQuestion.t * Z,
                    p.1 ∈ QuizData.questions Fixtures.twins)
            Fixtures.twins_clicks) as Hps.
  { repeat apply Forall_cons_2; [| |apply Forall_nil_2]; simpl.
    - left.
    - right. left. }
  split_and!; [reflexivity..|exact Hdup|exact Hps|].
  exact (duplicate_ids_keep_submit_disabled Fixtures.twins_overlay
           Fixtures.twins Fixtures.twins_clicks eq_refl eq_refl eq_refl
           Hdup Hps).
Defined.

(** X7. After a submission that runs to its end the quiz is marked
    submitted, the score shown is the number of questions answered
    correctly, between 0 and the number of questions, and no later click
    on an option changes anything. *)
Theorem answers_frozen_after_submit
    (c : State) (quiz : QuizData.t) (now_id now_date : Z) (st : Storage)
    (m0 : gmap string Z) (w0 : list string) (h0 : list QuizResult.t) :
  quizData c = Some quiz →
  parse_or ∅ (studyBuddy_topic_mastery st) = Normal m0 →
  parse_or [] (studyBuddy_weakTopics st) = Normal w0 →
  parse_or [] (studyBuddy_quizHistory st) = Normal h0 →
  ∃ c' : State,
    (handleSubmit c now_id now_date st).2 = Normal c' ∧
    submitted c' = true ∧
    answers c' = answers c ∧
    score c' = score_of c quiz ∧
    0 ≤ score c' ≤ Z.of_nat (length (QuizData.questions quiz)) ∧
    ∀ ps : list (QuizQuestion.t * Z), QuizOverlayControls.clicks c' ps = c'.
Proof.
  intros Hq Hm Hw Hh.
  rewrite (handleSubmit_loaded c quiz now_id now_date st m0 w0 h0) by done.
  eexists. split; [reflexivity|]. simpl.
  assert (correctCount (loop_result c quiz m0 w0) = score_of c quiz) as Hsc.
  { unfold loop_result, score_of.
    by rewrite correctCount_forEach_questions. }
  split_and!; try done.
  - rewrite Hsc. unfold score_of. lia.
  - rewrite Hsc. unfold score_of.
    pose proof (length_filter
                  (λ q, isCorrect (answers c) q = true)
                  (QuizData.questions quiz)). lia.
  - intros ps. unfold QuizOverlayControls.clicks.
    induction ps as [|p ps IH]; simpl; [done|]. exact IH.
Qed.

Lemma answers_frozen_after_submit_witness :
  quizData (Sample.overlay Sample.picked) = Some Sample.quiz ∧
  parse_or ∅ (studyBuddy_topic_mastery Sample.used_storage)
    = Normal {[ "Algebra" := 2 ]} ∧
  parse_or [] (studyBuddy_weakTopics Sample.used_storage)
    = Normal ["Algebra"] ∧
  parse_or [] (studyBuddy_quizHistory Sample.used_storage)
    = Normal [Sample.earlier] ∧
  ∃ c' : State,
    (handleSubmit (Sample.overlay Sample.picked) 1700000360000 1700000360001
       Sample.used_storage).2 = Normal c' ∧
    submitted c' = true ∧
    answers c' = answers (Sample.overlay Sample.picked) ∧
    score c' = score_of (Sample.overlay Sample.picked) Sample.quiz ∧
    0 ≤ score c' ≤ Z.of_nat (length (QuizData.questions Sample.quiz)) ∧
    ∀ ps : list (QuizQuestion.t * Z), QuizOverlayControls.clicks c' ps = c'.
Proof.
  split_and!; [reflexivity..|].
  exact (answers_frozen_after_submit (Sample.overlay Sample.picked)
           Sample.quiz 1700000360000 1700000360001 Sample.used_storage
           {[ "Algebra" := 2 ]} ["Algebra"] [Sample.earlier]
           eq_refl eq_refl eq_refl eq_refl).
Defined.
End submit_gate.

(* ===================================================================== *)
(** ** What a submission leaves for the next quiz *)
(* ===================================================================== *)

Section after_submit.
Import QuizOverlay.
Implicit Types (l : Locals) (o : string * bool) (os : list (string * bool)).
Implicit Types (t : string).

Lemma NoDup_weak_record_outcome l o :
  NoDup (weakTopicsSet l) → NoDup (weakTopicsSet (record_outcome l o)).
Proof.
  intros Hl. destruct o as [t [|]]; unfold record_outcome; simpl.
  - destruct (JsSet.has (weakTopicsSet l) t);
      [by apply NoDup_JsSet_delete|done].
  - by apply NoDup_JsSet_add.
Qed.

Lemma NoDup_weak_process os l :
  NoDup (weakTopicsSet l) → NoDup (weakTopicsSet (process os l)).
Proof.
  revert l. induction os as [|o os IH]; intros l Hl; [done|].
  rewrite process_cons. by apply IH, NoDup_weak_record_outcome.
Qed.

Lemma last_outcome_Some_elem t os b :
  Updater.last_outcome t os = Some b → (t, b) ∈ os.
Proof.
  unfold Updater.last_outcome. intros Hlast%last_Some_elem_of.
  apply list_elem_of_fmap in Hlast as ([t' b'] & -> & Hin).
  apply list_elem_of_filter in Hin as [Heq Hin]. simpl in *. by subst.
Qed.

Lemma length_filter_eq_Forall {A} (P : A → Prop) `{!∀ x, Decision (P x)}
    (l : list A) :
  length (filter P l) = length l ↔ Forall P l.
Proof.
  induction l as [|x l IH]; simpl; [by split; [constructor|]|].
  rewrite filter_cons, Forall_cons.
  pose proof (length_filter P l).
  destruct (decide (P x)); simpl.
  - rewrite <-IH. split; [intros [= ?]; by split|intros [_ ->]; done].
  - split; [lia|tauto].
Qed.
End after_submit.

Section next_quiz.
Import QuizOverlay.

(** X8. When the overlay is opened after a submission that ran to its
    end, the weak topics it loads are exactly those the submission
    stored: no topic twice, a topic of the quiz exactly when its last
    answer in the quiz was wrong, any other topic exactly when it was
    stored as weak before. *)
Theorem weak_topics_offered_after_submit
    (c : State) (quiz : QuizData.t) (now_id now_date : Z) (st : Storage)
    (m0 : gmap string Z) (w0 : list string) (h0 : list QuizResult.t) :
  quizData c = Some quiz →
  parse_or ∅ (studyBuddy_topic_mastery st) = Normal m0 →
  parse_or [] (studyBuddy_weakTopics st) = Normal w0 →
  parse_or [] (studyBuddy_quizHistory st) = Normal h0 →
  ∃ offered : list string,
    (QuizOverlayControls.mount_availableWeakTopics
       (handleSubmit c now_id now_date st).1).2 = Normal offered ∧
    NoDup offered ∧
    ∀ t : string,
      t ∈ offered
      ↔ match Updater.last_outcome t
                (outcomes (answers c) (QuizData.questions quiz)) with
        | Some b => b = false
        | None => t ∈ w0
        end.
Proof.
  intros Hq Hm Hw Hh.
  rewrite (handleSubmit_loaded c quiz now_id now_date st m0 w0 h0) by done.
  exists (weakTopicsSet (loop_result c quiz m0 w0)).
  split; [reflexivity|]. unfold loop_result.
  rewrite forEach_questions_process. split.
  - apply NoDup_weak_process. simpl. apply NoDup_JsSet_from_array.
  - intros t. rewrite elem_of_weak_process.
    destruct (Updater.last_outcome _ _); [done|].
    apply elem_of_JsSet_from_array.
Qed.

Lemma weak_topics_offered_after_submit_witness :
  quizData (Sample.overlay Sample.picked) = Some Sample.quiz ∧
  parse_or ∅ (studyBuddy_topic_mastery Sample.used_storage)
    = Normal {[ "Algebra" := 2 ]} ∧
  parse_or [] (studyBuddy_weakTopics Sample.used_storage)
    = Normal ["Algebra"] ∧
  parse_or [] (studyBuddy_quizHistory Sample.used_storage)
    = Normal [Sample.earlier] ∧
  ∃ offered : list string,
    (QuizOverlayControls.mount_availableWeakTopics
       (handleSubmit (Sample.overlay Sample.picked)
          1700000360000 1700000360001 Sample.used_storage).1).2
      = Normal offered ∧
    NoDup offered ∧
    ∀ t : string,
      t ∈ offered
      ↔ match Updater.last_outcome t
                (outcomes (answers (Sample.overlay Sample.picked))
                   (QuizData.questions Sample.quiz)) with
        | Some b => b = false
        | None => t ∈ ["Algebra"]
        end.
Proof.
  split_and!; [reflexivity..|].
  exact (weak_topics_offered_after_submit (Sample.overlay Sample.picked)
           Sample.quiz 1700000360000 1700000360001 Sample.used_storage
           {[ "Algebra" := 2 ]} ["Algebra"] [Sample.earlier]
           eq_refl eq_refl eq_refl eq_refl).
Defined.

(** X9. The confetti condition of [handleSubmit] holds exactly when every
    question of the quiz has its correct option selected; for a quiz
    without questions it holds. *)
Theorem confetti_iff_all_correct
    (c : State) (quiz : QuizData.t) (m0 : gmap string Z) (w0 : list string) :
  QuizOverlayControls.confetti_fires (loop_result c quiz m0 w0) quiz = true
  ↔ Forall (λ q, isCorrect (answers c) q = true) (QuizData.questions quiz).
Proof.
  unfold QuizOverlayControls.confetti_fires, loop_result.
  rewrite bool_decide_eq_true, correctCount_forEach_questions. simpl.
  rewrite <-(length_filter_eq_Forall
               (λ q, isCorrect (answers c) q = true)). lia.
Qed.

(** X10. After a submission in which every question is answered
    correctly, none of the quiz's topics is stored as weak. *)
Theorem perfect_quiz_clears_its_topics
    (c : State) (quiz : QuizData.t) (now_id now_date : Z) (st : Storage)
    (m0 : gmap string Z) (w0 : list string) (h0 : list QuizResult.t) :
  quizData c = Some quiz →
  parse_or ∅ (studyBuddy_topic_mastery st) = Normal m0 →
  parse_or [] (studyBuddy_weakTopics st) = Normal w0 →
  parse_or [] (studyBuddy_quizHistory st) = Normal h0 →
  Forall (λ q, isCorrect (answers c) q = true) (QuizData.questions quiz) →
  ∃ w1 : list string,
    studyBuddy_weakTopics (handleSubmit c now_id now_date st).1 = Holds w1 ∧
    ∀ q, q ∈ QuizData.questions quiz → QuizQuestion.topic q ∉ w1.
Proof.
  intros Hq Hm Hw Hh Hall.
  rewrite (handleSubmit_loaded c quiz now_id now_date st m0 w0 h0) by done.
  exists (weakTopicsSet (loop_result c quiz m0 w0)).
  split; [reflexivity|]. intros q Hin. unfold loop_result.
  rewrite forEach_questions_process, elem_of_weak_process.
  destruct (Updater.last_outcome _ _) as [b|] eqn:Hlast.
  - apply last_outcome_Some_elem in Hlast.
    apply list_elem_of_fmap in Hlast as (q' & [= Ht Hb] & Hin').
    rewrite Forall_forall in Hall. rewrite Hb, (Hall q' Hin'). done.
  - apply last_outcome_None in Hlast. destruct Hlast.
    unfold outcomes. rewrite <-list_fmap_compose.
    apply list_elem_of_fmap. by exists q.
Qed.

Lemma perfect_quiz_clears_its_topics_witness :
  quizData (Sample.overlay {[ 1 := 0; 2 := 1; 3 := 2 ]}) = Some Sample.quiz ∧
  parse_or ∅ (studyBuddy_topic_mastery Sample.used_storage)
    = Normal {[ "Algebra" := 2 ]} ∧
  parse_or [] (studyBuddy_weakTopics Sample.used_storage)
    = Normal ["Algebra"] ∧
  parse_or [] (studyBuddy_quizHistory Sample.used_storage)
    = Normal [Sample.earlier] ∧
  Forall (λ q, isCorrect (answers (Sample.overlay {[ 1 := 0; 2 := 1; 3 := 2 ]}))
                 q = true)
    (QuizData.questions Sample.quiz) ∧
  ∃ w1 : list string,
    studyBuddy_weakTopics
      (handleSubmit (Sample.overlay {[ 1 := 0; 2 := 1; 3 := 2 ]})
         1700000360000 1700000360001 Sample.used_storage).1 = Holds w1 ∧
    ∀ q, q ∈ QuizData.questions Sample.quiz → QuizQuestion.topic q ∉ w1.
Proof.
  assert (Forall (λ q, isCorrect
                         (answers (Sample.overlay {[ 1 := 0; 2 := 1; 3 := 2 ]}))
                         q = true)
            (QuizData.questions Sample.quiz)) as Hall.
  { repeat apply Forall_cons_2; [| | |apply Forall_nil_2]; by vm_compute. }
  split_and!; [reflexivity..|exact Hall|].
  exact (perfect_quiz_clears_its_topics
           (Sample.overlay {[ 1 := 0; 2 := 1; 3 := 2 ]})
           Sample.quiz 1700000360000 1700000360001 Sample.used_storage
           {[ "Algebra" := 2 ]} ["Algebra"] [Sample.earlier]
           eq_refl eq_refl eq_refl eq_refl Hall).
Defined.

(** The counter of [t] after a quiz in which every question on [t] is
    answered alike. *)
Lemma uniform_answers_counter (ans : gmap Z Z) (qs : list QuizQuestion.t)
    (l : QuizOverlayHost.Locals) (t : string) (v : option Z)
    (correct : bool) :
  t ∉ Js.inherited_names →
  Js.own (QuizOverlayHost.currentMastery l) !! t = Js.Num <$> v →
  Z.abs (default 0 v)
  + Z.of_nat (length (filter (λ q, QuizQuestion.topic q = t) qs)) ≤ 2 ^ 53 →
  (∀ q, q ∈ qs → QuizQuestion.topic q = t → isCorrect ans q = correct) →
  Js.own
    (QuizOverlayHost.currentMastery
       (QuizOverlayHost.forEach_questions ans qs l)) !! t
  = Js.Num
    <$> (if decide (length (filter (λ q, QuizQuestion.topic q = t) qs)
                    = 0%nat)
         then v
         else Some
                (if correct
                 then default 0 v
                      + Z.of_nat
                          (length
                             (filter (λ q, QuizQuestion.topic q = t) qs))
                 else Z.max 0
                        (default 0 v
                         - Z.of_nat
                             (length
                                (filter (λ q, QuizQuestion.topic q = t)
                                   qs))))).
Proof.
  intros Hno Hown.
  induction qs as [|q qs IH] using rev_ind; intros Hroom Hall; [done|].
  rewrite forEach_questions_snoc.
  rewrite filter_app, length_app in Hroom |- *.
  rewrite filter_cons, filter_nil in Hroom |- *.
  assert (∀ q0, q0 ∈ qs → QuizQuestion.topic q0 = t
                → isCorrect ans q0 = correct) as Hall'.
  { intros q0 Hin. apply Hall, elem_of_app. by left. }
  destruct (decide (QuizQuestion.topic q = t)) as [Hq|Hq]; simpl in *.
  - assert (isCorrect ans q = correct) as Hc.
    { apply Hall; [|done]. apply elem_of_app. right. left. }
    specialize (IH ltac:(lia) Hall').
    subst t. rewrite decide_False by lia.
    set (k := length (filter (λ q0, QuizQuestion.topic q0
                                    = QuizQuestion.topic q) qs)) in *.
    erewrite forEach_callback_own_counter_room; [|done|exact IH|].
    + rewrite Hc. simpl. do 2 f_equal.
      destruct (decide (k = 0%nat)) as [Hz|Hz]; destruct correct; simpl;
        lia.
    + destruct (decide (k = 0%nat)) as [Hz|Hz]; destruct correct; simpl;
        lia.
  - rewrite forEach_callback_frame by done.
    rewrite Nat.add_0_r in Hroom |- *. by apply IH.
Qed.

(** X11. For a topic that no plain object inherits and whose counter has
    room for its questions up to [2^53]: when every question of the quiz on
    that topic is answered correctly, the counter gains exactly as many
    points as the topic has questions, and when every one is answered
    incorrectly it ends at [max(0, n - k)], for [k] the number of these
    questions and [n] the counter before (0 when the topic had none);
    whatever the other topics of the quiz and their counters are. *)
Theorem counter_after_uniform_answers
    (ans : gmap Z Z) (qs : list QuizQuestion.t)
    (l : QuizOverlayHost.Locals) (t : string) (v : option Z)
    (correct : bool) :
  t ∉ Js.inherited_names →
  t ∈ QuizQuestion.topic <$> qs →
  Js.own (QuizOverlayHost.currentMastery l) !! t = Js.Num <$> v →
  Z.abs (default 0 v)
  + Z.of_nat (length (filter (λ q, QuizQuestion.topic q = t) qs)) ≤ 2 ^ 53 →
  (∀ q, q ∈ qs → QuizQuestion.topic q = t → isCorrect ans q = correct) →
  Js.own
    (QuizOverlayHost.currentMastery
       (QuizOverlayHost.forEach_questions ans qs l)) !! t
  = Some
      (Js.Num
         (if correct
          then default 0 v
               + Z.of_nat
                   (length (filter (λ q, QuizQuestion.topic q = t) qs))
          else Z.max 0
                 (default 0 v
                  - Z.of_nat
                      (length
                         (filter (λ q, QuizQuestion.topic q = t) qs))))).
Proof.
  intros Hno Hin Hown Hroom Hall.
  rewrite (uniform_answers_counter ans qs l t v correct) by done.
  rewrite decide_False; [done|].
  apply list_elem_of_fmap in Hin as (q & -> & Hin).
  intros Hlen%length_zero_iff_nil.
  by eapply (filter_nil_not_elem_of _ _ q) in Hlen.
Qed.

(** The quiz has two wrong answers on Algebra, stored at 5, and between
    them a wrong answer on the topic [toString]. *)
Lemma counter_after_uniform_answers_witness :
  ("Algebra" ∉ Js.inherited_names) ∧
  "Algebra" ∈ QuizQuestion.topic <$> Fixtures.mixed_quiz ∧
  Js.own
    (QuizOverlayHost.currentMastery
       (QuizOverlayHost.mkLocals 0
          (Js.JSON_parse {[ "Algebra" := Js.JNumber 5 ]}) []))
    !! "Algebra"
  = Js.Num <$> Some 5 ∧
  Z.abs (default 0 (Some 5))
  + Z.of_nat
      (length (filter (λ q, QuizQuestion.topic q = "Algebra")
                 Fixtures.mixed_quiz)) ≤ 2 ^ 53 ∧
  (∀ q, q ∈ Fixtures.mixed_quiz → QuizQuestion.topic q = "Algebra"
        → isCorrect ∅ q = false) ∧
  Js.own
    (QuizOverlayHost.currentMastery
       (QuizOverlayHost.forEach_questions ∅ Fixtures.mixed_quiz
          (QuizOverlayHost.mkLocals 0
             (Js.JSON_parse {[ "Algebra" := Js.JNumber 5 ]}) [])))
    !! "Algebra"
  = Some
      (Js.Num
         (if false
          then default 0 (Some 5)
               + Z.of_nat
                   (length (filter (λ q, QuizQuestion.topic q = "Algebra")
                              Fixtures.mixed_quiz))
          else Z.max 0
                 (default 0 (Some 5)
                  - Z.of_nat
                      (length
                         (filter (λ q, QuizQuestion.topic q = "Algebra")
                            Fixtures.mixed_quiz))))).
Proof.
  assert ("Algebra" ∉ Js.inherited_names) as Hno.
  { apply (bool_decide_unpack _). by vm_compute. }
  assert ("Algebra" ∈ QuizQuestion.topic <$> Fixtures.mixed_quiz) as Hin.
  { simpl. left. }
  assert (Js.own
            (QuizOverlayHost.currentMastery
               (QuizOverlayHost.mkLocals 0
                  (Js.JSON_parse {[ "Algebra" := Js.JNumber 5 ]}) []))
            !! "Algebra"
          = Js.Num <$> Some 5) as Hown by (by vm_compute).
  assert (Z.abs (default 0 (Some 5))
          + Z.of_nat
              (length (filter (λ q, QuizQuestion.topic q = "Algebra")
                         Fixtures.mixed_quiz)) ≤ 2 ^ 53) as Hroom
    by (by vm_compute).
  assert (∀ q, q ∈ Fixtures.mixed_quiz → QuizQuestion.topic q = "Algebra"
               → isCorrect ∅ q = false) as Hall.
  { intros q _ _. unfold isCorrect. rewrite lookup_empty.
    by apply bool_decide_eq_false. }
  split_and!; [exact Hno|exact Hin|exact Hown|exact Hroom|exact Hall|].
  exact (counter_after_uniform_answers ∅ Fixtures.mixed_quiz
           (QuizOverlayHost.mkLocals 0
              (Js.JSON_parse {[ "Algebra" := Js.JNumber 5 ]}) [])
           "Algebra" (Some 5) false Hno Hin Hown Hroom Hall).
Defined.
End next_quiz.

(* ===================================================================== *)
(** ** Order of outcomes, material selection and quiz start *)
(* ===================================================================== *)

Section setup_screen.
Import QuizOverlay.

Lemma apply_outcome_commute (s : Updater.state) (o1 o2 : string * bool) :
  o1.1 ≠ o2.1 →
  Updater.apply_outcome (Updater.apply_outcome s o1) o2
  = Updater.apply_outcome (Updater.apply_outcome s o2) o1.
Proof.
  destruct s as [m w], o1 as [t1 b1], o2 as [t2 b2]. simpl. intros Hne.
  destruct b1, b2; unfold Updater.apply_outcome; simpl;
    rewrite !lookup_insert_ne by done;
    (f_equal;
     [by apply insert_insert_ne|
      apply set_eq; intros x;
      rewrite ?elem_of_difference, ?elem_of_union, ?elem_of_difference,
        ?elem_of_union, ?elem_of_singleton;
      intuition congruence]).
Qed.

(** X12. Two neighbouring outcomes on different topics can be exchanged:
    the batch leads to the same mastery map and the same set of weak
    topics. *)
Theorem outcomes_on_different_topics_commute
    (os1 os2 : list (string * bool)) (o1 o2 : string * bool) (l : Locals) :
  o1.1 ≠ o2.1 →
  abstraction (process (os1 ++ o1 :: o2 :: os2) l)
  = abstraction (process (os1 ++ o2 :: o1 :: os2) l).
Proof.
  intros Hne. rewrite !abstraction_process. unfold Updater.update.
  rewrite !foldl_app. simpl. by rewrite apply_outcome_commute.
Qed.

Lemma outcomes_on_different_topics_commute_witness :
  ("Algebra", false).1 ≠ ("Optics", true).1 ∧
  abstraction
    (process ([("Optics", false)]
              ++ ("Algebra", false) :: ("Optics", true) :: [])
       Sample.fresh)
  = abstraction
      (process ([("Optics", false)]
                ++ ("Optics", true) :: ("Algebra", false) :: [])
         Sample.fresh).
Proof.
  assert (("Algebra", false).1 ≠ ("Optics", true).1) as Hne by done.
  split; [exact Hne|].
  exact (outcomes_on_different_topics_commute [("Optics", false)] []
           ("Algebra", false) ("Optics", true) Sample.fresh Hne).
Defined.

(** X13. [toggleMaterial] changes the selection for the toggled id only:
    the id is selected afterwards exactly when it was not before, every
    other id keeps its state, and toggling the same id twice gives back
    the same set of selected ids. *)
Theorem toggleMaterial_flips_one (s : list string) (id : string) :
  (∀ x : string,
     x ∈ QuizOverlayControls.toggleMaterial s id
     ↔ if decide (x = id) then x ∉ s else x ∈ s) ∧
  (∀ x : string,
     x ∈ QuizOverlayControls.toggleMaterial
           (QuizOverlayControls.toggleMaterial s id) id
     ↔ x ∈ s).
Proof.
  assert (∀ (s : list string) (x : string),
            x ∈ QuizOverlayControls.toggleMaterial s id
            ↔ if decide (x = id) then x ∉ s else x ∈ s) as Hflip.
  { intros s' x. unfold QuizOverlayControls.toggleMaterial.
    destruct (JsSet.has s' id) eqn:Hhas.
    - apply JsSet_has_true in Hhas. rewrite elem_of_JsSet_delete.
      destruct (decide (x = id)) as [->|Hne]; tauto.
    - apply JsSet_has_false in Hhas. rewrite elem_of_JsSet_add.
      destruct (decide (x = id)) as [->|Hne]; tauto. }
  split; [apply Hflip|].
  intros x. rewrite Hflip.
  destruct (decide (x = id)) as [->|Hne].
  - rewrite Hflip. rewrite decide_True by done.
    destruct (decide (id ∈ s)); tauto.
  - rewrite Hflip. by rewrite decide_False.
Qed.

Lemma nothing_to_quiz_false (materials : list StudyMaterial.t) :
  geminiService.nothing_to_quiz materials = false
  ↔ ∃ m, m ∈ materials ∧ StudyMaterial.content m ≠ "".
Proof.
  unfold geminiService.nothing_to_quiz.
  rewrite orb_false_iff, bool_decide_eq_false.
  split.
  - intros [_ Hsome]. induction materials as [|m ms IH]; [done|].
    simpl in Hsome. apply andb_false_iff in Hsome as [Hm|Hms].
    + exists m. split; [left|]. unfold truthy in Hm.
      rewrite negb_false_iff, negb_true_iff in Hm.
      by apply bool_decide_eq_false in Hm.
    + destruct (IH Hms) as (m' & Hin & Hc). exists m'. split; [by right|done].
  - intros (m & Hin & Hc). split.
    + destruct materials; [by apply elem_of_nil in Hin|done].
    + induction Hin as [m ms|m m' ms Hin IH]; simpl.
      * apply andb_false_iff. left. unfold truthy.
        rewrite negb_false_iff, negb_true_iff.
        by apply bool_decide_eq_false.
      * apply andb_false_iff. right. by apply IH.
Qed.

(** X14. [handleStartQuiz] sends a request to the model exactly when some
    material that is selected has content; with nothing selected, or only
    materials without content selected, no request goes out, whatever the
    model would have replied. *)
Theorem quiz_request_iff_selected_content
    (materials : list StudyMaterial.t) (s : QuizOverlayControls.Setup)
    (reply : geminiService.ai_reply) :
  (QuizOverlayControls.handleStartQuiz materials s reply).2 = true
  ↔ ∃ m, m ∈ materials ∧
         StudyMaterial.id m ∈ QuizOverlayControls.selectedMaterialIds s ∧
         StudyMaterial.content m ≠ "".
Proof.
  unfold QuizOverlayControls.handleStartQuiz.
  case_bool_decide as Hsel; simpl.
  - apply length_zero_iff_nil in Hsel. rewrite Hsel. split; [done|].
    by intros (m & _ & Hin%elem_of_nil & _).
  - unfold geminiService.generateQuizFromMaterials.
    destruct (geminiService.nothing_to_quiz _) eqn:Hnothing; simpl.
    + split; [done|]. intros (m & Hin & Hid & Hc).
      apply not_false_iff_true in Hnothing. destruct Hnothing.
      apply nothing_to_quiz_false. exists m. split; [|done].
      apply list_elem_of_filter. split; [|done]. by apply JsSet_has_true.
    + apply nothing_to_quiz_false in Hnothing as (m & Hin & Hc).
      apply list_elem_of_filter in Hin as [Hid%JsSet_has_true Hin].
      destruct reply as [[|message]| | |]; simpl; (split; [eauto|done]).
Qed.

(** X15. Started from the setup screen, [handleStartQuiz] ends in one of
    three ways, keeping the settings of the setup screen in each.  It
    ends on the quiz screen, with no error and as quiz data whatever the
    reply text parsed to; or on the setup screen, with a non-empty error
    message and the quiz data it had; or it stays on the loading screen,
    with no error message and the quiz data it had.  It stays on the
    loading screen exactly when a request was sent and the call was
    rejected with [null] or [undefined]. *)
Theorem handleStartQuiz_outcomes
    (materials : list StudyMaterial.t) (s : QuizOverlayControls.Setup)
    (reply : geminiService.ai_reply) :
  QuizOverlayControls.step s = QuizOverlayControls.setup →
  QuizOverlayControls.selectedMaterialIds
    (QuizOverlayControls.handleStartQuiz materials s reply).1
  = QuizOverlayControls.selectedMaterialIds s ∧
  QuizOverlayControls.availableWeakTopics
    (QuizOverlayControls.handleStartQuiz materials s reply).1
  = QuizOverlayControls.availableWeakTopics s ∧
  (QuizOverlayControls.step
     (QuizOverlayControls.handleStartQuiz materials s reply).1
   = QuizOverlayControls.loading
   ↔ (QuizOverlayControls.handleStartQuiz materials s reply).2 = true ∧
     reply = geminiService.CallFails geminiService.Nullish) ∧
  ((QuizOverlayControls.step
      (QuizOverlayControls.handleStartQuiz materials s reply).1
    = QuizOverlayControls.quiz ∧
    QuizOverlayControls.error
      (QuizOverlayControls.handleStartQuiz materials s reply).1 = None ∧
    ∃ data : geminiService.parsed,
      reply = geminiService.Json data ∧
      QuizOverlayControls.quizData
        (QuizOverlayControls.handleStartQuiz materials s reply).1
      = data)
   ∨
   (QuizOverlayControls.step
      (QuizOverlayControls.handleStartQuiz materials s reply).1
    = QuizOverlayControls.setup ∧
    QuizOverlayControls.quizData
      (QuizOverlayControls.handleStartQuiz materials s reply).1
    = QuizOverlayControls.quizData s ∧
    ∃ message : string,
      QuizOverlayControls.error
        (QuizOverlayControls.handleStartQuiz materials s reply).1
      = Some message ∧
      message ≠ "")
   ∨
   (QuizOverlayControls.step
      (QuizOverlayControls.handleStartQuiz materials s reply).1
    = QuizOverlayControls.loading ∧
    QuizOverlayControls.quizData
      (QuizOverlayControls.handleStartQuiz materials s reply).1
    = QuizOverlayControls.quizData s ∧
    QuizOverlayControls.error
      (QuizOverlayControls.handleStartQuiz materials s reply).1 = None)).
Proof.
  intros Hstep.
  assert (∀ message, QuizOverlayControls.message_or_default message ≠ "")
    as Hmsg.
  { intros message. unfold QuizOverlayControls.message_or_default, truthy.
    case_bool_decide; simpl; done. }
  unfold QuizOverlayControls.handleStartQuiz.
  case_bool_decide as Hsel; simpl.
  - rewrite Hstep. split_and!; try done; [by split; [|intros [? _]]|].
    right. left. split_and!; try done.
    eexists. split; [reflexivity|done].
  - unfold geminiService.generateQuizFromMaterials.
    destruct (geminiService.nothing_to_quiz _); simpl.
    + split_and!; try done; [by split; [|intros [? _]]|].
      right. left. split_and!; try done.
      eexists. split; [reflexivity|done].
    + destruct reply as [[|message]| |message|data]; simpl;
        (split_and!; try done).
      * right. right. done.
      * by split; [|intros [_ ?]].
      * right. left. split_and!; try done.
        eexists. split; [reflexivity|apply Hmsg].
      * by split; [|intros [_ ?]].
      * right. left. split_and!; try done.
        eexists. split; [reflexivity|done].
      * by split; [|intros [_ ?]].
      * right. left. split_and!; try done.
        eexists. split; [reflexivity|apply Hmsg].
      * by split; [|intros [_ ?]].
      * left. split_and!; try done. by eexists.
Qed.

Lemma handleStartQuiz_outcomes_witness :
  QuizOverlayControls.step Fixtures.setup_screen = QuizOverlayControls.setup ∧
  QuizOverlayControls.handleStartQuiz [Fixtures.notes] Fixtures.setup_screen
    (geminiService.CallFails geminiService.Nullish)
  = ({| QuizOverlayControls.step := QuizOverlayControls.loading;
        QuizOverlayControls.selectedMaterialIds := ["n1"];
        QuizOverlayControls.selectedSubject := "Physics";
        QuizOverlayControls.focusTopic := "";
        QuizOverlayControls.includeWeakTopics := false;
        QuizOverlayControls.availableWeakTopics := [];
        QuizOverlayControls.quizData := geminiService.ParsedNull;
        QuizOverlayControls.error := None |}, true) ∧
  QuizOverlayControls.selectedMaterialIds
    (QuizOverlayControls.handleStartQuiz [Fixtures.notes]
       Fixtures.setup_screen
       (geminiService.CallFails geminiService.Nullish)).1
  = QuizOverlayControls.selectedMaterialIds Fixtures.setup_screen ∧
  QuizOverlayControls.availableWeakTopics
    (QuizOverlayControls.handleStartQuiz [Fixtures.notes]
       Fixtures.setup_screen
       (geminiService.CallFails geminiService.Nullish)).1
  = QuizOverlayControls.availableWeakTopics Fixtures.setup_screen ∧
  (QuizOverlayControls.step
     (QuizOverlayControls.handleStartQuiz [Fixtures.notes]
        Fixtures.setup_screen
        (geminiService.CallFails geminiService.Nullish)).1
   = QuizOverlayControls.loading
   ↔ (QuizOverlayControls.handleStartQuiz [Fixtures.notes]
        Fixtures.setup_screen
        (geminiService.CallFails geminiService.Nullish)).2 = true ∧
     geminiService.CallFails geminiService.Nullish
     = geminiService.CallFails geminiService.Nullish) ∧
  ((QuizOverlayControls.step
      (QuizOverlayControls.handleStartQuiz [Fixtures.notes]
         Fixtures.setup_screen
         (geminiService.CallFails geminiService.Nullish)).1
    = QuizOverlayControls.quiz ∧
    QuizOverlayControls.error
      (QuizOverlayControls.handleStartQuiz [Fixtures.notes]
         Fixtures.setup_screen
         (geminiService.CallFails geminiService.Nullish)).1 = None ∧
    ∃ data : geminiService.parsed,
      geminiService.CallFails geminiService.Nullish
      = geminiService.Json data ∧
      QuizOverlayControls.quizData
        (QuizOverlayControls.handleStartQuiz [Fixtures.notes]
           Fixtures.setup_screen
           (geminiService.CallFails geminiService.Nullish)).1
      = data)
   ∨
   (QuizOverlayControls.step
      (QuizOverlayControls.handleStartQuiz [Fixtures.notes]
         Fixtures.setup_screen
         (geminiService.CallFails geminiService.Nullish)).1
    = QuizOverlayControls.setup ∧
    QuizOverlayControls.quizData
      (QuizOverlayControls.handleStartQuiz [Fixtures.notes]
         Fixtures.setup_screen
         (geminiService.CallFails geminiService.Nullish)).1
    = QuizOverlayControls.quizData Fixtures.setup_screen ∧
    ∃ message : string,
      QuizOverlayControls.error
        (QuizOverlayControls.handleStartQuiz [Fixtures.notes]
           Fixtures.setup_screen
           (geminiService.CallFails geminiService.Nullish)).1
      = Some message ∧
      message ≠ "")
   ∨
   (QuizOverlayControls.step
      (QuizOverlayControls.handleStartQuiz [Fixtures.notes]
         Fixtures.setup_screen
         (geminiService.CallFails geminiService.Nullish)).1
    = QuizOverlayControls.loading ∧
    QuizOverlayControls.quizData
      (QuizOverlayControls.handleStartQuiz [Fixtures.notes]
         Fixtures.setup_screen
         (geminiService.CallFails geminiService.Nullish)).1
    = QuizOverlayControls.quizData Fixtures.setup_screen ∧
    QuizOverlayControls.error
      (QuizOverlayControls.handleStartQuiz [Fixtures.notes]
         Fixtures.setup_screen
         (geminiService.CallFails geminiService.Nullish)).1 = None)).
Proof.
  split; [reflexivity|]. split; [by vm_compute|].
  exact (handleStartQuiz_outcomes [Fixtures.notes] Fixtures.setup_screen
           (geminiService.CallFails geminiService.Nullish) eq_refl).
Defined.
End setup_screen.

(* ===================================================================== *)
(** ** Study materials *)
(* ===================================================================== *)

Section study_materials.
Implicit Types (m e : StudyMaterial.t) (prev : list StudyMaterial.t).

Lemma filter_text_others prev :
  filter (λ m, StudyMaterial.type m = StudyMaterial.text)
    (filter (λ m, StudyMaterial.type m ≠ StudyMaterial.text) prev) = [].
Proof.
  induction prev as [|m prev IH]; [done|].
  rewrite (filter_cons (λ m, StudyMaterial.type m ≠ StudyMaterial.text)).
  destruct (decide (StudyMaterial.type m ≠ StudyMaterial.text)); [|done].
  rewrite filter_cons. by rewrite decide_False by tauto.
Qed.

Lemma filter_others_idemp prev :
  filter (λ m, StudyMaterial.type m ≠ StudyMaterial.text)
    (filter (λ m, StudyMaterial.type m ≠ StudyMaterial.text) prev)
  = filter (λ m, StudyMaterial.type m ≠ StudyMaterial.text) prev.
Proof.
  induction prev as [|m prev IH]; [done|].
  rewrite (filter_cons _ m prev).
  destruct (decide (StudyMaterial.type m ≠ StudyMaterial.text)); [|done].
  rewrite filter_cons. rewrite decide_True by done. by rewrite IH.
Qed.

Lemma list_find_text_others_snoc prev (n : StudyMaterial.t) :
  StudyMaterial.type n = StudyMaterial.text →
  snd <$> list_find (λ m, StudyMaterial.type m = StudyMaterial.text)
            (filter (λ m, StudyMaterial.type m ≠ StudyMaterial.text) prev
             ++ [n])
  = Some n.
Proof.
  intros Hn. induction prev as [|m prev IH]; simpl.
  - by rewrite decide_True.
  - rewrite filter_cons.
    destruct (decide (StudyMaterial.type m ≠ StudyMaterial.text)); [|done].
    simpl. rewrite decide_False by done.
    destruct (list_find _ _) as [[i x]|]; simpl in *; done.
Qed.

Lemma handleNotesChange_one_note (newText generated : string) prev :
  ∃ n : StudyMaterial.t,
    StudyMaterials.handleNotesChange newText generated prev
    = filter (λ m, StudyMaterial.type m ≠ StudyMaterial.text) prev ++ [n] ∧
    StudyMaterial.type n = StudyMaterial.text ∧
    StudyMaterial.content n = newText ∧
    filter (λ m, StudyMaterial.type m = StudyMaterial.text)
      (StudyMaterials.handleNotesChange newText generated prev) = [n] ∧
    filter (λ m, StudyMaterial.type m ≠ StudyMaterial.text)
      (StudyMaterials.handleNotesChange newText generated prev)
    = filter (λ m, StudyMaterial.type m ≠ StudyMaterial.text) prev.
Proof.
  unfold StudyMaterials.handleNotesChange. eexists.
  split; [reflexivity|]. split; [reflexivity|]. split; [reflexivity|].
  rewrite !filter_app, filter_text_others, filter_others_idemp.
  split; [done|]. by rewrite app_nil_r.
Qed.

(** X16. After the notes are edited the list holds exactly one text
    material, in last place, with the typed text; the other materials
    are the ones it held before, in the same order.  This holds also
    when the list held no notes, or several, before. *)
Theorem notes_edit_keeps_one_note (newText generated : string) prev :
  ∃ n : StudyMaterial.t,
    StudyMaterials.handleNotesChange newText generated prev
    = filter (λ m, StudyMaterial.type m ≠ StudyMaterial.text) prev ++ [n] ∧
    StudyMaterial.type n = StudyMaterial.text ∧
    StudyMaterial.content n = newText ∧
    filter (λ m, StudyMaterial.type m = StudyMaterial.text)
      (StudyMaterials.handleNotesChange newText generated prev) = [n] ∧
    filter (λ m, StudyMaterial.type m ≠ StudyMaterial.text)
      (StudyMaterials.handleNotesChange newText generated prev)
    = filter (λ m, StudyMaterial.type m ≠ StudyMaterial.text) prev.
Proof. apply handleNotesChange_one_note. Qed.

(** X17. Of two successive edits of the notes only the last one counts
    for the text, and the notes keep the id and the summary they had
    after the first: the result is that of the second edit alone, made
    with the id the first one generated. *)
Theorem notes_last_edit_wins
    (text1 text2 generated1 generated2 : string) prev :
  generated1 ≠ "" →
  StudyMaterials.handleNotesChange text2 generated2
    (StudyMaterials.handleNotesChange text1 generated1 prev)
  = StudyMaterials.handleNotesChange text2 generated1 prev.
Proof.
  intros Hgen.
  destruct (handleNotesChange_one_note text1 generated1 prev)
    as (n & Hres & Htype & _ & _ & Hothers).
  unfold StudyMaterials.handleNotesChange at 1.
  rewrite Hothers, Hres, list_find_text_others_snoc by done. simpl.
  unfold StudyMaterials.handleNotesChange in Hres.
  apply app_inv_head in Hres. injection Hres as <-.
  unfold StudyMaterials.handleNotesChange. simpl. do 2 f_equal.
  destruct (list_find _ prev) as [[i e]|]; simpl.
  - destruct (QuizOverlay.truthy (StudyMaterial.id e)) eqn:He.
    + by rewrite He.
    + unfold QuizOverlay.truthy at 1.
      by rewrite bool_decide_eq_false_2 by done.
  - unfold QuizOverlay.truthy.
    by rewrite bool_decide_eq_false_2 by done.
Qed.

Lemma notes_last_edit_wins_witness :
  "k3x9" ≠ "" ∧
  StudyMaterials.handleNotesChange "Heat flows" "zz17"
    (StudyMaterials.handleNotesChange "Heat" "k3x9" [])
  = StudyMaterials.handleNotesChange "Heat flows" "k3x9" [].
Proof.
  assert ("k3x9" ≠ "") as H by done.
  split; [exact H|].
  exact (notes_last_edit_wins "Heat" "Heat flows" "k3x9" "zz17" [] H).
Defined.

(** X18. When [handleSummarize] has run for a material, with a summary
    or with a failure, no material with its id is left marked as being
    summarized; ids, kinds and contents of all materials are what they
    were, in the same order; materials with another id are untouched;
    and after a failure the summaries too are what they were. *)
Theorem summarize_always_ends
    (material : StudyMaterial.t) (reply : option string) prev :
  Forall (λ m, StudyMaterial.id m = StudyMaterial.id material →
               StudyMaterial.isSummarizing m = Some false)
    (StudyMaterials.handleSummarize material reply prev) ∧
  StudyMaterial.id <$> StudyMaterials.handleSummarize material reply prev
    = StudyMaterial.id <$> prev ∧
  StudyMaterial.type <$> StudyMaterials.handleSummarize material reply prev
    = StudyMaterial.type <$> prev ∧
  StudyMaterial.content <$> StudyMaterials.handleSummarize material reply prev
    = StudyMaterial.content <$> prev ∧
  (∀ (i : nat) (m : StudyMaterial.t),
     prev !! i = Some m →
     StudyMaterial.id m ≠ StudyMaterial.id material →
     StudyMaterials.handleSummarize material reply prev !! i = Some m) ∧
  StudyMaterial.summary
    <$> StudyMaterials.handleSummarize material None prev
    = StudyMaterial.summary <$> prev.
Proof.
  unfold StudyMaterials.handleSummarize, StudyMaterials.summarize_start,
    StudyMaterials.summarize_done, StudyMaterials.summarize_failed.
  split_and!.
  - apply Forall_forall. intros m Hin Hid.
    destruct reply as [summary|];
      apply list_elem_of_fmap in Hin as (m1 & -> & Hin);
      apply list_elem_of_fmap in Hin as (m0 & -> & Hin);
      repeat (case_bool_decide; simpl in * ); done.
  - destruct reply; rewrite <-!list_fmap_compose; apply list_fmap_ext;
      intros i m _; simpl; repeat (case_bool_decide; simpl); done.
  - destruct reply; rewrite <-!list_fmap_compose; apply list_fmap_ext;
      intros i m _; simpl; repeat (case_bool_decide; simpl); done.
  - destruct reply; rewrite <-!list_fmap_compose; apply list_fmap_ext;
      intros i m _; simpl; repeat (case_bool_decide; simpl); done.
  - intros i m Hi Hne.
    destruct reply; rewrite !list_lookup_fmap, Hi; simpl;
      repeat (case_bool_decide; simpl in * ); done.
  - rewrite <-!list_fmap_compose. apply list_fmap_ext.
    intros i m _. simpl. repeat (case_bool_decide; simpl); done.
Qed.
End study_materials.

(* ===================================================================== *)
(** ** Chat sessions *)
(* ===================================================================== *)

Section chat_sessions.
Import ChatInterface.
Implicit Types (s : State) (x : ChatSession) (k sid : string).

Lemma elem_of_ids_filter (l : list ChatSession) sid k :
  k ∈ id <$> filter (λ x, id x ≠ sid) l ↔ k ∈ id <$> l ∧ k ≠ sid.
Proof.
  rewrite !list_elem_of_fmap. split.
  - intros (x & -> & [Hne Hin]%list_elem_of_filter). eauto.
  - intros [(x & -> & Hin) Hne]. exists x. split; [done|].
    by apply list_elem_of_filter.
Qed.

Lemma ids_rename (l : list ChatSession) (x0 : ChatSession) (newName : string) :
  id <$> ((λ x, if bool_decide (id x = id x0)
                then mkSession (id x) newName (type x) (members x)
                else x) <$> l)
  = id <$> l.
Proof.
  rewrite <-list_fmap_compose. apply list_fmap_ext.
  intros i x _. simpl. by case_bool_decide.
Qed.

Lemma handleDeleteSession_well_formed confirmed sid s :
  well_formed s → well_formed (handleDeleteSession confirmed sid s).
Proof.
  intros [Hgen Hact]. unfold handleDeleteSession.
  case_bool_decide as Hsid; [done|].
  destruct confirmed; [|done].
  split; simpl; rewrite elem_of_ids_filter.
  - split; [done|congruence].
  - case_bool_decide; [split; [done|congruence]|done].
Qed.

Lemma chat_fixture_well_formed :
  well_formed Fixtures.chat.
Proof.
  split; simpl.
  - left.
  - right. left.
Qed.

(** X20. A confirmed deletion of a session other than General leaves no
    session and no transcript under the deleted id and never leaves the
    deleted id active; the sessions and transcripts under other ids are
    untouched.  General is never deleted, and a declined deletion changes
    nothing. *)
Theorem delete_removes_one_session s sid :
  sid ≠ "general" →
  (sid ∉ id <$> sessions (handleDeleteSession true sid s)) ∧
  messagesMap (handleDeleteSession true sid s) !! sid = None ∧
  activeSessionId (handleDeleteSession true sid s) ≠ sid ∧
  (∀ x, x ∈ sessions (handleDeleteSession true sid s)
        ↔ x ∈ sessions s ∧ id x ≠ sid) ∧
  (∀ k, k ≠ sid →
        messagesMap (handleDeleteSession true sid s) !! k
        = messagesMap s !! k) ∧
  handleDeleteSession false sid s = s ∧
  (∀ confirmed : bool, handleDeleteSession confirmed "general" s = s).
Proof.
  intros Hsid. unfold handleDeleteSession.
  rewrite (bool_decide_eq_false_2 (sid = "general")) by done. simpl.
  split_and!.
  - rewrite elem_of_ids_filter. tauto.
  - apply lookup_delete_eq.
  - case_bool_decide; congruence.
  - intros x. rewrite list_elem_of_filter. tauto.
  - intros k Hk. by apply lookup_delete_ne.
  - done.
  - done.
Qed.

End chat_sessions.

Section chat_handlers.
Import ChatInterface.
Variable trim : string → string.
Implicit Types (s : State) (x : ChatSession) (k sid : string).

Lemma act_well_formed s (a : action) :
  well_formed s → well_formed (act trim s a).
Proof.
  intros Hwf. destruct a as [row|row confirmed|row answer|ty|newName|n1 n2];
    simpl; try done.
  - destruct (sessions s !! row) as [x|] eqn:Hrow; [|done].
    destruct Hwf as [Hgen _]. split; [done|]. simpl.
    apply list_elem_of_fmap. exists x. split; [done|].
    by eapply list_elem_of_lookup_2.
  - destruct (sessions s !! row) as [x|]; [|done].
    by apply handleDeleteSession_well_formed.
  - destruct (sessions s !! row) as [x|]; [|done].
    unfold handleRenameSession. destruct answer as [newName|]; [|done].
    destruct (_ && _); [|done].
    destruct Hwf as [Hgen Hact]. split; simpl; by rewrite ids_rename.
  - unfold submitCreate. destruct (negb _); [done|].
    destruct Hwf as [Hgen Hact].
    destruct (createType s); split; simpl;
      rewrite fmap_app, elem_of_app; simpl;
      [by left|right; left|by left|right; left].
Qed.

(** X19. Whatever is done on the session list and in the creation dialog
    (selecting, deleting and renaming rows, opening the dialog, typing a
    name, creating), a state in which General is listed and the active
    id belongs to a listed session stays such a state; so the active
    session is always found by its id, never by the fallback to the
    first session. *)
Theorem sessions_stay_well_formed s (actions : list action) :
  well_formed s →
  well_formed (run trim s actions) ∧
  ∃ x : ChatSession,
    activeSession (run trim s actions) = Some x ∧
    id x = activeSessionId (run trim s actions).
Proof.
  intros Hwf.
  assert (well_formed (run trim s actions)) as Hrun.
  { unfold run. revert s Hwf.
    induction actions as [|a actions IH]; intros s Hwf; simpl; [done|].
    by apply IH, act_well_formed. }
  split; [done|]. destruct Hrun as [_ Hact].
  unfold activeSession.
  destruct (list_find _ _) as [[i x]|] eqn:Hfind.
  - apply list_find_Some in Hfind as (_ & Hid & _). by exists x.
  - apply list_find_None in Hfind.
    apply list_elem_of_fmap in Hact as (x & Hid & Hin).
    rewrite Forall_forall in Hfind. by destruct (Hfind x Hin).
Qed.

Lemma run_selects_fields s (rows : list nat) :
  messagesMap (run trim s (Select <$> rows)) = messagesMap s ∧
  sessions (run trim s (Select <$> rows)) = sessions s ∧
  isLoading (run trim s (Select <$> rows)) = isLoading s.
Proof.
  unfold run. revert s. induction rows as [|row rows IH]; intros s; [done|].
  rewrite fmap_cons. cbn [foldl act].
  destruct (sessions s !! row) as [x|]; [|apply IH].
  destruct (IH (with_activeSessionId (id x) s)) as (H1 & H2 & H3).
  by rewrite H1, H2, H3.
Qed.

(** X21. A message that is accepted for sending is answered in the
    session it was sent from, whichever sessions are selected while the
    reply is awaited: that session's transcript grows by the user's
    message followed by one message of the model, whose text is never
    empty (the reply, or a fixed apology when the reply is empty or the
    call failed); all other transcripts are untouched and loading has
    ended. *)
Theorem reply_lands_in_origin_session
    s (textOverride reply : option string) (now now' : Z)
    (rows : list nat) (s1 : State) sid :
  handleSendMessage_start trim textOverride now s = Some (s1, sid) →
  sid = activeSessionId s ∧
  ∃ sent answer : Message,
    messagesMap
      (handleSendMessage_settle sid reply now'
         (run trim s1 (Select <$> rows))) !! sid
    = Some (default [] (messagesMap s !! sid) ++ [sent; answer]) ∧
    msg_role sent = user ∧ trim (text sent) ≠ "" ∧
    msg_role answer = model ∧ text answer ≠ "" ∧
    (∀ k, k ≠ sid →
          messagesMap
            (handleSendMessage_settle sid reply now'
               (run trim s1 (Select <$> rows))) !! k
          = messagesMap s !! k) ∧
    isLoading
      (handleSendMessage_settle sid reply now'
         (run trim s1 (Select <$> rows))) = false.
Proof.
  unfold handleSendMessage_start.
  destruct (negb _ || _) eqn:Hguard; [done|].
  intros [= <- <-]. split; [done|].
  apply orb_false_iff in Hguard as [Htext _].
  rewrite negb_false_iff in Htext.
  eexists _, _. unfold handleSendMessage_settle. simpl.
  destruct (run_selects_fields
              {| sessions := sessions s;
                 messagesMap :=
                   append_message (activeSessionId s)
                     (mkMessage user
                        match textOverride with
                        | Some t =>
                          if QuizOverlay.truthy t then t else inputText s
                        | None => inputText s
                        end now) (messagesMap s);
                 activeSessionId := activeSessionId s;
                 inputText := "";
                 isLoading := true;
                 isCreating := isCreating s;
                 createType := createType s;
                 newItemName := newItemName s |} rows) as (-> & _ & _).
  simpl. unfold append_message. split_and!.
  - rewrite !lookup_insert_eq. simpl. by rewrite <-app_assoc.
  - done.
  - simpl. unfold QuizOverlay.truthy in Htext.
    rewrite negb_true_iff in Htext. by apply bool_decide_eq_false in Htext.
  - done.
  - simpl. destruct reply as [response_text|]; simpl; [|done].
    unfold QuizOverlay.truthy. case_bool_decide; simpl; done.
  - intros k Hk. by rewrite !lookup_insert_ne.
  - done.
Qed.

(** X22. When the session a message was sent from is deleted while the
    reply is awaited, the reply re-creates a transcript under the deleted
    id: afterwards no session is listed under that id, yet the messages
    map holds an entry for it, with the model's message alone. *)
Theorem reply_after_delete_leaves_orphan
    s (textOverride reply : option string) (now now' : Z) (s1 : State) sid :
  handleSendMessage_start trim textOverride now s = Some (s1, sid) →
  sid ≠ "general" →
  (sid ∉ id <$> sessions
                  (handleSendMessage_settle sid reply now'
                     (handleDeleteSession true sid s1))) ∧
  ∃ answer : Message,
    messagesMap
      (handleSendMessage_settle sid reply now'
         (handleDeleteSession true sid s1)) !! sid
    = Some [answer] ∧
    msg_role answer = model.
Proof.
  intros _ Hsid. unfold handleSendMessage_settle, handleDeleteSession.
  rewrite (bool_decide_eq_false_2 (sid = "general")) by done. simpl.
  split.
  - rewrite elem_of_ids_filter. tauto.
  - eexists. unfold append_message.
    rewrite lookup_insert_eq, lookup_delete_eq. simpl. done.
Qed.
End chat_handlers.

Section chat_witnesses.
Import ChatInterface.

Lemma sessions_stay_well_formed_witness :
  well_formed Fixtures.chat ∧
  well_formed
    (run Fixtures.drop_blanks Fixtures.chat
       [Select 0; OpenCreate group; TypeName " Optics club";
        Create 1700000000100 1700000000101; Delete 1 true;
        Rename 0 (Some "Everything")]) ∧
  ∃ x : ChatSession,
    activeSession
      (run Fixtures.drop_blanks Fixtures.chat
         [Select 0; OpenCreate group; TypeName " Optics club";
          Create 1700000000100 1700000000101; Delete 1 true;
          Rename 0 (Some "Everything")]) = Some x ∧
    id x
    = activeSessionId
        (run Fixtures.drop_blanks Fixtures.chat
           [Select 0; OpenCreate group; TypeName " Optics club";
            Create 1700000000100 1700000000101; Delete 1 true;
            Rename 0 (Some "Everything")]).
Proof.
  split; [exact chat_fixture_well_formed|].
  exact (sessions_stay_well_formed Fixtures.drop_blanks Fixtures.chat
           [Select 0; OpenCreate group; TypeName " Optics club";
            Create 1700000000100 1700000000101; Delete 1 true;
            Rename 0 (Some "Everything")]
           chat_fixture_well_formed).
Defined.

Lemma reply_lands_in_origin_session_witness :
  handleSendMessage_start Fixtures.drop_blanks None 1700000000500
    Fixtures.chat
  = Some
      ({| sessions := sessions Fixtures.chat;
          messagesMap :=
            append_message "g1"
              (mkMessage user "What is entropy?" 1700000000500)
              (messagesMap Fixtures.chat);
          activeSessionId := "g1";
          inputText := "";
          isLoading := true;
          isCreating := false;
          createType := personal;
          newItemName := "" |}, "g1") ∧
  "g1" = activeSessionId Fixtures.chat ∧
  ∃ sent answer : Message,
    messagesMap
      (handleSendMessage_settle "g1" None 1700000000900
         (run Fixtures.drop_blanks
            {| sessions := sessions Fixtures.chat;
               messagesMap :=
                 append_message "g1"
                   (mkMessage user "What is entropy?" 1700000000500)
                   (messagesMap Fixtures.chat);
               activeSessionId := "g1";
               inputText := "";
               isLoading := true;
               isCreating := false;
               createType := personal;
               newItemName := "" |}
            (Select <$> [0%nat]))) !! "g1"
    = Some (default [] (messagesMap Fixtures.chat !! "g1") ++ [sent; answer]) ∧
    msg_role sent = user ∧ Fixtures.drop_blanks (text sent) ≠ "" ∧
    msg_role answer = model ∧ text answer ≠ "" ∧
    (∀ k, k ≠ "g1" →
          messagesMap
            (handleSendMessage_settle "g1" None 1700000000900
               (run Fixtures.drop_blanks
                  {| sessions := sessions Fixtures.chat;
                     messagesMap :=
                       append_message "g1"
                         (mkMessage user "What is entropy?" 1700000000500)
                         (messagesMap Fixtures.chat);
                     activeSessionId := "g1";
                     inputText := "";
                     isLoading := true;
                     isCreating := false;
                     createType := personal;
                     newItemName := "" |}
                  (Select <$> [0%nat]))) !! k
          = messagesMap Fixtures.chat !! k) ∧
    isLoading
      (handleSendMessage_settle "g1" None 1700000000900
         (run Fixtures.drop_blanks
            {| sessions := sessions Fixtures.chat;
               messagesMap :=
                 append_message "g1"
                   (mkMessage user "What is entropy?" 1700000000500)
                   (messagesMap Fixtures.chat);
               activeSessionId := "g1";
               inputText := "";
               isLoading := true;
               isCreating := false;
               createType := personal;
               newItemName := "" |}
            (Select <$> [0%nat]))) = false.
Proof.
  split; [reflexivity|].
  exact (reply_lands_in_origin_session Fixtures.drop_blanks Fixtures.chat
           None None 1700000000500 1700000000900 [0%nat] _ "g1" eq_refl).
Defined.


Lemma delete_removes_one_session_witness :
  "g1" ≠ "general" ∧
  ("g1" ∉ id <$> sessions (handleDeleteSession true "g1" Fixtures.chat)) ∧
  messagesMap (handleDeleteSession true "g1" Fixtures.chat) !! "g1" = None ∧
  activeSessionId (handleDeleteSession true "g1" Fixtures.chat) ≠ "g1" ∧
  (∀ x, x ∈ sessions (handleDeleteSession true "g1" Fixtures.chat)
        ↔ x ∈ sessions Fixtures.chat ∧ id x ≠ "g1") ∧
  (∀ k, k ≠ "g1" →
        messagesMap (handleDeleteSession true "g1" Fixtures.chat) !! k
        = messagesMap Fixtures.chat !! k) ∧
  handleDeleteSession false "g1" Fixtures.chat = Fixtures.chat ∧
  (∀ confirmed : bool,
     handleDeleteSession confirmed "general" Fixtures.chat = Fixtures.chat).
Proof.
  assert ("g1" ≠ "general") as H by done.
  split; [exact H|].
  exact (delete_removes_one_session Fixtures.chat "g1" H).
Defined.

Lemma reply_after_delete_leaves_orphan_witness :
  handleSendMessage_start Fixtures.drop_blanks None 1700000000500
    Fixtures.chat
  = Some
      ({| sessions := sessions Fixtures.chat;
          messagesMap :=
            append_message "g1"
              (mkMessage user "What is entropy?" 1700000000500)
              (messagesMap Fixtures.chat);
          activeSessionId := "g1";
          inputText := "";
          isLoading := true;
          isCreating := false;
          createType := personal;
          newItemName := "" |}, "g1") ∧
  "g1" ≠ "general" ∧
  ("g1" ∉ id <$> sessions
                   (handleSendMessage_settle "g1" (Some "Disorder.")
                      1700000000900
                      (handleDeleteSession true "g1"
                         {| sessions := sessions Fixtures.chat;
                            messagesMap :=
                              append_message "g1"
                                (mkMessage user "What is entropy?"
                                   1700000000500)
                                (messagesMap Fixtures.chat);
                            activeSessionId := "g1";
                            inputText := "";
                            isLoading := true;
                            isCreating := false;
                            createType := personal;
                            newItemName := "" |}))) ∧
  ∃ answer : Message,
    messagesMap
      (handleSendMessage_settle "g1" (Some "Disorder.") 1700000000900
         (handleDeleteSession true "g1"
            {| sessions := sessions Fixtures.chat;
               messagesMap :=
                 append_message "g1"
                   (mkMessage user "What is entropy?" 1700000000500)
                   (messagesMap Fixtures.chat);
               activeSessionId := "g1";
               inputText := "";
               isLoading := true;
               isCreating := false;
               createType := personal;
               newItemName := "" |})) !! "g1"
    = Some [answer] ∧
    msg_role answer = model.
Proof.
  assert ("g1" ≠ "general") as H by done.
  split; [reflexivity|]. split; [exact H|].
  exact (reply_after_delete_leaves_orphan Fixtures.drop_blanks Fixtures.chat
           None (Some "Disorder.") 1700000000500 1700000000900 _ "g1"
           eq_refl H).
Defined.
End chat_witnesses.

(* ===================================================================== *)
(** ** The record a submission stores *)
(* ===================================================================== *)

Section stored_record.
Import QuizOverlay.

Lemma topicDisplay_nonempty (focus subject : string) :
  topicDisplay focus subject ≠ "".
Proof.
  unfold topicDisplay, truthy.
  repeat (case_bool_decide; simpl; try done).
Qed.

Lemma topicDisplay_focus (focus subject : string) :
  focus ≠ "" → topicDisplay focus subject = focus.
Proof.
  intros Hf. unfold topicDisplay, truthy.
  rewrite (bool_decide_eq_false_2 (focus = "")) by done. simpl.
  by rewrite (bool_decide_eq_false_2 (focus = "")) by done.
Qed.

(** X23. The record a completed submission appends to the history has a
    score between 0 and its number of questions, which is the number of
    questions of the quiz; its id is the decimal numeral of the first
    clock reading; and it carries a topic that is never empty: the focus
    topic when one was typed. *)
Theorem stored_record_is_well_formed
    (c : State) (quiz : QuizData.t) (now_id now_date : Z) (st : Storage)
    (m0 : gmap string Z) (w0 : list string) (h0 : list QuizResult.t) :
  quizData c = Some quiz →
  parse_or ∅ (studyBuddy_topic_mastery st) = Normal m0 →
  parse_or [] (studyBuddy_weakTopics st) = Normal w0 →
  parse_or [] (studyBuddy_quizHistory st) = Normal h0 →
  ∃ (r : QuizResult.t) (t : string),
    studyBuddy_quizHistory (handleSubmit c now_id now_date st).1
      = Holds (h0 ++ [r]) ∧
    0 ≤ QuizResult.score r ≤ QuizResult.totalQuestions r ∧
    QuizResult.totalQuestions r
      = Z.of_nat (length (QuizData.questions quiz)) ∧
    QuizResult.id r = pretty now_id ∧
    QuizResult.topic r = Some t ∧
    t ≠ "" ∧
    (focusTopic c ≠ "" → t = focusTopic c).
Proof.
  intros Hq Hm Hw Hh.
  rewrite (handleSubmit_loaded c quiz now_id now_date st m0 w0 h0) by done.
  eexists _, _. simpl. split; [reflexivity|].
  unfold loop_result. rewrite correctCount_forEach_questions. simpl.
  pose proof (length_filter (λ q, isCorrect (answers c) q = true)
                (QuizData.questions quiz)).
  split_and!; try done; try lia.
  - apply topicDisplay_nonempty.
  - apply topicDisplay_focus.
Qed.

Lemma stored_record_is_well_formed_witness :
  quizData (Sample.overlay Sample.picked) = Some Sample.quiz ∧
  parse_or ∅ (studyBuddy_topic_mastery Sample.used_storage)
    = Normal {[ "Algebra" := 2 ]} ∧
  parse_or [] (studyBuddy_weakTopics Sample.used_storage)
    = Normal ["Algebra"] ∧
  parse_or [] (studyBuddy_quizHistory Sample.used_storage)
    = Normal [Sample.earlier] ∧
  ∃ (r : QuizResult.t) (t : string),
    studyBuddy_quizHistory
      (handleSubmit (Sample.overlay Sample.picked)
         1700000360000 1700000360001 Sample.used_storage).1
      = Holds ([Sample.earlier] ++ [r]) ∧
    0 ≤ QuizResult.score r ≤ QuizResult.totalQuestions r ∧
    QuizResult.totalQuestions r
      = Z.of_nat (length (QuizData.questions Sample.quiz)) ∧
    QuizResult.id r = pretty 1700000360000 ∧
    QuizResult.topic r = Some t ∧
    t ≠ "" ∧
    (focusTopic (Sample.overlay Sample.picked) ≠ "" →
     t = focusTopic (Sample.overlay Sample.picked)).
Proof.
  split_and!; [reflexivity..|].
  exact (stored_record_is_well_formed (Sample.overlay Sample.picked)
           Sample.quiz 1700000360000 1700000360001 Sample.used_storage
           {[ "Algebra" := 2 ]} ["Algebra"] [Sample.earlier]
           eq_refl eq_refl eq_refl eq_refl).
Defined.

(** X24. A history stored in strictly increasing date order stays so
    under a completed submission whose second clock reading is later
    than every stored date. *)
Theorem history_stays_chronological
    (c : State) (quiz : QuizData.t) (now_id now_date : Z) (st : Storage)
    (m0 : gmap string Z) (w0 : list string) (h0 : list QuizResult.t) :
  quizData c = Some quiz →
  parse_or ∅ (studyBuddy_topic_mastery st) = Normal m0 →
  parse_or [] (studyBuddy_weakTopics st) = Normal w0 →
  parse_or [] (studyBuddy_quizHistory st) = Normal h0 →
  StronglySorted (λ x y, QuizResult.date x < QuizResult.date y) h0 →
  Forall (λ x, QuizResult.date x < now_date) h0 →
  ∃ h1 : list QuizResult.t,
    studyBuddy_quizHistory (handleSubmit c now_id now_date st).1
      = Holds h1 ∧
    StronglySorted (λ x y, QuizResult.date x < QuizResult.date y) h1.
Proof.
  intros Hq Hm Hw Hh Hsorted Hnew.
  rewrite (handleSubmit_loaded c quiz now_id now_date st m0 w0 h0) by done.
  eexists. split; [reflexivity|]. clear Hh.
  induction Hsorted as [|x h Hh' IH Hx]; simpl.
  - repeat constructor.
  - apply Forall_cons in Hnew as [Hx' Hnew].
    constructor; [by apply IH|].
    apply Forall_app. split; [done|].
    apply Forall_cons_2; [exact Hx'|apply Forall_nil_2].
Qed.

Lemma history_stays_chronological_witness :
  quizData (Sample.overlay Sample.picked) = Some Sample.quiz ∧
  parse_or ∅ (studyBuddy_topic_mastery Sample.used_storage)
    = Normal {[ "Algebra" := 2 ]} ∧
  parse_or [] (studyBuddy_weakTopics Sample.used_storage)
    = Normal ["Algebra"] ∧
  parse_or [] (studyBuddy_quizHistory Sample.used_storage)
    = Normal [Sample.earlier] ∧
  StronglySorted (λ x y, QuizResult.date x < QuizResult.date y)
    [Sample.earlier] ∧
  Forall (λ x, QuizResult.date x < 1700000360001) [Sample.earlier] ∧
  ∃ h1 : list QuizResult.t,
    studyBuddy_quizHistory
      (handleSubmit (Sample.overlay Sample.picked)
         1700000360000 1700000360001 Sample.used_storage).1
      = Holds h1 ∧
    StronglySorted (λ x y, QuizResult.date x < QuizResult.date y) h1.
Proof.
  assert (StronglySorted (λ x y, QuizResult.date x < QuizResult.date y)
            [Sample.earlier]) as Hs by (repeat constructor).
  assert (Forall (λ x, QuizResult.date x < 1700000360001) [Sample.earlier])
    as Hn by (repeat constructor).
  split_and!; [reflexivity..|exact Hs|exact Hn|].
  exact (history_stays_chronological (Sample.overlay Sample.picked)
           Sample.quiz 1700000360000 1700000360001 Sample.used_storage
           {[ "Algebra" := 2 ]} ["Algebra"] [Sample.earlier]
           eq_refl eq_refl eq_refl eq_refl Hs Hn).
Defined.
End stored_record.

(* ===================================================================== *)
(** ** Counters and weak topics together *)
(* ===================================================================== *)

Section counters_and_weak_topics.
Import QuizOverlay.

(** The own properties after an assignment of a value other than
    [null]. *)
Lemma is_Some_own_set (o : Js.object) (k t : string) (v : Js.value) :
  v ≠ Js.Null →
  Js.has_prototype o = true →
  is_Some (Js.own (Js.set o k v) !! t)
  ↔ is_Some (Js.own o !! t) ∨ (t = k ∧ t ≠ "__proto__").
Proof.
  intros Hv Hp. unfold Js.set. rewrite Hp. simpl.
  destruct (Js.own o !! k) as [v0|] eqn:Hk; simpl.
  - destruct (decide (t = k)) as [->|Hne].
    + rewrite lookup_insert_eq, Hk. split; [intros _; left; eauto|eauto].
    + rewrite lookup_insert_ne by done. split; [tauto|].
      intros [?|[? _]]; [done|congruence].
  - case_bool_decide as Hproto; simpl.
    + assert (Js.own match v with
                     | Js.Null => Js.mkObject (Js.own o) false
                     | _ => o
                     end = Js.own o) as -> by (by destruct v).
      split; [tauto|]. intros [?|[-> ?]]; [done|congruence].
    + destruct (decide (t = k)) as [->|Hne].
      * rewrite lookup_insert_eq. split; [intros _; right; done|eauto].
      * rewrite lookup_insert_ne by done. split; [tauto|].
        intros [?|[? _]]; [done|congruence].
Qed.

Lemma is_Some_own_forEach_callback (ans : gmap Z Z)
    (l : QuizOverlayHost.Locals) (q : QuizQuestion.t) (t : string) :
  Js.has_prototype (QuizOverlayHost.currentMastery l) = true →
  is_Some (Js.own (QuizOverlayHost.currentMastery
                     (QuizOverlayHost.forEach_callback ans l q)) !! t)
  ↔ is_Some (Js.own (QuizOverlayHost.currentMastery l) !! t)
    ∨ (t = QuizQuestion.topic q ∧ t ≠ "__proto__").
Proof.
  intros Hp. unfold QuizOverlayHost.forEach_callback.
  destruct (isCorrect ans q); simpl.
  - apply is_Some_own_set; [apply plus_one_not_Null|done].
  - apply is_Some_own_set; [apply max0_not_Null|done].
Qed.

(** The names with an own property after the loop. *)
Lemma is_Some_own_forEach_questions (ans : gmap Z Z)
    (qs : list QuizQuestion.t) (l : QuizOverlayHost.Locals) (t : string) :
  Js.has_prototype (QuizOverlayHost.currentMastery l) = true →
  is_Some (Js.own (QuizOverlayHost.currentMastery
                     (QuizOverlayHost.forEach_questions ans qs l)) !! t)
  ↔ is_Some (Js.own (QuizOverlayHost.currentMastery l) !! t)
    ∨ (t ∈ QuizQuestion.topic <$> qs ∧ t ≠ "__proto__").
Proof.
  intros Hp. induction qs as [|q qs IH] using rev_ind.
  - simpl. rewrite elem_of_nil. tauto.
  - rewrite forEach_questions_snoc, is_Some_own_forEach_callback, IH
      by (by rewrite forEach_questions_has_prototype).
    rewrite fmap_app, elem_of_app. simpl. rewrite list_elem_of_singleton.
    tauto.
Qed.

(** What [handleSubmit] stores for the two keys when they load. *)
Lemma handleSubmit_update_loaded (ans : gmap Z Z) (qs : list QuizQuestion.t)
    (raw_mastery : slot (gmap string Js.json)) (raw_weak : slot (list string))
    (m0 : gmap string Js.json) (w0 : list string) :
  parse_or ∅ raw_mastery = Normal m0 →
  parse_or [] raw_weak = Normal w0 →
  QuizOverlayHost.handleSubmit_update ans qs raw_mastery raw_weak
  = Normal
      (Js.JSON_stringify
         (QuizOverlayHost.currentMastery
            (QuizOverlayHost.forEach_questions ans qs
               (QuizOverlayHost.mkLocals 0 (Js.JSON_parse m0)
                  (JsSet.from_array w0)))),
       QuizOverlayHost.weakTopicsSet
         (QuizOverlayHost.forEach_questions ans qs
            (QuizOverlayHost.mkLocals 0 (Js.JSON_parse m0)
               (JsSet.from_array w0)))).
Proof.
  intros Hm Hw. unfold QuizOverlayHost.handleSubmit_update.
  by rewrite Hm, Hw.
Qed.

Lemma is_Some_stored_mastery (ans : gmap Z Z) (qs : list QuizQuestion.t)
    (m0 : gmap string Js.json) (w : list string) (t : string) :
  is_Some
    (Js.JSON_stringify
       (QuizOverlayHost.currentMastery
          (QuizOverlayHost.forEach_questions ans qs
             (QuizOverlayHost.mkLocals 0 (Js.JSON_parse m0) w))) !! t)
  ↔ is_Some (m0 !! t) ∨ (t ∈ QuizQuestion.topic <$> qs ∧ t ≠ "__proto__").
Proof.
  unfold Js.JSON_stringify. rewrite lookup_fmap, fmap_is_Some.
  rewrite is_Some_own_forEach_questions by done. simpl.
  by rewrite lookup_fmap, fmap_is_Some.
Qed.

(** X25. A submission whose two keys load never removes a member of the
    stored mastery document: the topics with a stored member afterwards
    are those that had one and the topics of the quiz, except that a
    quiz topic named [__proto__] gets none (the assignment goes to the
    setter that plain objects inherit, which ignores it). *)
Theorem stored_counters_are_kept
    (ans : gmap Z Z) (qs : list QuizQuestion.t)
    (raw_mastery : slot (gmap string Js.json)) (raw_weak : slot (list string))
    (m0 : gmap string Js.json) (w0 : list string) :
  parse_or ∅ raw_mastery = Normal m0 →
  parse_or [] raw_weak = Normal w0 →
  ∃ (m1 : gmap string Js.json) (w1 : list string),
    QuizOverlayHost.handleSubmit_update ans qs raw_mastery raw_weak
    = Normal (m1, w1) ∧
    ∀ t : string,
      is_Some (m1 !! t)
      ↔ is_Some (m0 !! t)
        ∨ (t ∈ QuizQuestion.topic <$> qs ∧ t ≠ "__proto__").
Proof.
  intros Hm Hw.
  rewrite (handleSubmit_update_loaded ans qs _ _ m0 w0) by done.
  eexists _, _. split; [reflexivity|].
  intros t. apply is_Some_stored_mastery.
Qed.

Lemma stored_counters_are_kept_witness :
  parse_or ∅ (Holds ({[ "Optics" := Js.JNumber 3 ]} : gmap string Js.json))
  = Normal {[ "Optics" := Js.JNumber 3 ]} ∧
  parse_or [] (Absent : slot (list string)) = Normal [] ∧
  QuizOverlayHost.handleSubmit_update {[ 1 := 0; 3 := 2 ]}
    [Fixtures.on_proto; Sample.question 3 "Algebra" 2]
    (Holds {[ "Optics" := Js.JNumber 3 ]}) Absent
  = Normal ({[ "Optics" := Js.JNumber 3; "Algebra" := Js.JNumber 1 ]}, []) ∧
  ∃ (m1 : gmap string Js.json) (w1 : list string),
    QuizOverlayHost.handleSubmit_update {[ 1 := 0; 3 := 2 ]}
      [Fixtures.on_proto; Sample.question 3 "Algebra" 2]
      (Holds {[ "Optics" := Js.JNumber 3 ]}) Absent
    = Normal (m1, w1) ∧
    ∀ t : string,
      is_Some (m1 !! t)
      ↔ is_Some (({[ "Optics" := Js.JNumber 3 ]} : gmap string Js.json) !! t)
        ∨ (t ∈ QuizQuestion.topic
                 <$> [Fixtures.on_proto; Sample.question 3 "Algebra" 2]
           ∧ t ≠ "__proto__").
Proof.
  split; [reflexivity|]. split; [reflexivity|]. split; [by vm_compute|].
  exact (stored_counters_are_kept {[ 1 := 0; 3 := 2 ]}
           [Fixtures.on_proto; Sample.question 3 "Algebra" 2]
           (Holds {[ "Optics" := Js.JNumber 3 ]}) Absent
           {[ "Optics" := Js.JNumber 3 ]} [] eq_refl eq_refl).
Defined.

(** X26. If every stored weak topic other than [__proto__] has a member
    in the stored mastery document, a submission whose two keys load
    keeps it so. *)
Theorem weak_topics_have_counters
    (ans : gmap Z Z) (qs : list QuizQuestion.t)
    (raw_mastery : slot (gmap string Js.json)) (raw_weak : slot (list string))
    (m0 : gmap string Js.json) (w0 : list string) :
  parse_or ∅ raw_mastery = Normal m0 →
  parse_or [] raw_weak = Normal w0 →
  (∀ t : string, t ∈ w0 → t ≠ "__proto__" → is_Some (m0 !! t)) →
  ∃ (m1 : gmap string Js.json) (w1 : list string),
    QuizOverlayHost.handleSubmit_update ans qs raw_mastery raw_weak
    = Normal (m1, w1) ∧
    ∀ t : string, t ∈ w1 → t ≠ "__proto__" → is_Some (m1 !! t).
Proof.
  intros Hm Hw Hinv.
  rewrite (handleSubmit_update_loaded ans qs _ _ m0 w0) by done.
  eexists _, _. split; [reflexivity|].
  intros t Hin Hne. apply is_Some_stored_mastery.
  destruct (forEach_questions_weak_count ans qs
              (QuizOverlayHost.mkLocals 0 (Js.JSON_parse m0)
                 (JsSet.from_array w0))
              (mkLocals 0 ∅ (JsSet.from_array w0)) eq_refl eq_refl)
    as [Hweak _].
  rewrite Hweak, forEach_questions_process, elem_of_weak_process in Hin.
  destruct (Updater.last_outcome _ _) as [b|] eqn:Hlast.
  - right. split; [|done]. apply last_outcome_Some_elem in Hlast.
    unfold outcomes in Hlast.
    apply list_elem_of_fmap in Hlast as (q & [= -> _] & Hq).
    apply list_elem_of_fmap. by exists q.
  - left. simpl in Hin. rewrite elem_of_JsSet_from_array in Hin.
    by apply Hinv.
Qed.

Lemma weak_topics_have_counters_witness :
  parse_or ∅ (Holds ({[ "Algebra" := Js.JNumber 2 ]} : gmap string Js.json))
  = Normal {[ "Algebra" := Js.JNumber 2 ]} ∧
  parse_or [] (Holds ["Algebra"]) = Normal ["Algebra"] ∧
  (∀ t : string,
     t ∈ ["Algebra"] → t ≠ "__proto__" →
     is_Some (({[ "Algebra" := Js.JNumber 2 ]} : gmap string Js.json) !! t)) ∧
  ∃ (m1 : gmap string Js.json) (w1 : list string),
    QuizOverlayHost.handleSubmit_update Sample.picked
      (QuizData.questions Sample.quiz)
      (Holds {[ "Algebra" := Js.JNumber 2 ]}) (Holds ["Algebra"])
    = Normal (m1, w1) ∧
    ∀ t : string, t ∈ w1 → t ≠ "__proto__" → is_Some (m1 !! t).
Proof.
  assert (∀ t : string,
            t ∈ ["Algebra"] → t ≠ "__proto__" →
            is_Some (({[ "Algebra" := Js.JNumber 2 ]} : gmap string Js.json)
                     !! t)) as Hinv.
  { intros t ->%list_elem_of_singleton _. by exists (Js.JNumber 2). }
  split; [reflexivity|]. split; [reflexivity|]. split; [exact Hinv|].
  exact (weak_topics_have_counters Sample.picked
           (QuizData.questions Sample.quiz)
           (Holds {[ "Algebra" := Js.JNumber 2 ]}) (Holds ["Algebra"])
           {[ "Algebra" := Js.JNumber 2 ]} ["Algebra"]
           eq_refl eq_refl Hinv).
Defined.
End counters_and_weak_topics.
